(** * join-pdf-go: filename ordering, folder listing, upload / merge
      orchestration and the access-code store of package [pdf]

    A shallow embedding of package [pdf] (pkg/pdf) of the join-pdf-go
    service and of the routes of cmd/main.go.  Go strings are byte
    strings ([string] of [ascii]); Go [int] is a 64-bit integer carried as
    [Z]; [map[string]bool] is a [gmap string bool]; the filesystem the
    handlers work on is a finite map from cleaned paths to nodes, threaded
    through the handlers as explicit state together with the calls made to
    the external merge operation.  What the handlers print to standard
    output is left out. *)

From Stdlib Require Import ZArith Ascii String List Bool Lia Permutation Sorted.
From Stdlib Require Import DecimalString Decimal DecimalPos DecimalZ.
From stdpp Require Import gmap strings list fin_maps sorting.

Import ListNotations.
Open Scope string_scope.
Open Scope list_scope.
Open Scope Z_scope.

(** ** Errors and results *)

(** Go's [error] values that the package produces or forwards. *)
Inductive error : Type :=
| ErrSyntax                       (* strconv.ErrSyntax *)
| ErrRange                        (* strconv.ErrRange *)
| PathError (op path errno : string)  (* *fs.PathError of an os call *)
| CorruptInputError               (* base64.CorruptInputError *)
| Errorf (msg : string)           (* fmt.Errorf(msg) *)
| ExternalError (msg : string).   (* an error of the merge library *)

(** A Go pair [(value, error)] of which exactly one side is meaningful. *)
Inductive result (A : Type) : Type :=
| Ok (a : A)
| Err (e : error).
Arguments Ok {A} a.
Arguments Err {A} e.

Definition is_err {A} (r : result A) : bool :=
  match r with Ok _ => false | Err _ => true end.

(** ** Bytes and Go string comparison *)

Definition byteOf (c : ascii) : Z := Z.of_N (N_of_ascii c).

Definition isDigit (c : ascii) : bool :=
  (48 <=? byteOf c) && (byteOf c <=? 57).

(** Go's [a < b] on strings: byte-wise lexicographic comparison. *)
Fixpoint stringLess (a b : string) : bool :=
  match a, b with
  | _, EmptyString => false
  | EmptyString, String _ _ => true
  | String x a', String y b' =>
      if byteOf x <? byteOf y then true
      else if byteOf x =? byteOf y then stringLess a' b'
      else false
  end.

(** ** Package strings *)

Module Strings.

(** [strings.HasSuffix]:
    [len(s) >= len(suffix) && s[len(s)-len(suffix):] == suffix]. *)
Definition HasSuffix (s suffix : string) : bool :=
  (String.length suffix <=? String.length s)%nat &&
  String.eqb
    (substring (String.length s - String.length suffix)
               (String.length suffix) s)
    suffix.

(** [strings.Split(s, sep)] for a one-byte separator [sep]: the pieces of
    [s] between the occurrences of [sep]; always at least one piece. *)
Fixpoint Split (s : string) (sep : ascii) : list string :=
  match s with
  | EmptyString => [EmptyString]
  | String c rest =>
      if Ascii.eqb c sep then EmptyString :: Split rest sep
      else match Split rest sep with
           | [] => [String c EmptyString]
           | p :: ps => String c p :: ps
           end
  end.

(** [strings.Join(elems, sep)]. *)
Definition Join (elems : list string) (sep : string) : string :=
  String.concat sep elems.

End Strings.

(** ** Package strconv *)

Module Strconv.

Definition maxUint64 : Z := 2 ^ 64 - 1.
Definition maxInt64 : Z := 2 ^ 63 - 1.
Definition minInt64 : Z := - 2 ^ 63.

(** The digit loop of [ParseUint(s, 10, 64)]: a byte that is not a decimal
    digit is a syntax error, a value above [maxUint64] a range error,
    whichever the left-to-right scan meets first. *)
Fixpoint parseDigits (s : string) (n : Z) : result Z :=
  match s with
  | EmptyString => Ok n
  | String c rest =>
      if isDigit c then
        let n1 := n * 10 + (byteOf c - 48) in
        if maxUint64 <? n1 then Err ErrRange else parseDigits rest n1
      else Err ErrSyntax
  end.

Definition ParseUint (s : string) : result Z :=
  match s with
  | EmptyString => Err ErrSyntax
  | _ => parseDigits s 0
  end.

(** [strconv.Atoi] on a 64-bit platform ([ParseInt(s, 10, 0)]; the fast
    path for short inputs computes the same result): an optional sign, at
    least one decimal digit and nothing else, within the range of
    [int]. No space is trimmed. *)
Definition Atoi (s : string) : result Z :=
  match s with
  | EmptyString => Err ErrSyntax
  | String c rest =>
      let neg := Ascii.eqb c "-" in
      let body := if Ascii.eqb c "+" || neg then rest else s in
      match ParseUint body with
      | Err e => Err e
      | Ok un =>
          if negb neg && (maxInt64 <? un) then Err ErrRange
          else if neg && (- minInt64 <? un) then Err ErrRange
          else Ok (if neg then - un else un)
      end
  end.

(** [strconv.Itoa], which is what the verb [%d] of [fmt.Sprintf] prints. *)
Definition Itoa (n : Z) : string :=
  NilZero.string_of_int (Z.to_int n).

End Strconv.

(** ** Package regexp, for the one pattern the package compiles *)

Module Regexp.

(** [regexp.MustCompile(`[0-9] `).FindAllString(s, -1)]: the successive
    non-overlapping leftmost matches of "one decimal digit followed by
    one space".  Both bytes are ASCII, so scanning bytes and scanning
    UTF-8 runes find the same matches. *)
Fixpoint FindAllString (s : string) : list string :=
  match s with
  | String c (String d rest as tl) =>
      if isDigit c && Ascii.eqb d " "
      then String c (String d EmptyString) :: FindAllString rest
      else FindAllString tl
  | _ => []
  end.

End Regexp.

(** ** Package sort *)

Module Sort.
Section Slice.
Context {A : Type} (less : A -> A -> bool).

(** The inner loop of [insertionSortLessFunc]:
    [for j := i; j > a && less(j, j-1); j-- { swap(j, j-1) }].
    The sorted prefix is held reversed, its last element first. *)
Fixpoint sink (x : A) (revPrefix : list A) : list A :=
  match revPrefix with
  | [] => [x]
  | y :: r => if less x y then y :: sink x r else x :: y :: r
  end.

(** [sort.Slice(data, less)].  Up to 12 elements Go runs exactly this
    insertion sort; on longer slices it runs pattern-defeating
    quicksort, which also returns a permutation of the input sorted
    for [less].  Lemma [sorted_perm_unique] below shows that for a
    strict total order there is only one such list, so this function
    gives the result of [sort.Slice] at every length. *)
Definition Slice (data : list A) : list A :=
  rev (fold_left (fun acc x => sink x acc) data []).

(** [a] may stand before [b]: [less] does not ask for [b] first. *)
Definition inOrder (a b : A) : Prop := less b a = false.
End Slice.
End Sort.

(** ** Directory entries and folder listing *)

(** What the package uses of an [fs.DirEntry]. *)
Record DirEntry : Type := {
  Name : string;
  IsDir : bool
}.

(** The function literal handed to [sort.Slice] in
    [ListFilesWithExtension], on the two elements it indexes. *)
Definition less (fi fj : string) : bool :=
  let foundN1 := Regexp.FindAllString fi in
  let foundN2 := Regexp.FindAllString fj in
  match foundN1, foundN2 with
  | [], _ | _, [] => stringLess fi fj
  | t1 :: _, t2 :: _ =>
      match Strconv.Atoi t1, Strconv.Atoi t2 with
      | Ok n1, Ok n2 => n1 <? n2
      | _, _ => stringLess fi fj
      end
  end.

Section Listing.
(** [var osReadDir = os.ReadDir]: the package-level indirection that the
    tests replace by a mock. *)
Variable osReadDir : string -> result (list DirEntry).

(** The loop that collects [matchedFiles]. *)
Definition matchFiles (files : list DirEntry) (ext : string) : list string :=
  fold_left
    (fun matchedFiles file =>
       if negb (IsDir file) && Strings.HasSuffix (Name file) ext
       then matchedFiles ++ [Name file]
       else matchedFiles)
    files [].

Definition ListFilesWithExtension (dir ext : string) : result (list string) :=
  match osReadDir dir with
  | Err e => Err e
  | Ok files => Ok (Sort.Slice less (matchFiles files ext))
  end.
End Listing.

(** The condition under which the collecting loop keeps an entry:
    [!file.IsDir() && strings.HasSuffix(file.Name(), ext)]. *)
Definition keeps (ext : string) (file : DirEntry) : bool :=
  negb (IsDir file) && Strings.HasSuffix (Name file) ext.

(** ** Package path/filepath (Unix) *)

Module Filepath.

(** The element-wise work of [Clean]: drop empty and [.] elements, let an
    inner [..] cancel the element before it, drop [..] at the start of a
    rooted path.  [out] holds the elements kept so far, last first. *)
Fixpoint cleanElems (rooted : bool) (elems out : list string) : list string :=
  match elems with
  | [] => rev out
  | e :: rest =>
      if String.eqb e "" || String.eqb e "." then cleanElems rooted rest out
      else if String.eqb e ".." then
        match out with
        | top :: out' =>
            if String.eqb top ".." then cleanElems rooted rest (e :: out)
            else cleanElems rooted rest out'
        | [] =>
            if rooted then cleanElems rooted rest []
            else cleanElems rooted rest [e]
        end
      else cleanElems rooted rest (e :: out)
  end.

(** [filepath.Clean]. *)
Definition Clean (path : string) : string :=
  match path with
  | EmptyString => "."
  | String c _ =>
      let rooted := Ascii.eqb c "/" in
      let out := cleanElems rooted (Strings.Split path "/") [] in
      if rooted then "/" +:+ Strings.Join out "/"
      else match out with
           | [] => "."
           | _ => Strings.Join out "/"
           end
  end.

(** [filepath.Join]: the elements from the first non-empty one on, joined
    by the separator and cleaned; the empty string when there is none. *)
Fixpoint Join (elem : list string) : string :=
  match elem with
  | [] => ""
  | e :: rest =>
      if String.eqb e "" then Join rest
      else Clean (Strings.Join elem "/")
  end.

(** [filepath.Dir]: all but the last element, cleaned. *)
Definition Dir (path : string) : string :=
  match removelast (Strings.Split path "/") with
  | [] => Clean ""
  | init => Clean (Strings.Join init "/" +:+ "/")
  end.

(** [filepath.Base]: the last element, trailing separators ignored. *)
Definition Base (path : string) : string :=
  match path with
  | EmptyString => "."
  | _ =>
      match rev (List.filter (fun e => negb (String.eqb e ""))
                        (Strings.Split path "/")) with
      | [] => "/"
      | e :: _ => e
      end
  end.

End Filepath.

(** ** The filesystem and package os *)

(** A node of the filesystem: a regular file with its bytes, or a
    directory. *)
Inductive node : Type :=
| File (data : string)
| Directory.

Definition isDirectory (n : node) : bool :=
  match n with Directory => true | File _ => false end.

(** The filesystem: cleaned absolute path to node.  An entry of directory
    [d] is a path other than [d] whose [filepath.Dir] is [d]. *)
Abbreviation filesystem := (gmap string node).

Module OS.

Definition isEntryOf (dir : string) (p : string) : bool :=
  String.eqb (Filepath.Dir p) dir && negb (String.eqb p dir).

Definition entriesOf (fs : filesystem) (dir : string) : list DirEntry :=
  omap (fun pn : string * node =>
          if isEntryOf dir pn.1
          then Some {| Name := Filepath.Base pn.1; IsDir := isDirectory pn.2 |}
          else None)
       (map_to_list fs).

(** [os.ReadDir]: the entries of the directory, sorted by filename. *)
Definition ReadDir (fs : filesystem) (dir : string) : result (list DirEntry) :=
  match fs !! dir with
  | Some Directory =>
      Ok (Sort.Slice (fun a b => stringLess (Name a) (Name b)) (entriesOf fs dir))
  | Some (File _) => Err (PathError "open" dir "not a directory")
  | None => Err (PathError "open" dir "no such file or directory")
  end.

(** The walk of [os.MkdirAll] from [cur] down the remaining elements. *)
Fixpoint mkdirs (fs : filesystem) (cur : string) (elems : list string)
  : result filesystem :=
  match fs !! cur with
  | Some (File _) => Err (PathError "mkdir" cur "not a directory")
  | _ =>
      let fs1 := <[cur := Directory]> fs in
      match elems with
      | [] => Ok fs1
      | e :: rest => mkdirs fs1 (Filepath.Join [cur; e]) rest
      end
  end.

(** [os.MkdirAll(path, perm)] on an absolute path: the directory and every
    missing parent are created; an existing directory is left as it is. *)
Definition MkdirAll (fs : filesystem) (path : string) : result filesystem :=
  mkdirs fs "/"
    (List.filter (fun e => negb (String.eqb e ""))
                 (Strings.Split (Filepath.Clean path) "/")).

(** [os.Create(name)]: creates the file or truncates it; fails on a
    directory and where the parent directory is missing. *)
Definition Create (fs : filesystem) (name : string) : result filesystem :=
  match fs !! name with
  | Some Directory => Err (PathError "open" name "is a directory")
  | _ =>
      match fs !! Filepath.Dir name with
      | Some Directory => Ok (<[name := File ""]> fs)
      | _ => Err (PathError "open" name "no such file or directory")
      end
  end.

(** [io.Copy(dst, src)] where [dst] is the file just created at [name]
    and [src] the whole content of the uploaded part. *)
Definition Copy (fs : filesystem) (name : string) (src : string)
  : result filesystem :=
  match fs !! name with
  | Some (File old) => Ok (<[name := File (old +:+ src)]> fs)
  | _ => Err (PathError "write" name "bad file descriptor")
  end.

(** [os.ReadFile(name)]: the bytes of a regular file. *)
Definition ReadFile (fs : filesystem) (name : string) : result string :=
  match fs !! name with
  | Some (File data) => Ok data
  | Some Directory => Err (PathError "read" name "is a directory")
  | None => Err (PathError "open" name "no such file or directory")
  end.

End OS.

(** ** Package encoding/base64, [StdEncoding] *)

Module Base64.

Definition encodeStd : string :=
  "ABCDEFGHIJKLMNOPQRSTUVWXYZabcdefghijklmnopqrstuvwxyz0123456789+/".

Definition padChar : ascii := "=".

(** [enc.encode[i]]. *)
Definition encodeAt (i : Z) : ascii :=
  match String.get (Z.to_nat i) encodeStd with
  | Some c => c
  | None => padChar
  end.

(** [enc.decodeMap[c]], with [None] for the bytes outside the alphabet. *)
Definition decodeMap (c : ascii) : option Z :=
  match index 0 (String c EmptyString) encodeStd with
  | Some i => Some (Z.of_nat i)
  | None => None
  end.

Definition byte (v : Z) : ascii := ascii_of_N (Z.to_N (Z.land v 255)).

(** [Encoding.Encode]: three source bytes make four characters; a last
    block of one or two bytes is padded. *)
Fixpoint Encode (src : string) : string :=
  match src with
  | EmptyString => EmptyString
  | String s0 EmptyString =>
      let val := Z.shiftl (byteOf s0) 16 in
      String (encodeAt (Z.land (Z.shiftr val 18) 63))
     (String (encodeAt (Z.land (Z.shiftr val 12) 63))
     (String padChar (String padChar EmptyString)))
  | String s0 (String s1 EmptyString) =>
      let val := Z.lor (Z.shiftl (byteOf s0) 16) (Z.shiftl (byteOf s1) 8) in
      String (encodeAt (Z.land (Z.shiftr val 18) 63))
     (String (encodeAt (Z.land (Z.shiftr val 12) 63))
     (String (encodeAt (Z.land (Z.shiftr val 6) 63))
     (String padChar EmptyString)))
  | String s0 (String s1 (String s2 rest)) =>
      let val := Z.lor (Z.lor (Z.shiftl (byteOf s0) 16)
                              (Z.shiftl (byteOf s1) 8)) (byteOf s2) in
      String (encodeAt (Z.land (Z.shiftr val 18) 63))
     (String (encodeAt (Z.land (Z.shiftr val 12) 63))
     (String (encodeAt (Z.land (Z.shiftr val 6) 63))
     (String (encodeAt (Z.land val 63)) (Encode rest))))
  end.

(** [StdEncoding.EncodeToString([]byte(s))]. *)
Definition EncodeToString (src : string) : string := Encode src.

(** [StdEncoding.DecodeString] on input without line breaks: quanta of
    four characters, padding only in the last one. *)
Fixpoint DecodeString (s : string) : result string :=
  match s with
  | EmptyString => Ok EmptyString
  | String c0 (String c1 (String c2 (String c3 rest))) =>
      match decodeMap c0, decodeMap c1 with
      | Some d0, Some d1 =>
          if Ascii.eqb c2 padChar then
            if Ascii.eqb c3 padChar && String.eqb rest "" then
              let val := Z.lor (Z.shiftl d0 18) (Z.shiftl d1 12) in
              Ok (String (byte (Z.shiftr val 16)) EmptyString)
            else Err CorruptInputError
          else
            match decodeMap c2 with
            | Some d2 =>
                if Ascii.eqb c3 padChar then
                  if String.eqb rest "" then
                    let val := Z.lor (Z.lor (Z.shiftl d0 18) (Z.shiftl d1 12))
                                     (Z.shiftl d2 6) in
                    Ok (String (byte (Z.shiftr val 16))
                       (String (byte (Z.shiftr val 8)) EmptyString))
                  else Err CorruptInputError
                else
                  match decodeMap c3 with
                  | Some d3 =>
                      let val :=
                        Z.lor (Z.lor (Z.lor (Z.shiftl d0 18) (Z.shiftl d1 12))
                                     (Z.shiftl d2 6)) d3 in
                      match DecodeString rest with
                      | Ok tl =>
                          Ok (String (byte (Z.shiftr val 16))
                             (String (byte (Z.shiftr val 8))
                             (String (byte val) tl)))
                      | Err e => Err e
                      end
                  | None => Err CorruptInputError
                  end
            | None => Err CorruptInputError
            end
      | _, _ => Err CorruptInputError
      end
  | _ => Err CorruptInputError
  end.

End Base64.

(** [DeleteFilesRequest]: the JSON body of a delete request. *)
Record DeleteFilesRequest : Type := {
  Folder : string;
  Files : list string
}.

(** ** Package net/http, as far as the handlers use it *)

Module Http.

Definition MethodPost : string := "POST".
Definition MethodDelete : string := "DELETE".

Definition StatusOK : Z := 200.
Definition StatusSeeOther : Z := 303.
Definition StatusBadRequest : Z := 400.
Definition StatusUnauthorized : Z := 401.
Definition StatusNotFound : Z := 404.
Definition StatusMethodNotAllowed : Z := 405.
Definition StatusInternalServerError : Z := 500.

Inductive SameSite : Type := SameSiteDefaultMode | SameSiteLaxMode.

Record Cookie : Type := {
  CookieName : string;
  CookieValue : string;
  CookiePath : string;
  HttpOnly : bool;
  CookieSameSite : SameSite
}.

(** One part of [r.MultipartForm.File]: the client's file name and what
    [fileHeader.Open()] gives, the content of the part or an error. *)
Record FileHeader : Type := {
  Filename : string;
  Open : result string
}.

(** An inbound request: the fields the handlers read. *)
Record Request : Type := {
  Method : string;
  ParseForm : option error;               (* r.ParseForm() *)
  Form : gmap string string;              (* r.FormValue *)
  Query : gmap string string;             (* r.URL.Query() *)
  Cookies : gmap string string;           (* r.Cookie *)
  userCode : option string;               (* r.Context().Value(userCodeKey).(string) *)
  MultipartFiles : result (list FileHeader); (* r.ParseMultipartForm; r.MultipartForm.File["pdfs"] *)
  JSONBody : result DeleteFilesRequest    (* json.NewDecoder(r.Body).Decode(&req) *)
}.

Definition FormValue (r : Request) (key : string) : string :=
  default "" (Form r !! key).

Definition QueryGet (r : Request) (key : string) : string :=
  default "" (Query r !! key).

(** [r.WithContext(context.WithValue(r.Context(), userCodeKey, code))]. *)
Definition WithUserCode (r : Request) (code : string) : Request :=
  {| Method := Method r; ParseForm := ParseForm r; Form := Form r;
     Query := Query r; Cookies := Cookies r; userCode := Some code;
     MultipartFiles := MultipartFiles r; JSONBody := JSONBody r |}.

(** What a handler has written to its [http.ResponseWriter]. *)
Record Response : Type := {
  Code : Z;
  Body : string;
  SetCookies : list Cookie;
  Location : string
}.

Definition newline : string := String (ascii_of_nat 10) EmptyString.

(** [w.WriteHeader(code); w.Write(body)]. *)
Definition Write (code : Z) (body : string) : Response :=
  {| Code := code; Body := body; SetCookies := []; Location := "" |}.

(** [http.Error(w, msg, code)]: the message is printed with [Fprintln]. *)
Definition Error (msg : string) (code : Z) : Response :=
  Write code (msg +:+ newline).

End Http.

(** ** Package pdf: state *)

(** The state the handlers share: the access codes, the filesystem, the
    working directory of the process and, as a record of what the external
    merge operation was asked to do, the input list and output path of
    each call of [api.MergeCreateFile] (oldest first).  A handler runs as
    one step on this state; [codesMutex] makes each access to [validCodes]
    atomic and has no further effect on a sequential run. *)
Record World : Type := {
  validCodes : gmap string bool;
  fs : filesystem;
  cwd : string;
  mergeCalls : list (list string * string)
}.

Definition setValidCodes (w : World) (codes : gmap string bool) : World :=
  {| validCodes := codes; fs := fs w; cwd := cwd w; mergeCalls := mergeCalls w |}.

Definition setFs (w : World) (fs' : filesystem) : World :=
  {| validCodes := validCodes w; fs := fs'; cwd := cwd w; mergeCalls := mergeCalls w |}.

Definition recordMerge (w : World) (inFiles : list string) (outFile : string) : World :=
  {| validCodes := validCodes w; fs := fs w; cwd := cwd w;
     mergeCalls := mergeCalls w ++ [(inFiles, outFile)] |}.

(** [var validCodes = map[string]bool{"alex": true}] at process start. *)
Definition initialCodes : gmap string bool := {[ "alex" := true ]}.

Definition initialWorld (fs0 : filesystem) (wd : string) : World :=
  {| validCodes := initialCodes; fs := fs0; cwd := wd; mergeCalls := [] |}.

(** The index expression [validCodes[accessCode]] of a [map[string]bool]:
    [false] for a key that is absent. *)
Definition isValid (codes : gmap string bool) (accessCode : string) : bool :=
  default false (codes !! accessCode).

Import Http.

(** ** Access codes *)

Definition GenerateCodeHandler (r : Request) (w : World) : Response * World :=
  if negb (String.eqb (Method r) MethodPost) then
    (Error "Método no permitido" StatusMethodNotAllowed, w)
  else
    match ParseForm r with
    | Some _ => (Error "Error al parsear el formulario" StatusBadRequest, w)
    | None =>
        let name := FormValue r "name" in
        let date := FormValue r "date" in
        if String.eqb name "" || String.eqb date "" then
          (Error "Bad Request: Nombre y fecha son requeridos" StatusBadRequest, w)
        else
          let dataToEncode := name +:+ date in
          let code := Base64.EncodeToString dataToEncode in
          (Write StatusOK (code +:+ newline),
           setValidCodes w (<[code := true]> (validCodes w)))
    end.

Definition LoginHandler (r : Request) (w : World) : Response * World :=
  if negb (String.eqb (Method r) MethodPost) then
    (Error "Método no permitido" StatusMethodNotAllowed, w)
  else
    match ParseForm r with
    | Some _ => (Error "Error al parsear el formulario" StatusBadRequest, w)
    | None =>
        let accessCode := FormValue r "access_code" in
        if String.eqb accessCode "" then
          (Error "Falta el código de acceso" StatusBadRequest, w)
        else if negb (isValid (validCodes w) accessCode) then
          (Error "Código de acceso inválido" StatusUnauthorized, w)
        else
          let cookie := {| CookieName := "auth_code"; CookieValue := accessCode;
                           CookiePath := "/"; HttpOnly := true;
                           CookieSameSite := SameSiteLaxMode |} in
          ({| Code := StatusSeeOther; Body := ""; SetCookies := [cookie];
              Location := "/view/pdf" |}, w)
    end.

Definition HandlerFunc : Type := Request -> World -> Response * World.

Definition AuthMiddleware (next : HandlerFunc) : HandlerFunc :=
  fun r w =>
    match Cookies r !! "auth_code" with
    | None =>
        (Error "No autenticado. Por favor, inicie sesión." StatusUnauthorized, w)
    | Some accessCode =>
        if negb (isValid (validCodes w) accessCode) then
          (Error "Código de acceso inválido o expirado. Por favor, inicie sesión de nuevo."
                 StatusUnauthorized, w)
        else next (WithUserCode r accessCode) w
    end.

(** ** Storage handlers *)

Definition getUserStoragePath (r : Request) (w : World) : result string :=
  match userCode r with
  | None => Err (Errorf "código de usuario no encontrado en el contexto")
  | Some code => Ok (Filepath.Join [cwd w; "archivos"; code])
  end.

(** The name under which the loop of [UploadHandler] stores the part at
    index [i] (from 0) of the batch:
    [numStr := strings.Split(filename, "-")[0]] and, when [Atoi(numStr)]
    fails, [fmt.Sprintf("%d-%s", i+1+counter, filename)].  [i] and
    [counter] are lengths of slices, far from the end of [int]. *)
Definition uploadFilename (counter i : Z) (filename : string) : string :=
  let numStr := hd "" (Strings.Split filename "-") in
  match Strconv.Atoi numStr with
  | Err _ => Strconv.Itoa (i + 1 + counter) +:+ "-" +:+ filename
  | Ok _ => filename
  end.

(** The loop [for i, fileHeader := range files] of [UploadHandler]: [None]
    when it runs to its end, the error response of the first failure
    otherwise; the files written before a failure stay. *)
Fixpoint uploadFiles (folderPath : string) (counter i : Z)
    (files : list FileHeader) (fs0 : filesystem) : option Response * filesystem :=
  match files with
  | [] => (None, fs0)
  | fileHeader :: rest =>
      match Open fileHeader with
      | Err _ => (Some (Error "Error al abrir archivo" StatusInternalServerError), fs0)
      | Ok file =>
          let filename := uploadFilename counter i (Filename fileHeader) in
          let dst := Filepath.Join [folderPath; filename] in
          match OS.Create fs0 dst with
          | Err _ =>
              (Some (Error "Error al guardar archivo" StatusInternalServerError), fs0)
          | Ok fs1 =>
              match OS.Copy fs1 dst file with
              | Err _ =>
                  (Some (Error "Error al copiar archivo" StatusInternalServerError), fs1)
              | Ok fs2 => uploadFiles folderPath counter (i + 1) rest fs2
              end
          end
      end
  end.

Definition UploadHandler (r : Request) (w : World) : Response * World :=
  if negb (String.eqb (Method r) MethodPost) then
    (Error "Método no permitido" StatusMethodNotAllowed, w)
  else
    match getUserStoragePath r w with
    | Err _ => (Error "Error interno de autenticación" StatusInternalServerError, w)
    | Ok userStoragePath =>
        let folder := FormValue r "folder" in
        if String.eqb folder "" then
          (Error "Falta el nombre de la carpeta" StatusBadRequest, w)
        else
          let folderPath := Filepath.Join [userStoragePath; folder] in
          match OS.MkdirAll (fs w) folderPath with
          | Err _ =>
              (Error "No se pudo crear la carpeta del usuario/carpeta"
                     StatusInternalServerError, w)
          | Ok fs1 =>
              match ListFilesWithExtension (OS.ReadDir fs1) folderPath ".pdf" with
              | Err _ => (Error "Error leyendo el directorio" StatusBadRequest, setFs w fs1)
              | Ok destFiles =>
                  let counter := Z.of_nat (length destFiles) in
                  match MultipartFiles r with
                  | Err _ =>
                      (Error "Error al parsear el formulario" StatusBadRequest,
                       setFs w fs1)
                  | Ok files =>
                      match uploadFiles folderPath counter 0 files fs1 with
                      | (Some resp, fs2) => (resp, setFs w fs2)
                      | (None, fs2) =>
                          (Write StatusOK "Archivos subidos correctamente", setFs w fs2)
                      end
                  end
              end
          end
    end.

Section Merge.
(** [api.MergeCreateFile(inFiles, outFile, false, nil)] of pdfcpu, the
    external merge operation: whatever it does to the filesystem, and
    the error it returns, if any. *)
Variable MergeCreateFile :
  filesystem -> list string -> string -> option error * filesystem.

Definition joinPDFs (path folder : string) (w : World) : option error * World :=
  let folderPath := Filepath.Join [path; folder] in
  match ListFilesWithExtension (OS.ReadDir (fs w)) folderPath ".pdf" with
  | Err e => (Some e, w)
  | Ok files =>
      if (length files =? 0)%nat then
        (Some (Errorf "no se encontraron archivos PDF en la ruta proporcionada"), w)
      else
        let outputFilePath :=
          Filepath.Join [folderPath; "../"; folder +:+ ".pdf"] in
        let filesToJoin := map (fun f => Filepath.Join [folderPath; f]) files in
        let w1 := recordMerge w filesToJoin outputFilePath in
        match MergeCreateFile (fs w) filesToJoin outputFilePath with
        | (Some e, fs') => (Some e, setFs w1 fs')
        | (None, fs') => (None, setFs w1 fs')
        end
  end.

Definition errorString (e : error) : string :=
  match e with
  | ErrSyntax => "invalid syntax"
  | ErrRange => "value out of range"
  | PathError op path errno => op +:+ " " +:+ path +:+ ": " +:+ errno
  | CorruptInputError => "illegal base64 data"
  | Errorf msg => msg
  | ExternalError msg => msg
  end.

Definition GenerateHandler (r : Request) (w : World) : Response * World :=
  if negb (String.eqb (Method r) MethodPost) then
    (Error "Método no permitido" StatusMethodNotAllowed, w)
  else
    match getUserStoragePath r w with
    | Err _ => (Error "Error interno de autenticación" StatusInternalServerError, w)
    | Ok userStoragePath =>
        let folder := FormValue r "folder" in
        if String.eqb folder "" then
          (Error "Falta el nombre de la carpeta" StatusBadRequest, w)
        else
          match joinPDFs userStoragePath folder w with
          | (Some err, w') =>
              (Error ("Error al unir PDFs: " +:+ errorString err)
                     StatusInternalServerError, w')
          | (None, w') => (Write StatusOK "PDF generado correctamente", w')
          end
    end.
End Merge.

(** [DownloadHandler]; of [http.ServeFile] only the two outcomes that
    matter here: the bytes of a regular file, or 404. *)
Definition DownloadHandler (r : Request) (w : World) : Response * World :=
  match getUserStoragePath r w with
  | Err _ => (Error "Error interno de autenticación" StatusInternalServerError, w)
  | Ok userStoragePath =>
      let folder := QueryGet r "folder" in
      if String.eqb folder "" then
        (Error "Falta el nombre de la carpeta" StatusBadRequest, w)
      else
        let pdfPath := Filepath.Join [userStoragePath; folder +:+ ".pdf"] in
        match fs w !! pdfPath with
        | Some (File data) => (Write StatusOK data, w)
        | _ => (Error "404 page not found" StatusNotFound, w)
        end
  end.

Section List.
(** [json.NewEncoder(w).Encode(files)]: the JSON text of the slice. *)
Variable jsonEncode : list string -> string.

Definition ListHandler (r : Request) (w : World) : Response * World :=
  match getUserStoragePath r w with
  | Err _ => (Error "Error interno de autenticación" StatusInternalServerError, w)
  | Ok userStoragePath =>
      let folder := QueryGet r "folder" in
      if String.eqb folder "" then
        (Error "Falta el nombre de la carpeta" StatusBadRequest, w)
      else
        let folderPath := Filepath.Join [userStoragePath; folder] in
        match ListFilesWithExtension (OS.ReadDir (fs w)) folderPath ".pdf" with
        | Err _ => (Error "Error al listar archivos" StatusInternalServerError, w)
        | Ok files => (Write StatusOK (jsonEncode files), w)
        end
  end.
End List.

(** ** The server of cmd/main.go *)

(** The patterns [main] registers for handlers of package [pdf]; the
    remaining one, /view/, serves a static page and has no part in the
    state of the package. *)
Inductive route : Type :=
| GenerateCodeRoute   (* /generate-code *)
| LoginRoute          (* /login *)
| UploadRoute         (* /upload *)
| ListRoute           (* /list *)
| GenerateRoute       (* /generate *)
| DownloadRoute.      (* /download *)

Section Server.
Variable MergeCreateFile :
  filesystem -> list string -> string -> option error * filesystem.
Variable jsonEncode : list string -> string.

(** [http.HandleFunc(pattern, handler)] as [main] calls it. *)
Definition serve (rt : route) : HandlerFunc :=
  match rt with
  | GenerateCodeRoute => GenerateCodeHandler
  | LoginRoute => LoginHandler
  | UploadRoute => AuthMiddleware UploadHandler
  | ListRoute => AuthMiddleware (ListHandler jsonEncode)
  | GenerateRoute => AuthMiddleware (GenerateHandler MergeCreateFile)
  | DownloadRoute => AuthMiddleware DownloadHandler
  end.

(** [reaches w tr w']: serving the requests of [tr] one after the other
    from state [w] gives the responses of [tr] and ends in state [w']. *)
Inductive reaches : World -> list (route * Request * Response) -> World -> Prop :=
| reaches_nil w : reaches w [] w
| reaches_step w tr w1 rt r :
    reaches w tr w1 ->
    reaches w (tr ++ [(rt, r, (serve rt r w1).1)]) (serve rt r w1).2.
End Server.

(** ** The page handler of cmd/main.go *)

Module Main.

Record Page : Type := {
  Title : string;
  Body : string
}.

(** [loadPage]; the lines it prints to standard output are left out. *)
Definition loadPage (fs : filesystem) (filename : string) : result Page :=
  match OS.ReadFile fs filename with
  | Err err => Err err
  | Ok body => Ok {| Title := "PDF Access View"; Body := body |}
  end.

(** [viewHandler]: [None] is the panic of [p.Body] on the nil page that
    [loadPage] returns with an error; the error of [os.Getwd] is dropped
    as in the source. *)
Definition viewHandler (r : Request) (w : World) : option (Response * World) :=
  let path := cwd w in
  let viewFilePath := Filepath.Join [path; "pkg"; "pdf"; "view.html"] in
  let viewFilePath :=
    match Cookies r !! "auth_code" with
    | None => Filepath.Join [path; "pkg"; "pdf"; "view_home.html"]
    | Some _ => viewFilePath
    end in
  match loadPage (fs w) viewFilePath with
  | Ok p => Some (Write StatusOK (Body p), w)
  | Err _ => None
  end.

End Main.

(** The routes that [main] wraps in [AuthMiddleware]. *)
Definition guarded (rt : route) : bool :=
  match rt with
  | GenerateCodeRoute | LoginRoute => false
  | _ => true
  end.

(** ** Delete orchestration *)

(** Modelled from the spec: the body of [DeleteFilesHandler] is missing
    from the sources at hand, which hold only its request type
    [DeleteFilesRequest] and its test.  "If the list is empty, delete all
    files in the folder": every regular file that is an entry of the
    folder goes, sub-directories stay. *)
Definition removeAllFiles (fs0 : filesystem) (folderPath : string) : filesystem :=
  filter (fun pn : string * node =>
            ¬ (OS.isEntryOf folderPath pn.1 = true ∧ isDirectory pn.2 = false))
         fs0.

(** Modelled from the spec: the loop over a non-empty list of
    [DeleteFilesHandler], which is missing from the sources at hand.
    "Delete exactly those named files from the folder; abort on first
    missing file, leaving already-deleted files removed." *)
Fixpoint removeNamedFiles (fs0 : filesystem) (folderPath : string)
    (files : list string) : option error * filesystem :=
  match files with
  | [] => (None, fs0)
  | name :: rest =>
      let p := Filepath.Join [folderPath; name] in
      match fs0 !! p with
      | Some (File _) => removeNamedFiles (delete p fs0) folderPath rest
      | _ => (Some (PathError "remove" p "no such file or directory"), fs0)
      end
  end.

(** Modelled from the spec: [DeleteFilesHandler], missing from the sources
    at hand.  The statuses are those its test expects: 405 for a method
    other than DELETE, 400 when a named file does not exist, 200 "with no
    content on completion"; a folder that cannot be read is a storage
    error. *)
Definition DeleteFilesHandler (r : Request) (w : World) : Response * World :=
  if negb (String.eqb (Method r) MethodDelete) then
    (Error "Método no permitido" StatusMethodNotAllowed, w)
  else
    match getUserStoragePath r w with
    | Err _ => (Error "Error interno de autenticación" StatusInternalServerError, w)
    | Ok userStoragePath =>
        match JSONBody r with
        | Err _ => (Error "Error al decodificar la solicitud" StatusBadRequest, w)
        | Ok req =>
            let folderPath := Filepath.Join [userStoragePath; Folder req] in
            match Files req with
            | [] =>
                match OS.ReadDir (fs w) folderPath with
                | Err _ =>
                    (Error "Error al leer el directorio" StatusInternalServerError, w)
                | Ok _ => (Write StatusOK "", setFs w (removeAllFiles (fs w) folderPath))
                end
            | files =>
                match removeNamedFiles (fs w) folderPath files with
                | (Some _, fs') =>
                    (Error "Error al eliminar archivo" StatusBadRequest, setFs w fs')
                | (None, fs') => (Write StatusOK "", setFs w fs')
                end
            end
        end
    end.

(** ** The vocabulary of the statements *)

(** The definitions of this part follow the wording of the specification,
    not the code; the properties below compare the code with them. *)

(** The digits at the start of [s]. *)
Fixpoint takeDigits (s : string) : string :=
  match s with
  | EmptyString => EmptyString
  | String c rest => if isDigit c then String c (takeDigits rest) else EmptyString
  end.

(** The first maximal digit run of a filename, if it has a digit at all. *)
Fixpoint firstDigitRun (s : string) : option string :=
  match s with
  | EmptyString => None
  | String c rest =>
      if isDigit c then Some (String c (takeDigits rest)) else firstDigitRun rest
  end.

(** A filename for which the ordering is to fall back to the lexicographic
    one: it has no digit run, or the run does not parse as an integer, or
    what the code extracted from it does not. *)
Definition fallsBack (s : string) : Prop :=
  firstDigitRun s = None \/
  (exists run, firstDigitRun s = Some run /\ is_err (Strconv.Atoi run) = true) \/
  (exists tok rest, Regexp.FindAllString s = tok :: rest /\
                    is_err (Strconv.Atoi tok) = true).

(** The leading segment of a name: what stands before its first [-]. *)
Fixpoint leadingSegment (name : string) : string :=
  match name with
  | EmptyString => EmptyString
  | String c rest =>
      if Ascii.eqb c "-" then EmptyString else String c (leadingSegment rest)
  end.

(** The upload naming rule: the name for the file at 1-indexed position
    [pos] of a batch uploaded over [base] stored PDFs. *)
Definition storedName (base pos : Z) (name : string) : string :=
  if is_err (Strconv.Atoi (leadingSegment name))
  then Strconv.Itoa (base + pos) +:+ "-" +:+ name
  else name.

(** Storing a batch of (name, content) pairs, in input order, positions
    counted from [pos]. *)
Fixpoint storeBatch (folderPath : string) (base pos : Z)
    (batch : list (string * string)) (fs0 : filesystem) : filesystem :=
  match batch with
  | [] => fs0
  | (name, data) :: rest =>
      storeBatch folderPath base (pos + 1) rest
        (<[Filepath.Join [folderPath; storedName base pos name] := File data]> fs0)
  end.

(** A token the pattern matched: one digit and one space. *)
Definition digitSpace (t : string) : Prop :=
  exists c, isDigit c = true /\ t = String c " ".

(** A path element without separator. *)
Definition noSep (e : string) : Prop := Strings.Split e "/" = [e].

(** A path element that [filepath.Clean] keeps as it is. *)
Definition plainElem (e : string) : Prop :=
  noSep e /\ e <> "" /\ e <> "." /\ e <> "..".

(** The value of a decimal numeral of the standard library, read as
    [ParseUint] reads its digits: most significant first, on top of
    [acc]. *)
Fixpoint uintValue (d : Decimal.uint) (acc : Z) : Z :=
  match d with
  | Nil => acc
  | D0 l => uintValue l (acc * 10 + 0)
  | D1 l => uintValue l (acc * 10 + 1)
  | D2 l => uintValue l (acc * 10 + 2)
  | D3 l => uintValue l (acc * 10 + 3)
  | D4 l => uintValue l (acc * 10 + 4)
  | D5 l => uintValue l (acc * 10 + 5)
  | D6 l => uintValue l (acc * 10 + 6)
  | D7 l => uintValue l (acc * 10 + 7)
  | D8 l => uintValue l (acc * 10 + 8)
  | D9 l => uintValue l (acc * 10 + 9)
  end.

(** A string of decimal digits only. *)
Fixpoint allDigits (s : string) : bool :=
  match s with
  | EmptyString => true
  | String c rest => isDigit c && allDigits rest
  end.

(** [sameKind fs0 fs1]: every path of [fs0] is still there in [fs1], a
    directory where it was a directory and a file where it was a file. *)
Definition sameKind (fs0 fs1 : filesystem) : Prop :=
  forall p n, fs0 !! p = Some n ->
              exists n', fs1 !! p = Some n' /\ isDirectory n' = isDirectory n.

(** ** Test fixtures *)

(** The mocked directory reader of [TestListFilesWithExtension]. *)
Definition mockReadDir (names : list string) : string -> result (list DirEntry) :=
  fun _ => Ok (map (fun n => {| Name := n; IsDir := false |}) names).

(** The entries of the specification's listing example together with a
    directory that is readable and holds no PDF. *)
Definition exampleReadDir (dir : string) : result (list DirEntry) :=
  if String.eqb dir "/test/dir" then
    Ok [ {| Name := "1-document.pdf"; IsDir := false |};
         {| Name := "document.txt"; IsDir := false |};
         {| Name := "folder"; IsDir := true |} ]
  else if String.eqb dir "/test/empty" then
    Ok [ {| Name := "document.txt"; IsDir := false |};
         {| Name := "folder.pdf"; IsDir := true |};
         {| Name := "upper.PDF"; IsDir := false |} ]
  else Err (PathError "open" dir "no such file or directory").

(** A merge operation to run the handlers with: the output is the
    concatenation of the inputs, and a missing input is an error. *)
Definition concatMerge (fs0 : filesystem) (inFiles : list string) (outFile : string)
  : option error * filesystem :=
  match mapM (fun p => match fs0 !! p with
                       | Some (File d) => Some d
                       | _ => None
                       end) inFiles with
  | Some contents => (None, <[outFile := File (String.concat "" contents)]> fs0)
  | None => (Some (ExternalError "pdfcpu: cannot read input"), fs0)
  end.

(** A request with nothing in it but its method. *)
Definition newRequest (method : string) : Request :=
  {| Method := method; ParseForm := None; Form := ∅; Query := ∅; Cookies := ∅;
     userCode := None; MultipartFiles := Err (Errorf "request Content-Type isn't multipart/form-data");
     JSONBody := Err (Errorf "EOF") |}.

Definition withForm (r : Request) (form : gmap string string) : Request :=
  {| Method := Method r; ParseForm := ParseForm r; Form := form;
     Query := Query r; Cookies := Cookies r; userCode := userCode r;
     MultipartFiles := MultipartFiles r; JSONBody := JSONBody r |}.

Definition withCookies (r : Request) (cookies : gmap string string) : Request :=
  {| Method := Method r; ParseForm := ParseForm r; Form := Form r;
     Query := Query r; Cookies := cookies; userCode := userCode r;
     MultipartFiles := MultipartFiles r; JSONBody := JSONBody r |}.

Definition withFiles (r : Request) (files : list FileHeader) : Request :=
  {| Method := Method r; ParseForm := ParseForm r; Form := Form r;
     Query := Query r; Cookies := Cookies r; userCode := userCode r;
     MultipartFiles := Ok files; JSONBody := JSONBody r |}.

Definition withJSON (r : Request) (req : DeleteFilesRequest) : Request :=
  {| Method := Method r; ParseForm := ParseForm r; Form := Form r;
     Query := Query r; Cookies := Cookies r; userCode := userCode r;
     MultipartFiles := MultipartFiles r; JSONBody := Ok req |}.

(** A user folder [f] that holds a text file and a sub-directory, no PDF. *)
Definition noPdfWorld : World :=
  initialWorld
    {[ "/" := Directory; "/srv" := Directory; "/srv/archivos" := Directory;
       "/srv/archivos/alex" := Directory; "/srv/archivos/alex/f" := Directory;
       "/srv/archivos/alex/f/note.txt" := File "T";
       "/srv/archivos/alex/f/sub" := Directory ]}
    "/srv".

(** A user folder [a/b], one level below folder [a], with one PDF. *)
Definition nestedWorld : World :=
  initialWorld
    {[ "/" := Directory; "/srv" := Directory; "/srv/archivos" := Directory;
       "/srv/archivos/alex" := Directory; "/srv/archivos/alex/a" := Directory;
       "/srv/archivos/alex/a/b" := Directory;
       "/srv/archivos/alex/a/b/1-x.pdf" := File "X" ]}
    "/srv".

(** POST /generate and GET /download for folder [a/b], past the
    middleware. *)
Definition nestedRequest : Request :=
  withForm (WithUserCode (newRequest MethodPost) "alex") {[ "folder" := "a/b" ]}.

Definition nestedDownload : Request :=
  {| Method := "GET"; ParseForm := None; Form := ∅;
     Query := {[ "folder" := "a/b" ]}; Cookies := {[ "auth_code" := "alex" ]};
     userCode := Some "alex";
     MultipartFiles := Err (Errorf "request Content-Type isn't multipart/form-data");
     JSONBody := Err (Errorf "EOF") |}.

(** A folder with one stored PDF, a text file and a sub-directory. *)
Definition uploadWorld : World :=
  initialWorld
    {[ "/" := Directory; "/srv" := Directory; "/srv/archivos" := Directory;
       "/srv/archivos/alex" := Directory; "/srv/archivos/alex/f" := Directory;
       "/srv/archivos/alex/f/1-a.pdf" := File "A";
       "/srv/archivos/alex/f/note.txt" := File "T";
       "/srv/archivos/alex/f/sub" := Directory ]}
    "/srv".

Definition uploadRequest : Request :=
  withFiles
    (withForm (WithUserCode (newRequest MethodPost) "alex") {[ "folder" := "f" ]})
    [ {| Filename := "x.pdf"; Open := Ok "X" |};
      {| Filename := "7-y.pdf"; Open := Ok "Y" |};
      {| Filename := "z-3.pdf"; Open := Ok "Z" |} ].

(** The second case of [TestDeleteFilesHandler]: two PDFs in test-folder,
    an empty list in the request. *)
Definition deleteWorld : World :=
  initialWorld
    {[ "/" := Directory; "/tmp" := Directory; "/tmp/archivos" := Directory;
       "/tmp/archivos/testUser" := Directory;
       "/tmp/archivos/testUser/test-folder" := Directory;
       "/tmp/archivos/testUser/test-folder/1-document.pdf" := File "";
       "/tmp/archivos/testUser/test-folder/2-document.pdf" := File "" ]}
    "/tmp".

Definition deleteRequest : Request :=
  withJSON (WithUserCode (newRequest MethodDelete) "testUser")
           {| Folder := "test-folder"; Files := [] |}.

(** The request of the specification's example: name alex, date
    2024-01-01. *)
Definition generateCodeRequest : Request :=
  withForm (newRequest MethodPost) {[ "name" := "alex"; "date" := "2024-01-01" ]}.

(** GET /list or /download for folder [f], past the middleware. *)
Definition folderQuery (code folder : string) : Request :=
  {| Method := "GET"; ParseForm := None; Form := ∅;
     Query := {[ "folder" := folder ]}; Cookies := {[ "auth_code" := code ]};
     userCode := Some code;
     MultipartFiles := Err (Errorf "request Content-Type isn't multipart/form-data");
     JSONBody := Err (Errorf "EOF") |}.

(** The same requests as they arrive, before the middleware. *)
Definition folderQueryIn (code folder : string) : Request :=
  {| Method := "GET"; ParseForm := None; Form := ∅;
     Query := {[ "folder" := folder ]}; Cookies := {[ "auth_code" := code ]};
     userCode := None;
     MultipartFiles := Err (Errorf "request Content-Type isn't multipart/form-data");
     JSONBody := Err (Errorf "EOF") |}.

Definition loginRequest : Request :=
  withForm (newRequest MethodPost) {[ "access_code" := "alex" ]}.

Definition codeRequest (name date : string) : Request :=
  withForm (newRequest MethodPost) {[ "name" := name; "date" := date ]}.

(** Two tenants, the second with a folder [f] and its merged output. *)
Definition tenantsWorld : World :=
  {| validCodes := {[ "alex" := true; "bob" := true ]};
     fs := {[ "/" := Directory; "/srv" := Directory; "/srv/archivos" := Directory;
              "/srv/archivos/alex" := Directory;
              "/srv/archivos/bob" := Directory;
              "/srv/archivos/bob/f" := Directory;
              "/srv/archivos/bob/f/1-b.pdf" := File "B";
              "/srv/archivos/bob/f.pdf" := File "B" ]};
     cwd := "/srv"; mergeCalls := [] |}.

(** The two pages below the working directory. *)
Definition viewWorld : World :=
  initialWorld
    {[ "/" := Directory; "/srv" := Directory; "/srv/pkg" := Directory;
       "/srv/pkg/pdf" := Directory;
       "/srv/pkg/pdf/view.html" := File "<html>pdf</html>";
       "/srv/pkg/pdf/view_home.html" := File "<html>home</html>" ]}
    "/srv".

(** * Properties *)

(** ** The library models on known values *)

Example Atoi_examples :
  Strconv.Atoi "12" = Ok 12 /\ Strconv.Atoi "-7" = Ok (-7) /\
  Strconv.Atoi "+5" = Ok 5 /\ Strconv.Atoi "2 " = Err ErrSyntax /\
  Strconv.Atoi "" = Err ErrSyntax /\ Strconv.Atoi "-" = Err ErrSyntax /\
  Strconv.Atoi "1_0" = Err ErrSyntax /\
  Strconv.Atoi "9223372036854775807" = Ok 9223372036854775807 /\
  Strconv.Atoi "9223372036854775808" = Err ErrRange /\
  Strconv.Atoi "-9223372036854775808" = Ok (-9223372036854775808) /\
  Strconv.Atoi "99999999999999999999x" = Err ErrRange.
Proof. repeat split; reflexivity. Qed.

Example Itoa_examples :
  Strconv.Itoa 0 = "0" /\ Strconv.Itoa 12 = "12" /\ Strconv.Itoa (-3) = "-3".
Proof. repeat split; reflexivity. Qed.

Example Split_examples :
  Strings.Split "7-y-z.pdf" "-" = ["7"; "y"; "z.pdf"] /\
  Strings.Split "x.pdf" "-" = ["x.pdf"] /\
  Strings.Split "-x" "-" = [""; "x"] /\ Strings.Split "" "-" = [""].
Proof. repeat split; reflexivity. Qed.

Example FindAllString_examples :
  Regexp.FindAllString "12-document.pdf" = [] /\
  Regexp.FindAllString "1 2 a3  4" = ["1 "; "2 "; "3 "] /\
  Regexp.FindAllString "12 7" = ["2 "].
Proof. repeat split; reflexivity. Qed.

Example Clean_examples :
  Filepath.Clean "" = "." /\ Filepath.Clean "/" = "/" /\
  Filepath.Clean "a/../.." = ".." /\ Filepath.Clean "/../a//b/./c/" = "/a/b/c" /\
  Filepath.Clean "../../a" = "../../a" /\
  Filepath.Join ["/srv"; ""; "a/b"] = "/srv/a/b" /\ Filepath.Join [""; ""] = "" /\
  Filepath.Dir "/a/b/c" = "/a/b" /\ Filepath.Dir "/a" = "/" /\
  Filepath.Dir "a" = "." /\ Filepath.Base "/a/b/" = "b" /\ Filepath.Base "/" = "/".
Proof. repeat split; reflexivity. Qed.

Example Base64_examples :
  Base64.EncodeToString "" = "" /\ Base64.EncodeToString "f" = "Zg==" /\
  Base64.EncodeToString "fo" = "Zm8=" /\ Base64.EncodeToString "foo" = "Zm9v" /\
  Base64.EncodeToString "foobar" = "Zm9vYmFy" /\
  Base64.DecodeString "Zm9vYg==" = Ok "foob" /\
  Base64.DecodeString "garbage" = Err CorruptInputError.
Proof. repeat split; reflexivity. Qed.

Example sort_test_cases :
  Sort.Slice stringLess ["c"; "a"; "b"; "a"] = ["a"; "a"; "b"; "c"] /\
  ListFilesWithExtension exampleReadDir "/test/dir" ".pdf" = Ok ["1-document.pdf"].
Proof. repeat split; reflexivity. Qed.

(** ** Go's string order is a strict total order *)

Lemma byteOf_inj x y : byteOf x = byteOf y -> x = y.
Proof.
  unfold byteOf. intros H. apply N2Z.inj in H.
  rewrite <- (ascii_N_embedding x), <- (ascii_N_embedding y). now f_equal.
Qed.

Lemma byteOf_range c : 0 <= byteOf c < 256.
Proof.
  unfold byteOf. pose proof (N_ascii_bounded c) as H. lia.
Qed.

Lemma stringLess_irrefl a : stringLess a a = false.
Proof.
  induction a as [|x a IH]; simpl; [reflexivity|].
  rewrite Z.ltb_irrefl, Z.eqb_refl. exact IH.
Qed.

Lemma stringLess_trans a b c :
  stringLess a b = true -> stringLess b c = true -> stringLess a c = true.
Proof.
  revert b c. induction a as [|x a IH]; intros [|y b] [|z c]; simpl;
    try discriminate; try reflexivity.
  destruct (Z.ltb_spec (byteOf x) (byteOf y)) as [Hxy|Hxy];
    destruct (Z.ltb_spec (byteOf y) (byteOf z)) as [Hyz|Hyz];
    destruct (Z.ltb_spec (byteOf x) (byteOf z)) as [Hxz|Hxz];
    try reflexivity; try lia;
    destruct (Z.eqb_spec (byteOf x) (byteOf y));
    destruct (Z.eqb_spec (byteOf y) (byteOf z));
    destruct (Z.eqb_spec (byteOf x) (byteOf z));
    try discriminate; try lia.
  apply IH.
Qed.

Lemma stringLess_total a b :
  stringLess a b = false -> stringLess b a = false -> a = b.
Proof.
  revert b. induction a as [|x a IH]; intros [|y b]; simpl;
    try discriminate; try reflexivity.
  destruct (Z.ltb_spec (byteOf x) (byteOf y));
    destruct (Z.ltb_spec (byteOf y) (byteOf x));
    try discriminate; try lia.
  assert (Hxy : byteOf x = byteOf y) by lia.
  rewrite Hxy, Z.eqb_refl. intros H1 H2.
  apply byteOf_inj in Hxy. subst y. f_equal. now apply IH.
Qed.

Lemma stringLess_asym a b : stringLess a b = true -> stringLess b a = false.
Proof.
  intros H. destruct (stringLess b a) eqn:E; [|reflexivity].
  pose proof (stringLess_trans _ _ _ H E) as Haa.
  rewrite stringLess_irrefl in Haa. discriminate.
Qed.

(** ** [sort.Slice] returns the sorted permutation *)

Section SliceSorts.
Context {A : Type} (lt : A -> A -> bool).
Hypothesis lt_irrefl : forall a, lt a a = false.
Hypothesis lt_trans : forall a b c, lt a b = true -> lt b c = true -> lt a c = true.
Hypothesis lt_total : forall a b, lt a b = false -> lt b a = false -> a = b.

Local Abbreviation le := (Sort.inOrder lt).
Local Abbreviation ge := (flip (Sort.inOrder lt)).

Lemma lt_asym a b : lt a b = true -> lt b a = false.
Proof using lt_irrefl lt_trans.
  intros H. destruct (lt b a) eqn:E; [|reflexivity].
  pose proof (lt_trans _ _ _ H E) as Haa. rewrite lt_irrefl in Haa. discriminate.
Qed.

Lemma ge_trans a b c : ge a b -> ge b c -> ge a c.
Proof using lt_irrefl lt_trans lt_total.
  unfold flip, Sort.inOrder. intros Hab Hbc.
  destruct (lt a c) eqn:Hac; [|reflexivity].
  destruct (lt b a) eqn:Hba.
  - rewrite (lt_trans _ _ _ Hba Hac) in Hbc. discriminate.
  - pose proof (lt_total _ _ Hab Hba). subst b. congruence.
Qed.

Lemma sink_perm x acc : Permutation (x :: acc) (Sort.sink lt x acc).
Proof.
  induction acc as [|y r IH]; simpl; [reflexivity|].
  destruct (lt x y); [|reflexivity].
  rewrite perm_swap. now constructor.
Qed.

Lemma sink_sorted x acc :
  StronglySorted ge acc -> StronglySorted ge (Sort.sink lt x acc).
Proof using lt_irrefl lt_trans lt_total.
  induction acc as [|y r IH]; simpl; intros Hs.
  - repeat constructor.
  - apply StronglySorted_inv in Hs as [Hr Hy].
    destruct (lt x y) eqn:Hxy.
    + constructor; [now apply IH|].
      rewrite <- (sink_perm x r). constructor; [|exact Hy].
      now apply lt_asym.
    + constructor; [now constructor|].
      constructor; [exact Hxy|].
      eapply Forall_impl; [exact Hy|]. intros z Hz.
      now apply ge_trans with y.
Qed.

Lemma fold_sink_perm data acc :
  Permutation (rev acc ++ data)
              (rev (fold_left (fun acc x => Sort.sink lt x acc) data acc)).
Proof.
  revert acc. induction data as [|x data IH]; intros acc; simpl.
  - now rewrite app_nil_r.
  - rewrite <- IH. rewrite <- (Permutation_rev (Sort.sink lt x acc)).
    rewrite <- sink_perm. rewrite <- Permutation_middle.
    now rewrite <- (Permutation_rev acc).
Qed.

Lemma fold_sink_sorted data acc :
  StronglySorted ge acc ->
  StronglySorted ge (fold_left (fun acc x => Sort.sink lt x acc) data acc).
Proof using lt_irrefl lt_trans lt_total.
  revert acc. induction data as [|x data IH]; intros acc Hs; simpl; [exact Hs|].
  apply IH. now apply sink_sorted.
Qed.

Lemma StronglySorted_rev_ge l : StronglySorted ge l -> StronglySorted le (rev l).
Proof.
  induction 1 as [|x l Hs IH Hx]; simpl; [constructor|].
  apply StronglySorted_app_2; [|exact IH|repeat constructor].
  intros x1 x2 H1 H2. apply list_elem_of_In in H1, H2.
  apply in_rev, list_elem_of_In in H1. destruct H2 as [<-|[]].
  rewrite Forall_forall in Hx. apply Hx. exact H1.
Qed.

Lemma Slice_perm data : Permutation data (Sort.Slice lt data).
Proof. unfold Sort.Slice. exact (fold_sink_perm data []). Qed.

Lemma Slice_sorted data : StronglySorted le (Sort.Slice lt data).
Proof using lt_irrefl lt_trans lt_total.
  unfold Sort.Slice. apply StronglySorted_rev_ge, fold_sink_sorted. constructor.
Qed.

(** Any sorted permutation of the data is the list [Sort.Slice] returns:
    what an unstable sort may do differently cannot be seen. *)
Lemma sorted_perm_unique data out :
  Permutation data out -> StronglySorted le out -> out = Sort.Slice lt data.
Proof using lt_irrefl lt_trans lt_total.
  intros Hp Hs.
  apply (StronglySorted_unique_strong le); [|exact Hs|apply Slice_sorted|].
  - intros x1 x2 _ _ H1 H2. symmetry. now apply lt_total.
  - now rewrite <- Hp, <- Slice_perm.
Qed.
End SliceSorts.

(** ** The comparator of [ListFilesWithExtension] *)

Lemma isDigit_not_sign c :
  isDigit c = true -> Ascii.eqb c "+" = false /\ Ascii.eqb c "-" = false.
Proof.
  intros H. split.
  - destruct (Ascii.eqb_spec c "+") as [->|]; [discriminate H|reflexivity].
  - destruct (Ascii.eqb_spec c "-") as [->|]; [discriminate H|reflexivity].
Qed.

Lemma Atoi_digit_space c :
  isDigit c = true -> Strconv.Atoi (String c " ") = Err ErrSyntax.
Proof.
  intros H. unfold Strconv.Atoi.
  destruct (isDigit_not_sign c H) as [-> ->]. simpl.
  rewrite H.
  unfold isDigit in H. apply andb_true_iff in H as [H1 H2].
  apply Z.leb_le in H1, H2.
  replace (Strconv.maxUint64 <? 0 * 10 + (byteOf c - 48)) with false; [reflexivity|].
  symmetry. apply Z.ltb_ge. unfold Strconv.maxUint64. lia.
Qed.

Lemma FindAllString_tokens s : Forall digitSpace (Regexp.FindAllString s).
Proof.
  enough (H : Forall digitSpace (Regexp.FindAllString s) /\
              forall c, Forall digitSpace (Regexp.FindAllString (String c s)))
    by apply H.
  induction s as [|d rest [IH1 IH2]].
  - split; [constructor|]. intros c. constructor.
  - split; [apply IH2|]. intros c.
    change (Regexp.FindAllString (String c (String d rest))) with
      (if isDigit c && Ascii.eqb d " "
       then String c (String d EmptyString) :: Regexp.FindAllString rest
       else Regexp.FindAllString (String d rest)).
    destruct (isDigit c && Ascii.eqb d " ") eqn:E; [|apply IH2].
    constructor; [|exact IH1].
    apply andb_true_iff in E as [Hc Hd].
    apply Ascii.eqb_eq in Hd. subst d. now exists c.
Qed.

Lemma less_stringLess fi fj : less fi fj = stringLess fi fj.
Proof.
  unfold less.
  pose proof (FindAllString_tokens fi) as Hi.
  destruct (Regexp.FindAllString fi) as [|t1 l1]; [reflexivity|].
  destruct (Regexp.FindAllString fj) as [|t2 l2]; [reflexivity|].
  apply Forall_cons in Hi as [(c & Hc & ->) _].
  now rewrite (Atoi_digit_space c Hc).
Qed.

Lemma Slice_less data : Sort.Slice less data = Sort.Slice stringLess data.
Proof.
  unfold Sort.Slice. f_equal.
  generalize (@nil string). induction data as [|x data IH]; intros acc; simpl.
  - reflexivity.
  - rewrite IH. f_equal. clear. induction acc as [|y acc IH]; simpl; [reflexivity|].
    now rewrite less_stringLess, IH.
Qed.

Lemma less_irrefl a : less a a = false.
Proof. rewrite less_stringLess. apply stringLess_irrefl. Qed.

Lemma less_trans a b c : less a b = true -> less b c = true -> less a c = true.
Proof. rewrite !less_stringLess. apply stringLess_trans. Qed.

Lemma less_total a b : less a b = false -> less b a = false -> a = b.
Proof. rewrite !less_stringLess. apply stringLess_total. Qed.

(** Whatever algorithm [sort.Slice] runs, the listing is the same: any
    permutation of the kept names that is sorted for [less] is the list
    [ListFilesWithExtension] returns. *)
Lemma listing_any_sort osReadDir dir ext files out :
  osReadDir dir = Ok files ->
  Permutation (matchFiles files ext) out ->
  StronglySorted (Sort.inOrder less) out ->
  ListFilesWithExtension osReadDir dir ext = Ok out.
Proof.
  intros Hr Hp Hs. unfold ListFilesWithExtension. rewrite Hr. f_equal. symmetry.
  apply (sorted_perm_unique less less_irrefl less_trans less_total); assumption.
Qed.

(** C9: for every pair of filenames the function literal handed to
    [sort.Slice] returns what plain lexicographic comparison of the two
    strings returns; every token its pattern extracts from either name is
    one digit followed by one space, and [strconv.Atoi] fails on every
    such token, so the branch that compares integers is never taken. *)
Theorem less_is_lexicographic (fi fj : string) :
  less fi fj = stringLess fi fj /\
  Forall (fun t => (exists c, isDigit c = true /\ t = String c " ") /\
                   Strconv.Atoi t = Err ErrSyntax)
         (Regexp.FindAllString fi ++ Regexp.FindAllString fj).
Proof.
  split; [apply less_stringLess|].
  apply Forall_app. split.
  - eapply Forall_impl; [apply FindAllString_tokens|].
    intros t (c & Hc & ->). split; [now exists c|now apply Atoi_digit_space].
  - eapply Forall_impl; [apply FindAllString_tokens|].
    intros t (c & Hc & ->). split; [now exists c|now apply Atoi_digit_space].
Qed.

(** C7: for every pair of filenames of which one has no digit run, or has
    a run (or an extracted token) on which integer parsing fails, the
    ordering is the plain lexicographic comparison of the two filenames;
    and the listing of c-document.pdf, a-document.pdf, b-document.pdf is
    a-document.pdf, b-document.pdf, c-document.pdf. *)
Theorem fallback_is_lexicographic :
  (forall fi fj, fallsBack fi \/ fallsBack fj -> less fi fj = stringLess fi fj) /\
  Sort.Slice less ["c-document.pdf"; "a-document.pdf"; "b-document.pdf"]
    = ["a-document.pdf"; "b-document.pdf"; "c-document.pdf"] /\
  ListFilesWithExtension
    (mockReadDir ["c-document.pdf"; "a-document.pdf"; "b-document.pdf"])
    "/test/dir" ".pdf"
    = Ok ["a-document.pdf"; "b-document.pdf"; "c-document.pdf"].
Proof.
  split; [|split; reflexivity].
  intros fi fj _. apply less_stringLess.
Qed.

Lemma fallback_is_lexicographic_witness :
  less "c-document.pdf" "a-document.pdf" = stringLess "c-document.pdf" "a-document.pdf".
Proof.
  apply (proj1 fallback_is_lexicographic). left. left. reflexivity.
Defined.

(** C1, at the input of the package's own test "Archivos PDF ordenados por
    número": the first digit runs of 2-document.pdf and 12-document.pdf
    parse to 2 and 12, yet the comparator puts 12-document.pdf first, and
    the listing of 2-, 12-, 1-document.pdf comes out as 1-, 12-, 2-, not in
    the order of the integers. *)
Theorem numeric_order_not_delivered :
  firstDigitRun "2-document.pdf" = Some "2" /\
  firstDigitRun "12-document.pdf" = Some "12" /\
  Strconv.Atoi "2" = Ok 2 /\ Strconv.Atoi "12" = Ok 12 /\
  less "12-document.pdf" "2-document.pdf" = true /\
  less "2-document.pdf" "12-document.pdf" = false /\
  ListFilesWithExtension
    (mockReadDir ["2-document.pdf"; "12-document.pdf"; "1-document.pdf"])
    "/test/dir" ".pdf"
    = Ok ["1-document.pdf"; "12-document.pdf"; "2-document.pdf"].
Proof. repeat split; reflexivity. Qed.

(** ** Folder listing *)

Lemma append_cons c s t : String c s +:+ t = String c (s +:+ t).
Proof. reflexivity. Qed.

Lemma length_append s t :
  String.length (s +:+ t) = (String.length s + String.length t)%nat.
Proof.
  induction s as [|c s IH]; [reflexivity|].
  rewrite append_cons. simpl. now rewrite IH.
Qed.

Lemma substring_all s : substring 0 (String.length s) s = s.
Proof. induction s as [|c s IH]; simpl; [reflexivity|now rewrite IH]. Qed.

Lemma substring_skip pre suf :
  substring (String.length pre) (String.length suf) (pre +:+ suf) = suf.
Proof.
  induction pre as [|c pre IH]; [apply substring_all|].
  rewrite append_cons. simpl. exact IH.
Qed.

Lemma substring_split s k :
  (k <= String.length s)%nat ->
  s = substring 0 k s +:+ substring k (String.length s - k) s.
Proof.
  revert k. induction s as [|c s IH]; intros [|k] Hk; simpl in *; try lia.
  - reflexivity.
  - change (String c s = "" +:+ String c (substring 0 (String.length s) s)).
    now rewrite substring_all.
  - rewrite append_cons. f_equal. apply IH. lia.
Qed.

(** [strings.HasSuffix] is exact, byte for byte: it holds when the name is
    some prefix followed by the suffix, and only then. *)
Lemma HasSuffix_spec s suffix :
  Strings.HasSuffix s suffix = true <-> exists pre, s = pre +:+ suffix.
Proof.
  unfold Strings.HasSuffix. rewrite andb_true_iff, Nat.leb_le, String.eqb_eq.
  split.
  - intros [Hlen Hsub].
    exists (substring 0 (String.length s - String.length suffix) s).
    pose proof (substring_split s (String.length s - String.length suffix)) as Hs.
    replace (String.length s - (String.length s - String.length suffix))%nat
      with (String.length suffix) in Hs by lia.
    rewrite Hsub in Hs. apply Hs. lia.
  - intros [pre ->]. rewrite length_append. split; [lia|].
    replace (String.length pre + String.length suffix - String.length suffix)%nat
      with (String.length pre) by lia.
    apply substring_skip.
Qed.

Lemma matchFiles_filter files ext :
  matchFiles files ext = map Name (List.filter (keeps ext) files).
Proof.
  unfold matchFiles.
  enough (H : forall acc,
             fold_left
               (fun matchedFiles file =>
                  if negb (IsDir file) && Strings.HasSuffix (Name file) ext
                  then matchedFiles ++ [Name file] else matchedFiles)
               files acc
             = acc ++ map Name (List.filter (keeps ext) files)) by apply H.
  induction files as [|f files IH]; intros acc; simpl.
  - now rewrite app_nil_r.
  - rewrite IH. unfold keeps at 2.
    destruct (negb (IsDir f) && Strings.HasSuffix (Name f) ext); simpl.
    + now rewrite <- app_assoc.
    + reflexivity.
Qed.

Lemma keeps_spec ext f :
  keeps ext f = true <-> IsDir f = false /\ exists pre, Name f = pre +:+ ext.
Proof.
  unfold keeps. rewrite andb_true_iff, negb_true_iff, HasSuffix_spec. tauto.
Qed.

(** C6: [ListFilesWithExtension] fails exactly when the directory read
    fails, with the error of the read; when the read succeeds it returns
    a rearrangement of the names of the entries that are not directories
    and whose name ends, byte for byte, with the extension; and when no
    entry is such, it returns the empty sequence and no error. *)
Theorem ListFilesWithExtension_contract
    (osReadDir : string -> result (list DirEntry)) (dir ext : string) :
  is_err (ListFilesWithExtension osReadDir dir ext) = is_err (osReadDir dir) /\
  match osReadDir dir with
  | Err e => ListFilesWithExtension osReadDir dir ext = Err e
  | Ok files =>
      exists names,
        ListFilesWithExtension osReadDir dir ext = Ok names /\
        Permutation names (map Name (List.filter (keeps ext) files)) /\
        (forall n, In n names <->
                   exists f, In f files /\ Name f = n /\ IsDir f = false /\
                             exists pre, n = pre +:+ ext) /\
        ((forall f, In f files ->
                    IsDir f = true \/ ~ exists pre, Name f = pre +:+ ext) ->
         names = [])
  end.
Proof.
  unfold ListFilesWithExtension.
  destruct (osReadDir dir) as [files|e]; [|split; reflexivity].
  split; [reflexivity|].
  exists (Sort.Slice less (matchFiles files ext)).
  rewrite matchFiles_filter.
  assert (Hp : Permutation (Sort.Slice less (map Name (List.filter (keeps ext) files)))
                           (map Name (List.filter (keeps ext) files)))
    by (symmetry; apply Slice_perm).
  repeat split.
  - exact Hp.
  - intros Hn. apply (Permutation_in _ Hp) in Hn.
    apply in_map_iff in Hn as (f & Hf & Hin).
    apply filter_In in Hin as [Hin Hk].
    apply keeps_spec in Hk as [Hd [pre Hpre]].
    exists f. repeat split; try assumption. exists pre. congruence.
  - intros (f & Hin & Hf & Hd & pre & Hpre).
    apply (Permutation_in _ (Permutation_sym Hp)).
    apply in_map_iff. exists f. split; [exact Hf|].
    apply filter_In. split; [exact Hin|].
    apply keeps_spec. split; [exact Hd|]. exists pre. congruence.
  - intros Hnone.
    assert (Hnil : List.filter (keeps ext) files = []).
    { destruct (List.filter (keeps ext) files) as [|f l] eqn:E; [reflexivity|].
      assert (Hin : In f (List.filter (keeps ext) files)) by (rewrite E; now left).
      apply filter_In in Hin as [Hin Hk].
      apply keeps_spec in Hk as [Hd Hpre].
      destruct (Hnone f Hin) as [Hd'|Hn]; [congruence|contradiction]. }
    rewrite Hnil. reflexivity.
Qed.

Lemma ListFilesWithExtension_contract_witness :
  ListFilesWithExtension exampleReadDir "/test/empty" ".pdf" = Ok [] /\
  ListFilesWithExtension exampleReadDir "/test/dir" ".pdf" = Ok ["1-document.pdf"] /\
  is_err (ListFilesWithExtension exampleReadDir "/test/missing" ".pdf") = true.
Proof.
  split; [|split].
  - destruct (ListFilesWithExtension_contract exampleReadDir "/test/empty" ".pdf")
      as [_ (names & Heq & _ & _ & Hnone)].
    rewrite Heq. f_equal. apply Hnone.
    intros f [<-|[<-|[<-|[]]]].
    + right. intros Hex. apply HasSuffix_spec in Hex. discriminate Hex.
    + left. reflexivity.
    + right. intros Hex. apply HasSuffix_spec in Hex. discriminate Hex.
  - reflexivity.
  - rewrite (proj1 (ListFilesWithExtension_contract exampleReadDir "/test/missing" ".pdf")).
    reflexivity.
Defined.

(** ** Path algebra *)

Lemma Split_nonnil s sep : Strings.Split s sep <> [].
Proof.
  destruct s as [|c s]; simpl; [discriminate|].
  destruct (Ascii.eqb c sep); [discriminate|].
  destruct (Strings.Split s sep); discriminate.
Qed.

Lemma Split_app a b :
  Strings.Split (a +:+ String "/" b) "/" = Strings.Split a "/" ++ Strings.Split b "/".
Proof.
  induction a as [|c a IH].
  - reflexivity.
  - rewrite append_cons. simpl. rewrite IH.
    destruct (Ascii.eqb c "/"); [reflexivity|].
    pose proof (Split_nonnil a "/") as Hne.
    destruct (Strings.Split a "/") as [|p ps]; [contradiction|reflexivity].
Qed.

Lemma Split_noSep s : Forall noSep (Strings.Split s "/").
Proof.
  induction s as [|c s IH]; simpl.
  - repeat constructor.
  - destruct (Ascii.eqb c "/") eqn:Hc.
    + constructor; [reflexivity|exact IH].
    + pose proof (Split_nonnil s "/") as Hne.
      destruct (Strings.Split s "/") as [|p ps]; [contradiction|].
      apply Forall_cons in IH as [Hp Hps]. constructor; [|exact Hps].
      unfold noSep in *. simpl. now rewrite Hc, Hp.
Qed.

Lemma Split_Join l :
  l <> [] -> Forall noSep l -> Strings.Split (Strings.Join l "/") "/" = l.
Proof.
  unfold Strings.Join. induction l as [|x l IH]; [congruence|].
  intros _ Hall. apply Forall_cons in Hall as [Hx Hl].
  destruct l as [|y l]; [exact Hx|].
  change (String.concat "/" (x :: y :: l))
    with (x +:+ String "/" (String.concat "/" (y :: l))).
  rewrite Split_app, Hx, IH by (congruence || assumption). reflexivity.
Qed.

Lemma plainElem_eqb e :
  plainElem e ->
  String.eqb e "" = false /\ String.eqb e "." = false /\ String.eqb e ".." = false.
Proof. intros (_ & H1 & H2 & H3). now rewrite !String.eqb_neq. Qed.

Lemma cleanElems_plain l rest out :
  Forall plainElem l ->
  Filepath.cleanElems true (l ++ rest) out
  = Filepath.cleanElems true rest (rev l ++ out).
Proof.
  intros Hall. revert out. induction Hall as [|e l He _ IH]; intros out.
  - reflexivity.
  - destruct (plainElem_eqb e He) as (H1 & H2 & H3).
    simpl. rewrite H1, H2, H3. simpl. rewrite IH. now rewrite <- app_assoc.
Qed.

Lemma cleanElems_skip e rest out :
  e = "" \/ e = "." ->
  Filepath.cleanElems true (e :: rest) out = Filepath.cleanElems true rest out.
Proof. now intros [-> | ->]. Qed.

Lemma cleanElems_dotdot e rest out :
  plainElem e ->
  Filepath.cleanElems true (".." :: rest) (e :: out)
  = Filepath.cleanElems true rest out.
Proof.
  intros He. destruct (plainElem_eqb e He) as (_ & _ & H3).
  cbn. now rewrite H3.
Qed.

Lemma cleanElems_keeps_plain l out :
  Forall noSep l -> Forall plainElem out ->
  Forall plainElem (Filepath.cleanElems true l out).
Proof.
  intros Hl. revert out. induction Hl as [|e l He _ IH]; intros out Hout; simpl.
  - now apply Forall_rev.
  - destruct (String.eqb_spec e ""); [now apply IH|].
    destruct (String.eqb_spec e "."); [now apply IH|]. simpl.
    destruct (String.eqb_spec e "..").
    + destruct out as [|top out']; [now apply IH|].
      apply Forall_cons in Hout as [Htop Hout'].
      destruct (plainElem_eqb top Htop) as (_ & _ & ->). now apply IH.
    + apply IH. constructor; [|exact Hout]. now repeat split.
Qed.

(** [Clean] on a rooted path: the root, then the elements that remain. *)
Lemma Clean_rooted s :
  Filepath.Clean (String "/" s)
  = "/" +:+ Strings.Join (Filepath.cleanElems true (Strings.Split s "/") []) "/".
Proof. reflexivity. Qed.

(** A rooted path that is clean is the root followed by plain elements. *)
Lemma clean_rooted_form s :
  exists comps, Forall plainElem comps /\
                Filepath.Clean (String "/" s) = "/" +:+ Strings.Join comps "/".
Proof.
  exists (Filepath.cleanElems true (Strings.Split s "/") []).
  split; [|apply Clean_rooted].
  apply cleanElems_keeps_plain; [apply Split_noSep|constructor].
Qed.

Lemma plainElem_noSep l : Forall plainElem l -> Forall noSep l.
Proof. intros H. eapply Forall_impl; [exact H|]. now intros e []. Qed.

Lemma cleanElems_Split_Join comps rest out :
  Forall plainElem comps ->
  Filepath.cleanElems true (Strings.Split (Strings.Join comps "/") "/" ++ rest) out
  = Filepath.cleanElems true rest (rev comps ++ out).
Proof.
  intros Hall. destruct comps as [|c comps]; [reflexivity|].
  rewrite Split_Join by (congruence || now apply plainElem_noSep).
  now apply cleanElems_plain.
Qed.

(** Whatever is joined to a clean rooted path is cleaned on top of its
    elements. *)
Lemma Clean_rooted_app comps s :
  Forall plainElem comps ->
  Filepath.Clean (("/" +:+ Strings.Join comps "/") +:+ String "/" s)
  = "/" +:+ Strings.Join (Filepath.cleanElems true (Strings.Split s "/") (rev comps)) "/".
Proof.
  intros Hall.
  change (("/" +:+ Strings.Join comps "/") +:+ String "/" s)
    with (String "/" (Strings.Join comps "/" +:+ String "/" s)).
  rewrite Clean_rooted, Split_app, cleanElems_Split_Join by exact Hall.
  now rewrite app_nil_r.
Qed.

Lemma rooted_nonempty comps : String.eqb ("/" +:+ Strings.Join comps "/") "" = false.
Proof. reflexivity. Qed.

Lemma Join_rooted_plain comps e :
  Forall plainElem comps -> plainElem e ->
  Filepath.Join ["/" +:+ Strings.Join comps "/"; e]
  = "/" +:+ Strings.Join (comps ++ [e]) "/".
Proof.
  intros Hall He. unfold Filepath.Join. rewrite rooted_nonempty.
  change (Strings.Join ["/" +:+ Strings.Join comps "/"; e] "/")
    with (("/" +:+ Strings.Join comps "/") +:+ String "/" e).
  rewrite Clean_rooted_app by exact Hall.
  rewrite (proj1 He).
  rewrite <- (app_nil_r [e]), cleanElems_plain by (constructor; [exact He|constructor]).
  simpl. now rewrite rev_involutive.
Qed.

Lemma noSep_cons c e : noSep (String c e) -> Ascii.eqb c "/" = false /\ noSep e.
Proof.
  unfold noSep. simpl. destruct (Ascii.eqb c "/"); [discriminate|].
  pose proof (Split_nonnil e "/") as Hne.
  destruct (Strings.Split e "/") as [|p ps]; [contradiction|].
  intros [= -> ->]. now split.
Qed.

Lemma noSep_app a b : noSep a -> noSep b -> noSep (a +:+ b).
Proof.
  induction a as [|c a IH]; intros Ha Hb; [exact Hb|].
  apply noSep_cons in Ha as [Hc Ha]. rewrite append_cons.
  unfold noSep in *. simpl. now rewrite Hc, (IH Ha Hb).
Qed.

Lemma plainElem_pdf folder : noSep folder -> plainElem (folder +:+ ".pdf").
Proof.
  intros Hsep. split; [now apply noSep_app|].
  assert (Hlen : (4 <= String.length (folder +:+ ".pdf"))%nat)
    by (rewrite length_append; simpl; lia).
  repeat split; intros Heq; rewrite Heq in Hlen; simpl in Hlen; lia.
Qed.

(** For a folder name of one plain element below a clean rooted path, the
    output path of [joinPDFs] is the path [DownloadHandler] reads. *)
Lemma output_path_single_element comps folder :
  Forall plainElem comps -> plainElem folder ->
  Filepath.Join [Filepath.Join ["/" +:+ Strings.Join comps "/"; folder];
                 "../"; folder +:+ ".pdf"]
  = Filepath.Join ["/" +:+ Strings.Join comps "/"; folder +:+ ".pdf"].
Proof.
  intros Hall Hf.
  pose proof (plainElem_pdf folder (proj1 Hf)) as Hpdf.
  rewrite !Join_rooted_plain by assumption.
  unfold Filepath.Join. rewrite rooted_nonempty.
  change (Strings.Join ["/" +:+ Strings.Join (comps ++ [folder]) "/"; "../";
                        folder +:+ ".pdf"] "/")
    with (("/" +:+ Strings.Join (comps ++ [folder]) "/")
          +:+ String "/" ("../" +:+ String "/" (folder +:+ ".pdf"))).
  rewrite Clean_rooted_app by (apply Forall_app; split; [assumption|now constructor]).
  rewrite Split_app, (proj1 Hpdf).
  rewrite rev_app_distr. cbn [rev app Strings.Split Ascii.eqb Bool.eqb].
  rewrite cleanElems_dotdot by exact Hf.
  rewrite cleanElems_skip by now left.
  rewrite <- (app_nil_r [folder +:+ ".pdf"]),
    cleanElems_plain by (constructor; [exact Hpdf|constructor]).
  simpl. now rewrite rev_involutive.
Qed.

(** The directory of a clean rooted path is the path without its last
    element. *)
Lemma Dir_rooted comps e :
  Forall plainElem comps -> plainElem e ->
  Filepath.Dir ("/" +:+ Strings.Join (comps ++ [e]) "/")
  = "/" +:+ Strings.Join comps "/".
Proof.
  intros Hall He. unfold Filepath.Dir.
  change (Strings.Split ("/" +:+ Strings.Join (comps ++ [e]) "/") "/")
    with ("" :: Strings.Split (Strings.Join (comps ++ [e]) "/") "/").
  rewrite Split_Join.
  2:{ now destruct comps. }
  2:{ apply plainElem_noSep, Forall_app. split; [assumption|now constructor]. }
  change ("" :: comps ++ [e]) with (("" :: comps) ++ [e]).
  rewrite removelast_last.
  destruct comps as [|c comps]; [reflexivity|].
  change (Strings.Join ("" :: c :: comps) "/" +:+ "/")
    with (("/" +:+ Strings.Join (c :: comps) "/") +:+ String "/" "").
  rewrite Clean_rooted_app by exact Hall.
  cbn [Strings.Split]. rewrite cleanElems_skip by now left.
  cbn [Filepath.cleanElems]. now rewrite rev_involutive.
Qed.

(** With an absolute working directory the storage path of a user is a
    clean rooted path. *)
Lemma getUserStoragePath_rooted r w s code :
  cwd w = String "/" s -> userCode r = Some code ->
  exists comps,
    Forall plainElem comps /\
    getUserStoragePath r w = Ok ("/" +:+ Strings.Join comps "/").
Proof.
  intros Hwd Hu. unfold getUserStoragePath. rewrite Hu, Hwd.
  destruct (clean_rooted_form (s +:+ String "/" ("archivos" +:+ String "/" code)))
    as (comps & Hall & Hclean).
  exists comps. split; [exact Hall|]. f_equal. exact Hclean.
Qed.

(** ** Merge orchestration *)

Section MergeProperties.
Variable MergeCreateFile :
  filesystem -> list string -> string -> option error * filesystem.

(** On a non-empty listing [joinPDFs] calls the merge operation once,
    with the listed names in their order, each joined to the folder
    path, and with the output path it computed. *)
Lemma joinPDFs_call path folder w file files :
  ListFilesWithExtension (OS.ReadDir (fs w)) (Filepath.Join [path; folder]) ".pdf"
    = Ok (file :: files) ->
  mergeCalls (joinPDFs MergeCreateFile path folder w).2
  = mergeCalls w ++
    [(map (fun f => Filepath.Join [Filepath.Join [path; folder]; f]) (file :: files),
      Filepath.Join [Filepath.Join [path; folder]; "../"; folder +:+ ".pdf"])].
Proof.
  intros Hl. unfold joinPDFs. rewrite Hl.
  cbn [length Nat.eqb].
  destruct (MergeCreateFile _ _ _) as [[e|] fs']; reflexivity.
Qed.

(** For a folder name of one plain element below a clean rooted storage
    path, the call is as the specification words it: the output path is
    storage path + folder + .pdf, in the directory that holds the folder. *)
Lemma joinPDFs_single_element comps folder w file files :
  Forall plainElem comps -> plainElem folder ->
  ListFilesWithExtension (OS.ReadDir (fs w))
    (Filepath.Join ["/" +:+ Strings.Join comps "/"; folder]) ".pdf"
    = Ok (file :: files) ->
  mergeCalls (joinPDFs MergeCreateFile ("/" +:+ Strings.Join comps "/") folder w).2
  = mergeCalls w ++
    [(map (fun f => Filepath.Join
                      [Filepath.Join ["/" +:+ Strings.Join comps "/"; folder]; f])
          (file :: files),
      Filepath.Join ["/" +:+ Strings.Join comps "/"; folder +:+ ".pdf"])] /\
  Filepath.Dir (Filepath.Join ["/" +:+ Strings.Join comps "/"; folder +:+ ".pdf"])
  = Filepath.Dir (Filepath.Join ["/" +:+ Strings.Join comps "/"; folder]).
Proof.
  intros Hall Hf Hl. split.
  - rewrite (joinPDFs_call _ _ _ _ _ Hl).
    now rewrite output_path_single_element.
  - pose proof (plainElem_pdf folder (proj1 Hf)) as Hpdf.
    now rewrite !Join_rooted_plain, !Dir_rooted.
Qed.

(** C5: when the listing of the folder is the empty sequence, [joinPDFs]
    returns the no-input error and leaves the state as it was: no call
    of the external merge operation is made and the filesystem, hence
    the path of the output file, is untouched. *)
Theorem joinPDFs_no_input (path folder : string) (w : World) :
  ListFilesWithExtension (OS.ReadDir (fs w)) (Filepath.Join [path; folder]) ".pdf"
    = Ok [] ->
  joinPDFs MergeCreateFile path folder w
    = (Some (Errorf "no se encontraron archivos PDF en la ruta proporcionada"), w) /\
  mergeCalls (joinPDFs MergeCreateFile path folder w).2 = mergeCalls w /\
  fs (joinPDFs MergeCreateFile path folder w).2 = fs w /\
  fs (joinPDFs MergeCreateFile path folder w).2
    !! Filepath.Join [path; folder +:+ ".pdf"]
  = fs w !! Filepath.Join [path; folder +:+ ".pdf"].
Proof.
  intros Hl. unfold joinPDFs. rewrite Hl. cbn [length Nat.eqb].
  repeat split; reflexivity.
Qed.
End MergeProperties.

Lemma joinPDFs_no_input_witness :
  joinPDFs concatMerge "/srv/archivos/alex" "f" noPdfWorld
    = (Some (Errorf "no se encontraron archivos PDF en la ruta proporcionada"),
       noPdfWorld).
Proof.
  apply (joinPDFs_no_input concatMerge "/srv/archivos/alex" "f" noPdfWorld).
  vm_compute. reflexivity.
Defined.

(** C2, at folder name a/b below storage root /srv/archivos/alex: the
    inputs are passed in listing order, but the output path handed to the
    merge operation is /srv/archivos/alex/a/a/b.pdf, which is neither
    storage root + folder + .pdf, the path [DownloadHandler] reads, nor a
    sibling of the folder; after a successful generate the download of the
    same folder answers 404. *)
Theorem joinPDFs_nested_folder_output :
  (forall merge,
     mergeCalls (joinPDFs merge "/srv/archivos/alex" "a/b" nestedWorld).2
     = [(["/srv/archivos/alex/a/b/1-x.pdf"], "/srv/archivos/alex/a/a/b.pdf")]) /\
  Filepath.Join ["/srv/archivos/alex"; "a/b" +:+ ".pdf"] = "/srv/archivos/alex/a/b.pdf" /\
  Filepath.Dir "/srv/archivos/alex/a/a/b.pdf" <> Filepath.Dir "/srv/archivos/alex/a/b" /\
  Code (GenerateHandler concatMerge nestedRequest nestedWorld).1 = StatusOK /\
  Code (DownloadHandler nestedDownload
          (GenerateHandler concatMerge nestedRequest nestedWorld).2).1
  = StatusNotFound.
Proof.
  split; [|repeat split; try (vm_compute; reflexivity); vm_compute; discriminate].
  intros merge.
  rewrite (joinPDFs_call merge _ _ nestedWorld "1-x.pdf" []);
    vm_compute; reflexivity.
Qed.

(** ** Upload orchestration *)

Lemma Split_hd name : hd "" (Strings.Split name "-") = leadingSegment name.
Proof.
  induction name as [|c rest IH]; simpl; [reflexivity|].
  destruct (Ascii.eqb c "-"); [reflexivity|].
  destruct (Strings.Split rest "-") as [|p ps]; simpl in *; now rewrite <- IH.
Qed.

Lemma uploadFilename_storedName counter i name :
  uploadFilename counter i name = storedName counter (i + 1) name.
Proof.
  unfold uploadFilename, storedName. rewrite Split_hd.
  destruct (Strconv.Atoi (leadingSegment name)); simpl; [reflexivity|].
  now replace (counter + (i + 1)) with (i + 1 + counter) by lia.
Qed.

Lemma Create_Copy fs0 fs1 fs2 dst data :
  OS.Create fs0 dst = Ok fs1 -> OS.Copy fs1 dst data = Ok fs2 ->
  fs2 = <[dst := File data]> fs0.
Proof.
  unfold OS.Create, OS.Copy. intros Hc Hw.
  assert (Hfs1 : fs1 = <[dst := File ""]> fs0).
  { destruct (fs0 !! dst) as [[d|]|]; try discriminate;
      destruct (fs0 !! Filepath.Dir dst) as [[d'|]|]; congruence. }
  subst fs1. rewrite lookup_insert_eq in Hw.
  injection Hw as <-. now rewrite insert_insert_eq.
Qed.

Lemma uploadFiles_stores folderPath counter i files fs0 fs2 :
  uploadFiles folderPath counter i files fs0 = (None, fs2) ->
  exists contents,
    Forall2 (fun fh data => Open fh = Ok data) files contents /\
    fs2 = storeBatch folderPath counter (i + 1)
            (combine (map Filename files) contents) fs0.
Proof.
  revert i fs0. induction files as [|fh files IH]; intros i fs0; simpl.
  - intros [= <-]. exists []. split; [constructor|reflexivity].
  - destruct (Open fh) as [data|e] eqn:Ho; [|discriminate].
    destruct (OS.Create fs0 _) as [fs1|e] eqn:Hc; [|discriminate].
    destruct (OS.Copy fs1 _ data) as [fs1'|e] eqn:Hw; [|discriminate].
    intros H. apply IH in H as (contents & Hall & ->).
    exists (data :: contents). split; [now constructor|].
    simpl. rewrite (Create_Copy _ _ _ _ _ Hc Hw).
    now rewrite uploadFilename_storedName.
Qed.

(** Whatever the outcome, the loop has stored a prefix of the batch, in
    input order, and the whole batch when it reports no failure. *)
Lemma uploadFiles_prefix folderPath counter i files fs0 res fs2 :
  uploadFiles folderPath counter i files fs0 = (res, fs2) ->
  exists k contents,
    (k <= length files)%nat /\
    Forall2 (fun fh data => Open fh = Ok data) (take k files) contents /\
    fs2 = storeBatch folderPath counter (i + 1)
            (combine (map Filename (take k files)) contents) fs0 /\
    (res = None -> k = length files).
Proof.
  revert i fs0. induction files as [|fh files IH]; intros i fs0; simpl.
  - intros [= <- <-]. exists 0%nat, []. repeat split; [lia|constructor].
  - destruct (Open fh) as [data|e] eqn:Ho.
    2:{ intros [= <- <-]. exists 0%nat, [].
        repeat split; [lia|constructor|discriminate]. }
    destruct (OS.Create fs0 _) as [fs1|e] eqn:Hc.
    2:{ intros [= <- <-]. exists 0%nat, [].
        repeat split; [lia|constructor|discriminate]. }
    destruct (OS.Copy fs1 _ data) as [fs1'|e] eqn:Hw.
    2:{ exfalso. revert Hc Hw. unfold OS.Create, OS.Copy.
        destruct (fs0 !! _) as [[d|]|]; try discriminate;
          destruct (fs0 !! Filepath.Dir _) as [[d'|]|]; try discriminate;
          intros [= <-]; now rewrite lookup_insert_eq. }
    intros H. apply IH in H as (k & contents & Hk & Hall & -> & Hnone).
    exists (S k), (data :: contents). simpl.
    rewrite (Create_Copy _ _ _ _ _ Hc Hw), uploadFilename_storedName.
    repeat split; [lia|now constructor|]. intros Hres. f_equal. auto.
Qed.

Lemma uploadFiles_error folderPath counter i files fs0 resp fs2 :
  uploadFiles folderPath counter i files fs0 = (Some resp, fs2) ->
  Code resp = StatusInternalServerError.
Proof.
  revert i fs0. induction files as [|fh files IH]; intros i fs0; simpl;
    [discriminate|].
  destruct (Open fh); [|now intros [= <- _]].
  destruct (OS.Create _ _); [|now intros [= <- _]].
  destruct (OS.Copy _ _ _); [|now intros [= <- _]].
  apply IH.
Qed.

(** C3: an upload that is answered 200 has stored every file of the
    batch, in input order: with [base] the number of PDFs listed in the
    target folder, the file at 1-indexed position [i] is written in the
    folder under [base+i], a dash and its original name when the segment
    of the original name before the first dash does not parse as an
    integer, and under its original name when that segment does parse
    ([storedName], [storeBatch]). *)
Theorem UploadHandler_names (r : Request) (w w' : World) (resp : Response) :
  UploadHandler r w = (resp, w') ->
  Code resp = StatusOK ->
  exists userStoragePath fs1 destFiles files contents,
    getUserStoragePath r w = Ok userStoragePath /\
    OS.MkdirAll (fs w) (Filepath.Join [userStoragePath; FormValue r "folder"]) = Ok fs1 /\
    ListFilesWithExtension (OS.ReadDir fs1)
      (Filepath.Join [userStoragePath; FormValue r "folder"]) ".pdf" = Ok destFiles /\
    MultipartFiles r = Ok files /\
    Forall2 (fun fh data => Open fh = Ok data) files contents /\
    fs w' = storeBatch (Filepath.Join [userStoragePath; FormValue r "folder"])
              (Z.of_nat (length destFiles)) 1
              (combine (map Filename files) contents) fs1.
Proof.
  unfold UploadHandler. intros H Hcode.
  destruct (negb (String.eqb (Method r) MethodPost));
    [injection H as <- _; discriminate Hcode|].
  destruct (getUserStoragePath r w) as [userStoragePath|e];
    [|injection H as <- _; discriminate Hcode].
  destruct (String.eqb (FormValue r "folder") "");
    [injection H as <- _; discriminate Hcode|].
  destruct (OS.MkdirAll _ _) as [fs1|e] eqn:Hmk;
    [|injection H as <- _; discriminate Hcode].
  destruct (ListFilesWithExtension _ _ _) as [destFiles|e] eqn:Hls;
    [|injection H as <- _; discriminate Hcode].
  destruct (MultipartFiles r) as [files|e] eqn:Hmp;
    [|injection H as <- _; discriminate Hcode].
  destruct (uploadFiles _ _ _ _ _) as [[resp'|] fs2] eqn:Hup.
  - injection H as <- <-.
    apply uploadFiles_error in Hup. rewrite Hup in Hcode. discriminate Hcode.
  - injection H as <- <-.
    apply uploadFiles_stores in Hup as (contents & Hall & Hfs).
    exists userStoragePath, fs1, destFiles, files, contents.
    repeat split; try assumption; reflexivity.
Qed.

Lemma UploadHandler_names_witness :
  exists userStoragePath fs1 destFiles files contents,
    getUserStoragePath uploadRequest uploadWorld = Ok userStoragePath /\
    OS.MkdirAll (fs uploadWorld)
      (Filepath.Join [userStoragePath; FormValue uploadRequest "folder"]) = Ok fs1 /\
    ListFilesWithExtension (OS.ReadDir fs1)
      (Filepath.Join [userStoragePath; FormValue uploadRequest "folder"]) ".pdf"
      = Ok destFiles /\
    MultipartFiles uploadRequest = Ok files /\
    Forall2 (fun fh data => Open fh = Ok data) files contents /\
    fs (UploadHandler uploadRequest uploadWorld).2
    = storeBatch (Filepath.Join [userStoragePath; FormValue uploadRequest "folder"])
        (Z.of_nat (length destFiles)) 1
        (combine (map Filename files) contents) fs1.
Proof.
  apply (UploadHandler_names uploadRequest uploadWorld
           (UploadHandler uploadRequest uploadWorld).2
           (UploadHandler uploadRequest uploadWorld).1).
  - apply surjective_pairing.
  - vm_compute. reflexivity.
Defined.

(** The same batch, name by name: over one stored PDF, x.pdf becomes
    2-x.pdf, 7-y.pdf keeps its name, z-3.pdf becomes 4-z-3.pdf. *)
Example upload_example :
  Code (UploadHandler uploadRequest uploadWorld).1 = StatusOK /\
  fs (UploadHandler uploadRequest uploadWorld).2
  = <[ "/srv/archivos/alex/f/4-z-3.pdf" := File "Z" ]>
    (<[ "/srv/archivos/alex/f/7-y.pdf" := File "Y" ]>
     (<[ "/srv/archivos/alex/f/2-x.pdf" := File "X" ]> (fs uploadWorld))).
Proof. split; vm_compute; reflexivity. Qed.

(** ** Delete orchestration *)

Lemma removeAllFiles_lookup fs0 folderPath p n :
  removeAllFiles fs0 folderPath !! p = Some n <->
  fs0 !! p = Some n /\ ~ (OS.isEntryOf folderPath p = true /\ isDirectory n = false).
Proof. unfold removeAllFiles. now rewrite map_lookup_filter_Some. Qed.

Lemma entriesOf_removeAllFiles fs0 folderPath :
  Forall (fun e => IsDir e = true)
         (OS.entriesOf (removeAllFiles fs0 folderPath) folderPath).
Proof.
  apply Forall_forall. intros e He.
  unfold OS.entriesOf in He.
  apply list_elem_of_omap in He as ([p n] & Hin & Hf).
  apply elem_of_map_to_list in Hin. simpl in Hf.
  destruct (OS.isEntryOf folderPath p) eqn:Hent; [|discriminate].
  injection Hf as <-. simpl.
  apply removeAllFiles_lookup in Hin as [_ Hkeep].
  destruct (isDirectory n); [reflexivity|]. exfalso. now apply Hkeep.
Qed.

Lemma matchFiles_directories entries ext :
  Forall (fun e => IsDir e = true) entries -> matchFiles entries ext = [].
Proof.
  intros Hall. rewrite matchFiles_filter.
  induction Hall as [|e entries He _ IH]; [reflexivity|].
  simpl. unfold keeps at 1. rewrite He. exact IH.
Qed.

(** C4: a DELETE request that names a folder which exists and carries an
    empty file list is answered 200 and deletes every file of the folder:
    no entry of the folder is a regular file afterwards, everything else
    in the filesystem is as before, and the folder listing that follows
    returns the empty sequence, for [.pdf] as for any extension. *)
Theorem DeleteFilesHandler_empty_list (r : Request) (w : World)
    (code folder : string) :
  Method r = MethodDelete ->
  userCode r = Some code ->
  JSONBody r = Ok {| Folder := folder; Files := [] |} ->
  fs w !! Filepath.Join [Filepath.Join [cwd w; "archivos"; code]; folder]
    = Some Directory ->
  Code (DeleteFilesHandler r w).1 = StatusOK /\
  (forall p data,
     OS.isEntryOf (Filepath.Join [Filepath.Join [cwd w; "archivos"; code]; folder]) p
       = true ->
     fs (DeleteFilesHandler r w).2 !! p <> Some (File data)) /\
  (forall p,
     OS.isEntryOf (Filepath.Join [Filepath.Join [cwd w; "archivos"; code]; folder]) p
       = false \/ fs w !! p = Some Directory ->
     fs (DeleteFilesHandler r w).2 !! p = fs w !! p) /\
  (forall ext,
     ListFilesWithExtension (OS.ReadDir (fs (DeleteFilesHandler r w).2))
       (Filepath.Join [Filepath.Join [cwd w; "archivos"; code]; folder]) ext
     = Ok []).
Proof.
  intros Hm Hu Hj Hdir.
  set (folderPath := Filepath.Join [Filepath.Join [cwd w; "archivos"; code]; folder])
    in *.
  assert (Hrun : DeleteFilesHandler r w
                 = (Write StatusOK "", setFs w (removeAllFiles (fs w) folderPath))).
  { unfold DeleteFilesHandler, getUserStoragePath.
    rewrite Hm, Hu, Hj. cbn [Folder Files]. fold folderPath.
    unfold OS.ReadDir. rewrite Hdir. reflexivity. }
  rewrite Hrun. simpl.
  split; [reflexivity|]. split; [|split].
  - intros p data Hent Hlook.
    apply removeAllFiles_lookup in Hlook as [_ Hkeep]. now apply Hkeep.
  - intros p Hp. apply option_eq. intros n.
    rewrite removeAllFiles_lookup. split; [tauto|].
    intros Hn. split; [exact Hn|]. intros [Hent Hfile].
    destruct Hp as [Hp|Hp]; [congruence|].
    rewrite Hp in Hn. injection Hn as <-. discriminate Hfile.
  - intros ext. unfold ListFilesWithExtension, OS.ReadDir.
    assert (Hstill : removeAllFiles (fs w) folderPath !! folderPath = Some Directory).
    { apply removeAllFiles_lookup. split; [exact Hdir|]. now intros [_ ?]. }
    rewrite Hstill. f_equal.
    rewrite matchFiles_directories; [reflexivity|].
    rewrite <- Slice_perm. apply entriesOf_removeAllFiles.
Qed.

Lemma DeleteFilesHandler_empty_list_witness :
  Code (DeleteFilesHandler deleteRequest deleteWorld).1 = StatusOK /\
  ListFilesWithExtension (OS.ReadDir (fs (DeleteFilesHandler deleteRequest deleteWorld).2))
    "/tmp/archivos/testUser/test-folder" ".pdf" = Ok [].
Proof.
  destruct (DeleteFilesHandler_empty_list deleteRequest deleteWorld
              "testUser" "test-folder")
    as (Hcode & _ & _ & Hlist); try reflexivity.
  split; [exact Hcode|]. exact (Hlist ".pdf").
Defined.

(** ** Base64 round trip *)

Lemma land_disjoint q b n :
  0 <= n -> 0 <= b < 2 ^ n -> Z.land (Z.shiftl q n) b = 0.
Proof.
  intros Hn Hb. apply Z.bits_inj'. intros m Hm.
  rewrite Z.land_spec, Z.bits_0.
  destruct (Z.lt_ge_cases m n) as [Hlt|Hge].
  - now rewrite Z.shiftl_spec_low.
  - replace (Z.testbit b m) with false; [apply andb_false_r|].
    symmetry. destruct (Z.eq_dec b 0) as [->|Hb0]; [apply Z.bits_0|].
    apply Z.bits_above_log2; [lia|].
    assert (Z.log2 b < n) by (apply Z.log2_lt_pow2; lia). lia.
Qed.

(** Bits that do not overlap are added by [Z.lor]. *)
Lemma lor_add a b n :
  0 <= n -> 0 <= b < 2 ^ n -> a mod 2 ^ n = 0 -> Z.lor a b = a + b.
Proof.
  intros Hn Hb Ha.
  assert (Hq : a = Z.shiftl (a / 2 ^ n) n).
  { rewrite Z.shiftl_mul_pow2 by lia.
    pose proof (Z.div_mod a (2 ^ n)) as Hdm. lia. }
  assert (Hdis : Z.land a b = 0) by (rewrite Hq; now apply land_disjoint).
  rewrite Z.add_nocarry_lxor by exact Hdis. symmetry. now apply Z.lxor_lor.
Qed.

Lemma land_63 v : Z.land v 63 = v mod 64.
Proof. change 63 with (Z.ones 6). now rewrite Z.land_ones by lia. Qed.

Lemma land_255 v : Z.land v 255 = v mod 256.
Proof. change 255 with (Z.ones 8). now rewrite Z.land_ones by lia. Qed.

Lemma byte_byteOf c : Base64.byte (byteOf c) = c.
Proof.
  unfold Base64.byte. rewrite land_255.
  pose proof (byteOf_range c) as Hr.
  rewrite Z.mod_small by lia.
  unfold byteOf. rewrite N2Z.id. apply ascii_N_embedding.
Qed.

Lemma byte_mod v c : v mod 256 = byteOf c -> Base64.byte v = c.
Proof.
  intros H. rewrite <- (byte_byteOf c). unfold Base64.byte.
  rewrite !land_255, <- H. now rewrite Z.mod_mod by lia.
Qed.

Lemma below_64 (P : Z -> Prop) :
  (forall n : nat, (n < 64)%nat -> P (Z.of_nat n)) -> forall i, 0 <= i < 64 -> P i.
Proof.
  intros H i Hi. rewrite <- (Z2Nat.id i) by lia. apply H. lia.
Qed.

Lemma decodeMap_encodeAt i :
  0 <= i < 64 -> Base64.decodeMap (Base64.encodeAt i) = Some i.
Proof.
  revert i. apply below_64. intros n Hn.
  do 64 (destruct n as [|n]; [vm_compute; reflexivity|]). lia.
Qed.

Lemma encodeAt_not_pad i :
  0 <= i < 64 -> Ascii.eqb (Base64.encodeAt i) Base64.padChar = false.
Proof.
  revert i. apply below_64. intros n Hn.
  do 64 (destruct n as [|n]; [vm_compute; reflexivity|]). lia.
Qed.

Lemma sextet_range v : 0 <= Z.land v 63 < 64.
Proof. rewrite land_63. apply Z.mod_pos_bound. lia. Qed.

(** The three-byte value of [Encode], as a sum. *)
Lemma val3 x0 x1 x2 :
  0 <= x0 < 256 -> 0 <= x1 < 256 -> 0 <= x2 < 256 ->
  Z.lor (Z.lor (Z.shiftl x0 16) (Z.shiftl x1 8)) x2 = x0 * 65536 + x1 * 256 + x2.
Proof.
  intros H0 H1 H2. rewrite !Z.shiftl_mul_pow2 by lia.
  change (2 ^ 16) with 65536. change (2 ^ 8) with 256.
  rewrite (lor_add (x0 * 65536) (x1 * 256) 16);
    [|lia|change (2 ^ 16) with 65536; lia
     |change (2 ^ 16) with 65536; now rewrite Z.mod_mul by lia].
  apply (lor_add _ x2 8); [lia|change (2 ^ 8) with 256; lia|].
  change (2 ^ 8) with 256.
  replace (x0 * 65536 + x1 * 256) with ((x0 * 256 + x1) * 256) by lia.
  now rewrite Z.mod_mul by lia.
Qed.

(** The four-sextet value of [DecodeString], as a sum. *)
Lemma val4 d0 d1 d2 d3 :
  0 <= d0 < 64 -> 0 <= d1 < 64 -> 0 <= d2 < 64 -> 0 <= d3 < 64 ->
  Z.lor (Z.lor (Z.lor (Z.shiftl d0 18) (Z.shiftl d1 12)) (Z.shiftl d2 6)) d3
  = d0 * 262144 + d1 * 4096 + d2 * 64 + d3.
Proof.
  intros H0 H1 H2 H3. rewrite !Z.shiftl_mul_pow2 by lia.
  change (2 ^ 18) with 262144. change (2 ^ 12) with 4096. change (2 ^ 6) with 64.
  rewrite (lor_add (d0 * 262144) (d1 * 4096) 18);
    [|lia|change (2 ^ 18) with 262144; lia
     |change (2 ^ 18) with 262144; now rewrite Z.mod_mul by lia].
  rewrite (lor_add _ (d2 * 64) 12);
    [|lia|change (2 ^ 12) with 4096; lia|].
  2:{ change (2 ^ 12) with 4096.
      replace (d0 * 262144 + d1 * 4096) with ((d0 * 64 + d1) * 4096) by lia.
      now rewrite Z.mod_mul by lia. }
  apply (lor_add _ d3 6); [lia|change (2 ^ 6) with 64; lia|].
  change (2 ^ 6) with 64.
  replace (d0 * 262144 + d1 * 4096 + d2 * 64)
    with ((d0 * 4096 + d1 * 64 + d2) * 64) by lia.
  now rewrite Z.mod_mul by lia.
Qed.

Lemma sextets_sum val :
  0 <= val < 16777216 ->
  Z.lor (Z.lor (Z.lor (Z.shiftl (Z.land (Z.shiftr val 18) 63) 18)
                      (Z.shiftl (Z.land (Z.shiftr val 12) 63) 12))
               (Z.shiftl (Z.land (Z.shiftr val 6) 63) 6))
        (Z.land val 63)
  = val.
Proof.
  intros Hv. rewrite val4 by apply sextet_range.
  rewrite !land_63, !Z.shiftr_div_pow2 by lia.
  change (2 ^ 18) with 262144. change (2 ^ 12) with 4096. change (2 ^ 6) with 64.
  Z.div_mod_to_equations. lia.
Qed.

Lemma decode_quantum c0 c1 c2 c3 rest d0 d1 d2 d3 :
  Base64.decodeMap c0 = Some d0 -> Base64.decodeMap c1 = Some d1 ->
  Base64.decodeMap c2 = Some d2 -> Base64.decodeMap c3 = Some d3 ->
  Ascii.eqb c2 Base64.padChar = false -> Ascii.eqb c3 Base64.padChar = false ->
  Base64.DecodeString (String c0 (String c1 (String c2 (String c3 rest))))
  = match Base64.DecodeString rest with
    | Ok tl =>
        let val := Z.lor (Z.lor (Z.lor (Z.shiftl d0 18) (Z.shiftl d1 12))
                                (Z.shiftl d2 6)) d3 in
        Ok (String (Base64.byte (Z.shiftr val 16))
           (String (Base64.byte (Z.shiftr val 8))
           (String (Base64.byte val) tl)))
    | Err e => Err e
    end.
Proof.
  intros H0 H1 H2 H3 Hp2 Hp3. cbn [Base64.DecodeString].
  now rewrite H0, H1, Hp2, H2, Hp3, H3.
Qed.

Lemma decode_last2 c0 c1 c2 d0 d1 d2 :
  Base64.decodeMap c0 = Some d0 -> Base64.decodeMap c1 = Some d1 ->
  Base64.decodeMap c2 = Some d2 -> Ascii.eqb c2 Base64.padChar = false ->
  Base64.DecodeString (String c0 (String c1 (String c2 (String Base64.padChar ""))))
  = let val := Z.lor (Z.lor (Z.shiftl d0 18) (Z.shiftl d1 12)) (Z.shiftl d2 6) in
    Ok (String (Base64.byte (Z.shiftr val 16))
       (String (Base64.byte (Z.shiftr val 8)) "")).
Proof.
  intros H0 H1 H2 Hp2. cbn [Base64.DecodeString].
  now rewrite H0, H1, Hp2, H2.
Qed.

Lemma decode_last1 c0 c1 d0 d1 :
  Base64.decodeMap c0 = Some d0 -> Base64.decodeMap c1 = Some d1 ->
  Base64.DecodeString
    (String c0 (String c1 (String Base64.padChar (String Base64.padChar ""))))
  = let val := Z.lor (Z.shiftl d0 18) (Z.shiftl d1 12) in
    Ok (String (Base64.byte (Z.shiftr val 16)) "").
Proof.
  intros H0 H1. cbn [Base64.DecodeString]. now rewrite H0, H1.
Qed.

Lemma val4_3 d0 d1 d2 :
  0 <= d0 < 64 -> 0 <= d1 < 64 -> 0 <= d2 < 64 ->
  Z.lor (Z.lor (Z.shiftl d0 18) (Z.shiftl d1 12)) (Z.shiftl d2 6)
  = d0 * 262144 + d1 * 4096 + d2 * 64.
Proof.
  intros H0 H1 H2. pose proof (val4 d0 d1 d2 0 H0 H1 H2) as H.
  rewrite Z.lor_0_r in H. rewrite H; lia.
Qed.

Lemma val4_2 d0 d1 :
  0 <= d0 < 64 -> 0 <= d1 < 64 ->
  Z.lor (Z.shiftl d0 18) (Z.shiftl d1 12) = d0 * 262144 + d1 * 4096.
Proof.
  intros H0 H1. pose proof (val4_3 d0 d1 0 H0 H1) as H.
  rewrite Z.shiftl_0_l, Z.lor_0_r in H. rewrite H; lia.
Qed.

Lemma val3_2 x0 x1 :
  0 <= x0 < 256 -> 0 <= x1 < 256 ->
  Z.lor (Z.shiftl x0 16) (Z.shiftl x1 8) = x0 * 65536 + x1 * 256.
Proof.
  intros H0 H1. pose proof (val3 x0 x1 0 H0 H1) as H.
  rewrite Z.lor_0_r in H. rewrite H; lia.
Qed.

Ltac sextets_to_arith :=
  rewrite ?land_63, ?Z.shiftr_div_pow2, ?Z.shiftl_mul_pow2 by lia;
  change (2 ^ 18) with 262144; change (2 ^ 16) with 65536;
  change (2 ^ 12) with 4096; change (2 ^ 8) with 256; change (2 ^ 6) with 64;
  Z.div_mod_to_equations; lia.

(** The encoding is reversible: decoding the code gives back the bytes
    that were encoded. *)
Lemma DecodeString_Encode s :
  Base64.DecodeString (Base64.EncodeToString s) = Ok s.
Proof.
  unfold Base64.EncodeToString.
  enough (H : forall n s, (String.length s <= n)%nat ->
                          Base64.DecodeString (Base64.Encode s) = Ok s)
    by (apply (H (String.length s)); lia).
  clear s. induction n as [|n IH]; intros s Hn.
  { destruct s; [reflexivity|simpl in Hn; lia]. }
  destruct s as [|s0 [|s1 [|s2 rest]]].
  - reflexivity.
  - cbn [Base64.Encode]. pose proof (byteOf_range s0) as R0.
    erewrite decode_last1 by (apply decodeMap_encodeAt, sextet_range).
    cbv zeta. f_equal. f_equal. apply byte_mod.
    rewrite val4_2 by apply sextet_range.
    sextets_to_arith.
  - cbn [Base64.Encode].
    pose proof (byteOf_range s0) as R0. pose proof (byteOf_range s1) as R1.
    rewrite val3_2 by assumption.
    erewrite decode_last2
      by first [apply decodeMap_encodeAt, sextet_range
               |apply encodeAt_not_pad, sextet_range].
    cbv zeta. rewrite val4_3 by apply sextet_range.
    f_equal. f_equal; [|f_equal]; apply byte_mod; sextets_to_arith.
  - cbn [Base64.Encode].
    pose proof (byteOf_range s0) as R0. pose proof (byteOf_range s1) as R1.
    pose proof (byteOf_range s2) as R2.
    rewrite val3 by assumption.
    erewrite decode_quantum
      by first [apply decodeMap_encodeAt, sextet_range
               |apply encodeAt_not_pad, sextet_range].
    rewrite IH by (simpl in Hn; lia).
    cbv zeta. rewrite sextets_sum by lia.
    f_equal. f_equal; [|f_equal; [|f_equal]]; apply byte_mod; sextets_to_arith.
Qed.

(** Every code has a length that is a multiple of four. *)
Lemma Encode_length s : (String.length (Base64.EncodeToString s) mod 4 = 0)%nat.
Proof.
  unfold Base64.EncodeToString.
  enough (H : forall n s, (String.length s <= n)%nat ->
                          exists k, String.length (Base64.Encode s) = (4 * k)%nat).
  { destruct (H (String.length s) s ltac:(lia)) as [k ->].
    rewrite Nat.mul_comm. apply Nat.Div0.mod_mul. }
  clear s. induction n as [|n IH]; intros s Hn.
  { destruct s; [now exists 0%nat|simpl in Hn; lia]. }
  destruct s as [|s0 [|s1 [|s2 rest]]].
  - now exists 0%nat.
  - now exists 1%nat.
  - now exists 1%nat.
  - destruct (IH rest) as [k Hk]; [simpl in Hn; lia|].
    exists (S k). cbn [Base64.Encode String.length]. rewrite Hk. lia.
Qed.

Lemma Encode_nonempty s : s <> "" -> Base64.EncodeToString s <> "".
Proof. destruct s as [|s0 [|s1 [|s2 rest]]]; [congruence|discriminate..]. Qed.

(** ** The access-code store *)

Lemma isValid_insert codes code c :
  isValid (<[code := true]> codes) c = true <-> c = code \/ isValid codes c = true.
Proof.
  unfold isValid. destruct (decide (code = c)) as [->|Hne].
  - rewrite lookup_insert_eq. simpl. tauto.
  - rewrite lookup_insert_ne by exact Hne. split; [tauto|].
    intros [->|H]; [contradiction|exact H].
Qed.

(** [GenerateCodeHandler] either refuses the request and leaves the state
    alone, or answers 200 with the code it registers. *)
Lemma GenerateCodeHandler_cases r w :
  (Code (GenerateCodeHandler r w).1 <> StatusOK /\ (GenerateCodeHandler r w).2 = w) \/
  GenerateCodeHandler r w
  = (Write StatusOK
       (Base64.EncodeToString (FormValue r "name" +:+ FormValue r "date") +:+ newline),
     setValidCodes w
       (<[Base64.EncodeToString (FormValue r "name" +:+ FormValue r "date") := true]>
          (validCodes w))).
Proof.
  unfold GenerateCodeHandler.
  destruct (negb _); [left; split; [discriminate|reflexivity]|].
  destruct (ParseForm r); [left; split; [discriminate|reflexivity]|].
  destruct (_ || _); [left; split; [discriminate|reflexivity]|].
  now right.
Qed.

Lemma GenerateCodeHandler_codes r w :
  validCodes (GenerateCodeHandler r w).2 = validCodes w \/
  exists code,
    code = Base64.EncodeToString (FormValue r "name" +:+ FormValue r "date") /\
    (GenerateCodeHandler r w).1 = Write StatusOK (code +:+ newline) /\
    validCodes (GenerateCodeHandler r w).2 = <[code := true]> (validCodes w).
Proof.
  destruct (GenerateCodeHandler_cases r w) as [[_ ->] | ->]; [now left|].
  right. eexists. repeat split.
Qed.

Lemma LoginHandler_codes r w : (LoginHandler r w).2 = w.
Proof.
  unfold LoginHandler.
  destruct (negb _); [reflexivity|]. destruct (ParseForm r); [reflexivity|].
  destruct (String.eqb _ _); [reflexivity|]. now destruct (negb _).
Qed.

Lemma AuthMiddleware_codes next r w :
  (forall r' w', validCodes (next r' w').2 = validCodes w') ->
  validCodes (AuthMiddleware next r w).2 = validCodes w.
Proof.
  intros Hnext. unfold AuthMiddleware.
  destruct (Cookies r !! "auth_code"); [|reflexivity].
  destruct (negb _); [reflexivity|apply Hnext].
Qed.

Lemma UploadHandler_codes r w : validCodes (UploadHandler r w).2 = validCodes w.
Proof.
  unfold UploadHandler.
  destruct (negb _); [reflexivity|].
  destruct (getUserStoragePath r w); [|reflexivity].
  destruct (String.eqb _ _); [reflexivity|].
  destruct (OS.MkdirAll _ _); [|reflexivity].
  destruct (ListFilesWithExtension _ _ _); [|reflexivity].
  destruct (MultipartFiles r); [|reflexivity].
  now destruct (uploadFiles _ _ _ _ _) as [[?|] ?].
Qed.

Lemma joinPDFs_codes merge path folder w :
  validCodes (joinPDFs merge path folder w).2 = validCodes w.
Proof.
  unfold joinPDFs.
  destruct (ListFilesWithExtension _ _ _) as [files|]; [|reflexivity].
  destruct (length files =? 0)%nat; [reflexivity|].
  now destruct (merge _ _ _) as [[?|] ?].
Qed.

Lemma GenerateHandler_codes merge r w :
  validCodes (GenerateHandler merge r w).2 = validCodes w.
Proof.
  unfold GenerateHandler.
  destruct (negb _); [reflexivity|].
  destruct (getUserStoragePath r w) as [userStoragePath|]; [|reflexivity].
  destruct (String.eqb _ _); [reflexivity|].
  pose proof (joinPDFs_codes merge userStoragePath (FormValue r "folder") w) as H.
  now destruct (joinPDFs _ _ _ _) as [[?|] ?].
Qed.

Lemma ListHandler_codes json r w : (ListHandler json r w).2 = w.
Proof.
  unfold ListHandler.
  destruct (getUserStoragePath r w); [|reflexivity].
  destruct (String.eqb _ _); [reflexivity|].
  now destruct (ListFilesWithExtension _ _ _).
Qed.

Lemma DownloadHandler_codes r w : (DownloadHandler r w).2 = w.
Proof.
  unfold DownloadHandler.
  destruct (getUserStoragePath r w); [|reflexivity].
  destruct (String.eqb _ _); [reflexivity|].
  now destruct (fs w !! _) as [[?|]|].
Qed.

Section Codes.
Variable MergeCreateFile :
  filesystem -> list string -> string -> option error * filesystem.
Variable jsonEncode : list string -> string.

Local Abbreviation serve := (serve MergeCreateFile jsonEncode).
Local Abbreviation reaches := (reaches MergeCreateFile jsonEncode).

(** A request changes the codes only on /generate-code, and then by the
    one code of its response. *)
Lemma serve_codes rt r w :
  validCodes (serve rt r w).2 = validCodes w \/
  rt = GenerateCodeRoute /\
  exists code,
    code = Base64.EncodeToString (FormValue r "name" +:+ FormValue r "date") /\
    (serve rt r w).1 = Write StatusOK (code +:+ newline) /\
    validCodes (serve rt r w).2 = <[code := true]> (validCodes w).
Proof.
  destruct rt; simpl.
  - destruct (GenerateCodeHandler_codes r w) as [H|H]; [now left|right; now split].
  - left. now rewrite LoginHandler_codes.
  - left. apply AuthMiddleware_codes, UploadHandler_codes.
  - left. apply AuthMiddleware_codes. intros r' w'. now rewrite ListHandler_codes.
  - left. apply AuthMiddleware_codes, GenerateHandler_codes.
  - left. apply AuthMiddleware_codes. intros r' w'. now rewrite DownloadHandler_codes.
Qed.

(** No code is ever removed. *)
Lemma reaches_keeps w tr w' c :
  reaches w tr w' ->
  isValid (validCodes w) c = true -> isValid (validCodes w') c = true.
Proof.
  induction 1 as [|w tr w1 rt r Hr IH]; intros Hv; [exact Hv|].
  destruct (serve_codes rt r w1) as [->|(_ & code & _ & _ & ->)]; [auto|].
  apply isValid_insert. right. auto.
Qed.

(** A valid code was valid at the start or is the code with which some
    call of /generate-code was answered. *)
Lemma reaches_valid w tr w' c :
  reaches w tr w' ->
  isValid (validCodes w') c = true ->
  isValid (validCodes w) c = true \/
  exists r,
    In (GenerateCodeRoute, r, Write StatusOK (c +:+ newline)) tr /\
    c = Base64.EncodeToString (FormValue r "name" +:+ FormValue r "date").
Proof.
  induction 1 as [|w tr w1 rt r Hr IH]; intros Hv; [now left|].
  destruct (serve_codes rt r w1) as [Heq|(-> & code & Hcode & Hresp & Heq)];
    rewrite Heq in Hv.
  - destruct (IH Hv) as [?|(r0 & Hin & Hc)]; [now left|].
    right. exists r0. split; [|exact Hc]. apply in_or_app. now left.
  - apply isValid_insert in Hv as [->|Hv].
    + right. exists r. split; [|exact Hcode].
      apply in_or_app. right. left. now rewrite Hresp.
    + destruct (IH Hv) as [?|(r0 & Hin & Hc)]; [now left|].
      right. exists r0. split; [|exact Hc]. apply in_or_app. now left.
Qed.

(** C8: whenever the code generation answers with a code (status 200),
    for whatever name and date, the code is the Base64 encoding of name
    followed by date, an encoding that decodes back to these bytes, and
    it is registered: the code validates right after the call and in
    every state reached later.  A POST with a name and a date is answered
    in this way.  From process start, a string that is not in the initial
    set and with which no call of /generate-code was ever answered does
    not validate, and "garbage" never validates at all. *)
Theorem generated_code_validates :
  (forall r w,
     Code (GenerateCodeHandler r w).1 = StatusOK ->
     Body (GenerateCodeHandler r w).1
       = Base64.EncodeToString (FormValue r "name" +:+ FormValue r "date")
         +:+ newline /\
     Base64.DecodeString
       (Base64.EncodeToString (FormValue r "name" +:+ FormValue r "date"))
       = Ok (FormValue r "name" +:+ FormValue r "date") /\
     isValid (validCodes (GenerateCodeHandler r w).2)
       (Base64.EncodeToString (FormValue r "name" +:+ FormValue r "date")) = true /\
     forall tr w',
       reaches (GenerateCodeHandler r w).2 tr w' ->
       isValid (validCodes w')
         (Base64.EncodeToString (FormValue r "name" +:+ FormValue r "date")) = true) /\
  (forall r w,
     Method r = MethodPost -> ParseForm r = None ->
     FormValue r "name" <> "" -> FormValue r "date" <> "" ->
     Code (GenerateCodeHandler r w).1 = StatusOK) /\
  (forall fs0 wd tr w c,
     reaches (initialWorld fs0 wd) tr w ->
     initialCodes !! c = None ->
     (forall r, ~ In (GenerateCodeRoute, r, Write StatusOK (c +:+ newline)) tr) ->
     isValid (validCodes w) c = false) /\
  (forall fs0 wd tr w,
     reaches (initialWorld fs0 wd) tr w ->
     isValid (validCodes w) "garbage" = false).
Proof.
  split; [|split; [|split]].
  - intros r w Hok.
    destruct (GenerateCodeHandler_cases r w) as [[Hno _]|Hrun]; [contradiction|].
    rewrite Hrun. cbn [fst snd validCodes setValidCodes Body Write].
      assert (Hnow : isValid
                       (<[Base64.EncodeToString
                            (FormValue r "name" +:+ FormValue r "date") := true]>
                          (validCodes w))
                       (Base64.EncodeToString
                          (FormValue r "name" +:+ FormValue r "date")) = true)
        by (apply isValid_insert; now left).
      split; [reflexivity|]. split; [apply DecodeString_Encode|].
      split; [exact Hnow|].
      intros tr w' Hr. exact (reaches_keeps _ _ _ _ Hr Hnow).
  - intros r w Hm Hp Hn Hd. unfold GenerateCodeHandler.
    rewrite Hm, Hp. simpl.
    apply String.eqb_neq in Hn, Hd. now rewrite Hn, Hd.
  - intros fs0 wd tr w c Hr Hinit Hnever.
    destruct (isValid (validCodes w) c) eqn:Hv; [|reflexivity].
    destruct (reaches_valid _ _ _ _ Hr Hv) as [H0|(r & Hin & _)].
    + unfold isValid in H0. simpl in H0. rewrite Hinit in H0. discriminate.
    + exfalso. exact (Hnever r Hin).
  - intros fs0 wd tr w Hr.
    destruct (isValid (validCodes w) "garbage") eqn:Hv; [|reflexivity].
    destruct (reaches_valid _ _ _ _ Hr Hv) as [H0|(r & _ & Hc)].
    + vm_compute in H0. discriminate.
    + pose proof (Encode_length (FormValue r "name" +:+ FormValue r "date")) as Hl.
      rewrite <- Hc in Hl. vm_compute in Hl. discriminate.
Qed.
End Codes.

Lemma generated_code_validates_witness :
  Body (GenerateCodeHandler generateCodeRequest (initialWorld ∅ "/")).1
    = "YWxleDIwMjQtMDEtMDE=" +:+ newline /\
  Base64.DecodeString "YWxleDIwMjQtMDEtMDE=" = Ok "alex2024-01-01" /\
  isValid (validCodes (GenerateCodeHandler generateCodeRequest (initialWorld ∅ "/")).2)
          "YWxleDIwMjQtMDEtMDE=" = true /\
  isValid (validCodes (GenerateCodeHandler generateCodeRequest (initialWorld ∅ "/")).2)
          "garbage" = false.
Proof.
  destruct (generated_code_validates concatMerge (fun _ => ""))
    as (Hgen & Hok & _ & Hgarbage).
  destruct (Hgen generateCodeRequest (initialWorld ∅ "/"))
    as (Hresp & Hdec & Hvalid & _).
  { apply Hok; [reflexivity|reflexivity|discriminate|discriminate]. }
  split; [exact Hresp|]. split; [exact Hdec|]. split; [exact Hvalid|].
  apply (Hgarbage ∅ "/" [(GenerateCodeRoute, generateCodeRequest,
                          (GenerateCodeHandler generateCodeRequest
                             (initialWorld ∅ "/")).1)]).
  exact (reaches_step concatMerge (fun _ => "") _ [] _ GenerateCodeRoute
           generateCodeRequest (reaches_nil _ _ _)).
Defined.

(** [LoginHandler] and [AuthMiddleware] let a code in exactly when the
    index expression on [validCodes] gives [true]. *)
Lemma LoginHandler_accepts r w c :
  Method r = MethodPost -> ParseForm r = None ->
  Form r !! "access_code" = Some c -> c <> "" ->
  isValid (validCodes w) c = true ->
  LoginHandler r w
  = ({| Code := StatusSeeOther; Body := "";
        SetCookies := [ {| CookieName := "auth_code"; CookieValue := c;
                           CookiePath := "/"; HttpOnly := true;
                           CookieSameSite := SameSiteLaxMode |} ];
        Location := "/view/pdf" |}, w).
Proof.
  intros Hm Hp Hf Hne Hv. unfold LoginHandler, FormValue.
  rewrite Hm, Hp, Hf. simpl. apply String.eqb_neq in Hne. now rewrite Hne, Hv.
Qed.

Lemma LoginHandler_rejects r w c :
  Method r = MethodPost -> ParseForm r = None ->
  Form r !! "access_code" = Some c -> c <> "" ->
  isValid (validCodes w) c = false ->
  LoginHandler r w = (Error "Código de acceso inválido" StatusUnauthorized, w).
Proof.
  intros Hm Hp Hf Hne Hv. unfold LoginHandler, FormValue.
  rewrite Hm, Hp, Hf. simpl. apply String.eqb_neq in Hne. now rewrite Hne, Hv.
Qed.

Lemma AuthMiddleware_accepts next r w c :
  Cookies r !! "auth_code" = Some c -> isValid (validCodes w) c = true ->
  AuthMiddleware next r w = next (WithUserCode r c) w.
Proof. intros Hc Hv. unfold AuthMiddleware. now rewrite Hc, Hv. Qed.

Lemma AuthMiddleware_rejects next r w c :
  Cookies r !! "auth_code" = Some c -> isValid (validCodes w) c = false ->
  Code (AuthMiddleware next r w).1 = StatusUnauthorized /\
  (AuthMiddleware next r w).2 = w.
Proof. intros Hc Hv. unfold AuthMiddleware. now rewrite Hc, Hv. Qed.

(** C10: at process start, with no request served and no code generated
    yet, the hardcoded string alex validates: the initial set holds it, so
    a login that posts alex is answered with the redirect and the auth
    cookie, and a request whose auth cookie is alex passes the middleware
    and reaches the wrapped handler with alex as its user code; and alex
    stays valid in every state the server reaches. *)
Theorem alex_valid_at_start (fs0 : filesystem) (wd : string) :
  isValid (validCodes (initialWorld fs0 wd)) "alex" = true /\
  (forall r,
     Method r = MethodPost -> ParseForm r = None ->
     Form r !! "access_code" = Some "alex" ->
     LoginHandler r (initialWorld fs0 wd)
     = ({| Code := StatusSeeOther; Body := "";
           SetCookies := [ {| CookieName := "auth_code"; CookieValue := "alex";
                              CookiePath := "/"; HttpOnly := true;
                              CookieSameSite := SameSiteLaxMode |} ];
           Location := "/view/pdf" |}, initialWorld fs0 wd)) /\
  (forall (next : HandlerFunc) r,
     Cookies r !! "auth_code" = Some "alex" ->
     AuthMiddleware next r (initialWorld fs0 wd)
     = next (WithUserCode r "alex") (initialWorld fs0 wd)) /\
  (forall merge json tr w,
     reaches merge json (initialWorld fs0 wd) tr w ->
     isValid (validCodes w) "alex" = true).
Proof.
  assert (Hv : isValid (validCodes (initialWorld fs0 wd)) "alex" = true)
    by reflexivity.
  split; [exact Hv|]. split; [|split].
  - intros r Hm Hp Hf. now apply LoginHandler_accepts.
  - intros next r Hc. now apply AuthMiddleware_accepts.
  - intros merge json tr w Hr. exact (reaches_keeps _ _ _ _ _ _ Hr Hv).
Qed.

Lemma alex_valid_at_start_witness :
  Code (LoginHandler (withForm (newRequest MethodPost) {[ "access_code" := "alex" ]})
                     (initialWorld ∅ "/")).1 = StatusSeeOther /\
  AuthMiddleware DownloadHandler
    (withCookies (newRequest "GET") {[ "auth_code" := "alex" ]}) (initialWorld ∅ "/")
  = DownloadHandler
      (WithUserCode (withCookies (newRequest "GET") {[ "auth_code" := "alex" ]}) "alex")
      (initialWorld ∅ "/").
Proof.
  destruct (alex_valid_at_start ∅ "/") as (_ & Hlogin & Hauth & _).
  split.
  - rewrite (Hlogin (withForm (newRequest MethodPost) {[ "access_code" := "alex" ]}));
      reflexivity.
  - apply Hauth. reflexivity.
Defined.

(** * Further properties of the handlers *)

(** ** Facts about the fixtures *)

Lemma plain_alex : plainElem "alex".
Proof. repeat split; discriminate. Qed.

Lemma plain_bob : plainElem "bob".
Proof. repeat split; discriminate. Qed.

Lemma plain_f : plainElem "f".
Proof. repeat split; discriminate. Qed.


Lemma uploadRequest_names files :
  MultipartFiles uploadRequest = Ok files ->
  Forall (fun fh => noSep (Filename fh)) files.
Proof. intros [= <-]. repeat constructor. Qed.

(** ** [strconv.Itoa] and [strconv.Atoi] *)

Lemma uintValue_ge d acc : 0 <= acc -> acc <= uintValue d acc.
Proof.
  revert acc. induction d as [|d IHd|d IHd|d IHd|d IHd|d IHd|d IHd|d IHd|d IHd|d IHd|d IHd]; intros acc Hacc; simpl; try lia;
    (etransitivity; [|apply IHd]; lia).
Qed.

Lemma parseDigits_uint d acc :
  0 <= acc -> uintValue d acc <= Strconv.maxUint64 ->
  Strconv.parseDigits (NilEmpty.string_of_uint d) acc = Ok (uintValue d acc).
Proof.
  revert acc.
  induction d as [|d IHd|d IHd|d IHd|d IHd|d IHd|d IHd|d IHd|d IHd|d IHd|d IHd];
    intros acc Hacc Hmax; simpl in *; [reflexivity|..];
    (match goal with
     | |- context [byteOf ?c] =>
         let v := eval vm_compute in (byteOf c) in change (byteOf c) with v
     end;
     match goal with
     | |- context [uintValue d ?a] =>
         pose proof (uintValue_ge d a ltac:(lia)) as Hge
     end;
     match goal with
     | |- context [Strconv.maxUint64 <? ?x] =>
         replace (Strconv.maxUint64 <? x) with false
           by (symmetry; apply Z.ltb_ge; lia)
     end;
     apply IHd; [lia|exact Hmax]).
Qed.

Lemma uintValue_acc d acc : uintValue d (Zpos acc) = Zpos (Pos.of_uint_acc d acc).
Proof.
  revert acc. induction d as [|d IHd|d IHd|d IHd|d IHd|d IHd|d IHd|d IHd|d IHd|d IHd|d IHd]; intros acc; simpl; [reflexivity|..];
    (rewrite <- IHd; f_equal; lia).
Qed.

Lemma uintValue_of_uint d : uintValue d 0 = Z.of_N (Pos.of_uint d).
Proof.
  induction d as [|d IHd|d IHd|d IHd|d IHd|d IHd|d IHd|d IHd|d IHd|d IHd|d IHd]; simpl; [reflexivity|exact IHd|..];
    (rewrite <- uintValue_acc; reflexivity).
Qed.

Lemma uintValue_to_uint p : uintValue (Pos.to_uint p) 0 = Zpos p.
Proof. now rewrite uintValue_of_uint, DecimalPos.Unsigned.of_to. Qed.

Lemma string_of_uint_digits d : allDigits (NilEmpty.string_of_uint d) = true.
Proof. induction d; simpl; auto. Qed.

Lemma string_of_uint_nonempty d :
  d <> Nil -> exists c rest, NilEmpty.string_of_uint d = String c rest.
Proof. destruct d; [congruence|simpl; eauto..]. Qed.

Lemma Itoa_pos p :
  Strconv.Itoa (Zpos p) = NilEmpty.string_of_uint (Pos.to_uint p).
Proof.
  unfold Strconv.Itoa. simpl. unfold NilZero.string_of_uint.
  pose proof (DecimalPos.Unsigned.to_uint_nonnil p) as Hnn.
  now destruct (Pos.to_uint p).
Qed.

Lemma Itoa_neg p :
  Strconv.Itoa (Zneg p) = String "-" (NilEmpty.string_of_uint (Pos.to_uint p)).
Proof.
  unfold Strconv.Itoa. simpl. unfold NilZero.string_of_uint.
  pose proof (DecimalPos.Unsigned.to_uint_nonnil p) as Hnn.
  now destruct (Pos.to_uint p).
Qed.

Lemma ParseUint_to_uint p :
  Zpos p <= Strconv.maxUint64 ->
  Strconv.ParseUint (NilEmpty.string_of_uint (Pos.to_uint p)) = Ok (Zpos p).
Proof.
  intros Hmax. unfold Strconv.ParseUint.
  destruct (string_of_uint_nonempty (Pos.to_uint p)
              (DecimalPos.Unsigned.to_uint_nonnil p)) as (c & rest & Hs).
  rewrite Hs, <- Hs.
  rewrite parseDigits_uint by (rewrite ?uintValue_to_uint; lia).
  now rewrite uintValue_to_uint.
Qed.

(** [strconv.Atoi] reads back what [strconv.Itoa] prints. *)
Lemma Atoi_Itoa n :
  Strconv.minInt64 <= n <= Strconv.maxInt64 -> Strconv.Atoi (Strconv.Itoa n) = Ok n.
Proof.
  intros Hn. destruct n as [|p|p].
  - reflexivity.
  - rewrite Itoa_pos.
    pose proof (string_of_uint_digits (Pos.to_uint p)) as Hd.
    pose proof (ParseUint_to_uint p) as Hp.
    destruct (NilEmpty.string_of_uint (Pos.to_uint p)) as [|c rest] eqn:Hs.
    { destruct (string_of_uint_nonempty (Pos.to_uint p)
                  (DecimalPos.Unsigned.to_uint_nonnil p)) as (c & rest & Hs').
      congruence. }
    simpl in Hd. apply andb_true_iff in Hd as [Hc _].
    unfold Strconv.Atoi. destruct (isDigit_not_sign c Hc) as [-> ->].
    cbn [orb]. rewrite Hp by (unfold Strconv.maxUint64, Strconv.maxInt64 in *; lia).
    cbn [negb andb].
    replace (Strconv.maxInt64 <? Z.pos p) with false
      by (symmetry; apply Z.ltb_ge; lia).
    reflexivity.
  - rewrite Itoa_neg. unfold Strconv.Atoi.
    change (Ascii.eqb "-" "+") with false. change (Ascii.eqb "-" "-") with true.
    cbn [orb].
    rewrite ParseUint_to_uint
      by (unfold Strconv.maxUint64, Strconv.minInt64 in *; lia).
    cbn [negb andb].
    replace (- Strconv.minInt64 <? Z.pos p) with false
      by (symmetry; apply Z.ltb_ge; unfold Strconv.minInt64 in *; lia).
    reflexivity.
Qed.

Lemma allDigits_leadingSegment s t :
  allDigits s = true -> leadingSegment (s +:+ String "-" t) = s.
Proof.
  induction s as [|c s IH]; intros Hd; [reflexivity|].
  simpl in Hd. apply andb_true_iff in Hd as [Hc Hs].
  rewrite append_cons. simpl.
  destruct (isDigit_not_sign c Hc) as [_ ->]. now rewrite IH.
Qed.

Lemma Itoa_digits n : 0 < n -> allDigits (Strconv.Itoa n) = true.
Proof.
  destruct n as [|p|p]; try lia. intros _.
  rewrite Itoa_pos. apply string_of_uint_digits.
Qed.

Lemma Itoa_inj n m :
  Strconv.minInt64 <= n <= Strconv.maxInt64 ->
  Strconv.minInt64 <= m <= Strconv.maxInt64 ->
  Strconv.Itoa n = Strconv.Itoa m -> n = m.
Proof.
  intros Hn Hm Heq. pose proof (Atoi_Itoa n Hn) as H1.
  rewrite Heq, (Atoi_Itoa m Hm) in H1. congruence.
Qed.

(** The name written for a part that gets a number starts with that
    number. *)
Lemma uploadFilename_renamed counter i name :
  0 <= i -> 0 <= counter -> i + 1 + counter <= Strconv.maxInt64 ->
  is_err (Strconv.Atoi (leadingSegment name)) = true ->
  uploadFilename counter i name = Strconv.Itoa (i + 1 + counter) +:+ "-" +:+ name /\
  leadingSegment (uploadFilename counter i name) = Strconv.Itoa (i + 1 + counter) /\
  Strconv.Atoi (leadingSegment (uploadFilename counter i name)) = Ok (i + 1 + counter).
Proof.
  intros Hi Hc Hmax Herr.
  assert (Hname : uploadFilename counter i name
                  = Strconv.Itoa (i + 1 + counter) +:+ "-" +:+ name).
  { unfold uploadFilename. rewrite Split_hd.
    now destruct (Strconv.Atoi (leadingSegment name)). }
  assert (Hseg : leadingSegment (uploadFilename counter i name)
                 = Strconv.Itoa (i + 1 + counter)).
  { rewrite Hname. apply allDigits_leadingSegment, Itoa_digits. lia. }
  repeat split; [exact Hname|exact Hseg|].
  rewrite Hseg. apply Atoi_Itoa. unfold Strconv.minInt64. lia.
Qed.

Lemma uploadFilename_kept counter i name :
  is_err (Strconv.Atoi (leadingSegment name)) = false ->
  uploadFilename counter i name = name.
Proof.
  intros Hok. unfold uploadFilename. rewrite Split_hd.
  now destruct (Strconv.Atoi (leadingSegment name)).
Qed.

(** X1: the name [UploadHandler] gives an uploaded part is stable: its
    segment before the first dash parses as a number, so a part that
    arrives under a stored name is stored under that same name again,
    at whatever position of whatever batch (the sum i+1+counter being an
    [int]). *)
Theorem uploadFilename_stable counter i counter' i' name :
  0 <= i -> 0 <= counter -> i + 1 + counter <= Strconv.maxInt64 ->
  is_err (Strconv.Atoi (leadingSegment (uploadFilename counter i name))) = false /\
  uploadFilename counter' i' (uploadFilename counter i name)
  = uploadFilename counter i name.
Proof.
  intros Hi Hc Hmax.
  assert (Hok : is_err (Strconv.Atoi
                          (leadingSegment (uploadFilename counter i name))) = false).
  { destruct (is_err (Strconv.Atoi (leadingSegment name))) eqn:Herr.
    - destruct (uploadFilename_renamed counter i name Hi Hc Hmax Herr)
        as (_ & _ & ->). reflexivity.
    - now rewrite uploadFilename_kept. }
  split; [exact Hok|]. now apply uploadFilename_kept.
Qed.

Lemma uploadFilename_stable_witness :
  uploadFilename 1 0 "x.pdf" = "2-x.pdf" /\
  uploadFilename 5 3 (uploadFilename 1 0 "x.pdf") = uploadFilename 1 0 "x.pdf".
Proof.
  split; [reflexivity|].
  apply (uploadFilename_stable 1 0 5 3 "x.pdf"); [lia|lia|vm_compute; discriminate].
Defined.

(** X2: within one batch, two parts that get a number prefix get different
    names, whatever their client names: the prefixes are the decimal
    texts of different numbers. *)
Theorem uploadFilename_distinct counter i j name1 name2 :
  0 <= i -> 0 <= j -> 0 <= counter ->
  i + 1 + counter <= Strconv.maxInt64 -> j + 1 + counter <= Strconv.maxInt64 ->
  is_err (Strconv.Atoi (leadingSegment name1)) = true ->
  is_err (Strconv.Atoi (leadingSegment name2)) = true ->
  i <> j ->
  uploadFilename counter i name1 <> uploadFilename counter j name2.
Proof.
  intros Hi Hj Hc Hmi Hmj H1 H2 Hne Heq.
  destruct (uploadFilename_renamed counter i name1 Hi Hc Hmi H1) as (_ & _ & Ha).
  destruct (uploadFilename_renamed counter j name2 Hj Hc Hmj H2) as (_ & _ & Hb).
  rewrite Heq, Hb in Ha. injection Ha as Ha. lia.
Qed.

Lemma uploadFilename_distinct_witness :
  uploadFilename 1 0 "x.pdf" <> uploadFilename 1 1 "x.pdf".
Proof.
  apply (uploadFilename_distinct 1 0 1 "x.pdf" "x.pdf");
    [lia|lia|lia|vm_compute; discriminate|vm_compute; discriminate
    |reflexivity|reflexivity|lia].
Defined.

(** ** Clean rooted paths *)

Lemma rooted_elems comps :
  Forall plainElem comps ->
  Filepath.cleanElems true (Strings.Split (Strings.Join comps "/") "/") [] = comps.
Proof.
  intros Hall.
  rewrite <- (app_nil_r (Strings.Split _ _)), cleanElems_Split_Join by exact Hall.
  simpl. now rewrite app_nil_r, rev_involutive.
Qed.

Lemma rooted_inj l1 l2 :
  Forall plainElem l1 -> Forall plainElem l2 ->
  "/" +:+ Strings.Join l1 "/" = "/" +:+ Strings.Join l2 "/" -> l1 = l2.
Proof.
  intros H1 H2 Heq.
  change ("/" +:+ Strings.Join l1 "/") with (String "/" (Strings.Join l1 "/")) in Heq.
  change ("/" +:+ Strings.Join l2 "/") with (String "/" (Strings.Join l2 "/")) in Heq.
  injection Heq as Heq.
  rewrite <- (rooted_elems l1 H1), <- (rooted_elems l2 H2). now rewrite Heq.
Qed.

Lemma Clean_rooted_id comps :
  Forall plainElem comps ->
  Filepath.Clean ("/" +:+ Strings.Join comps "/") = "/" +:+ Strings.Join comps "/".
Proof.
  intros Hall.
  change ("/" +:+ Strings.Join comps "/") with (String "/" (Strings.Join comps "/")) at 1.
  now rewrite Clean_rooted, rooted_elems.
Qed.

(** Joining anything to a clean rooted path gives a clean rooted path. *)
Lemma Join_rooted_form comps s :
  Forall plainElem comps ->
  exists comps',
    Forall plainElem comps' /\
    Filepath.Join ["/" +:+ Strings.Join comps "/"; s] = "/" +:+ Strings.Join comps' "/".
Proof.
  intros Hall. unfold Filepath.Join. rewrite rooted_nonempty.
  change (Strings.Join ["/" +:+ Strings.Join comps "/"; s] "/")
    with (("/" +:+ Strings.Join comps "/") +:+ String "/" s).
  rewrite Clean_rooted_app by exact Hall.
  eexists. split; [|reflexivity].
  apply cleanElems_keeps_plain; [apply Split_noSep|now apply Forall_rev].
Qed.

Lemma plainElem_nonempty l :
  Forall plainElem l ->
  List.filter (fun e => negb (String.eqb e "")) l = l.
Proof.
  induction 1 as [|e l He _ IH]; [reflexivity|].
  simpl. destruct (plainElem_eqb e He) as (-> & _). simpl. now rewrite IH.
Qed.

Lemma Split_rooted comps :
  Forall plainElem comps ->
  List.filter (fun e => negb (String.eqb e ""))
              (Strings.Split ("/" +:+ Strings.Join comps "/") "/") = comps.
Proof.
  intros Hall.
  change (Strings.Split ("/" +:+ Strings.Join comps "/") "/")
    with ("" :: Strings.Split (Strings.Join comps "/") "/").
  destruct comps as [|c comps]; [reflexivity|].
  rewrite Split_Join by (congruence || now apply plainElem_noSep).
  change (List.filter (fun e => negb (String.eqb e "")) ("" :: c :: comps))
    with (List.filter (fun e => negb (String.eqb e "")) (c :: comps)).
  now apply plainElem_nonempty.
Qed.

Lemma Base_rooted comps e :
  Forall plainElem comps -> plainElem e ->
  Filepath.Base ("/" +:+ Strings.Join (comps ++ [e]) "/") = e.
Proof.
  intros Hall He. unfold Filepath.Base.
  change ("/" +:+ Strings.Join (comps ++ [e]) "/")
    with (String "/" (Strings.Join (comps ++ [e]) "/")).
  cbv beta iota.
  change (String "/" (Strings.Join (comps ++ [e]) "/"))
    with ("/" +:+ Strings.Join (comps ++ [e]) "/").
  rewrite Split_rooted by (apply Forall_app; split; [assumption|now constructor]).
  now rewrite rev_app_distr.
Qed.

(** ** The filesystem under [MkdirAll] and the upload loop *)

Lemma sameKind_refl fs0 : sameKind fs0 fs0.
Proof. intros p n H. eauto. Qed.

Lemma sameKind_trans fs0 fs1 fs2 :
  sameKind fs0 fs1 -> sameKind fs1 fs2 -> sameKind fs0 fs2.
Proof.
  intros H1 H2 p n Hp. destruct (H1 p n Hp) as (n1 & Hp1 & Hk1).
  destruct (H2 p n1 Hp1) as (n2 & Hp2 & Hk2). exists n2. split; congruence.
Qed.

Lemma mkdirs_preserves fs0 cur elems fs1 :
  OS.mkdirs fs0 cur elems = Ok fs1 ->
  forall p n, fs0 !! p = Some n -> fs1 !! p = Some n.
Proof.
  revert fs0 cur. induction elems as [|e elems IH]; intros fs0 cur Hmk p n Hp;
    simpl in Hmk.
  - destruct (decide (cur = p)) as [->|Hne].
    + rewrite Hp in Hmk. destruct n; [discriminate|].
      injection Hmk as <-. apply lookup_insert_eq.
    + destruct (fs0 !! cur) as [[d|]|]; try discriminate;
        injection Hmk as <-; now rewrite lookup_insert_ne.
  - assert (Hstep : <[cur := Directory]> fs0 !! p = Some n).
    { destruct (decide (cur = p)) as [->|Hne].
      - rewrite Hp in Hmk. destruct n; [discriminate|]. apply lookup_insert_eq.
      - now rewrite lookup_insert_ne. }
    destruct (fs0 !! cur) as [[d|]|]; try discriminate; eapply IH; eauto.
Qed.

Lemma mkdirs_creates fs0 pre elems fs1 :
  Forall plainElem pre -> Forall plainElem elems ->
  OS.mkdirs fs0 ("/" +:+ Strings.Join pre "/") elems = Ok fs1 ->
  fs1 !! ("/" +:+ Strings.Join (pre ++ elems) "/") = Some Directory.
Proof.
  intros Hpre Hel. revert fs0 pre Hpre.
  induction Hel as [|e elems He _ IH]; intros fs0 pre Hpre Hmk; simpl in Hmk.
  - rewrite app_nil_r.
    destruct (fs0 !! _) as [[d|]|]; try discriminate;
      injection Hmk as <-; apply lookup_insert_eq.
  - change (Filepath.Join ["/" +:+ Strings.Join pre "/"; e])
      with (Filepath.Join ["/" +:+ Strings.Join pre "/"; e]) in Hmk.
    replace (pre ++ e :: elems) with ((pre ++ [e]) ++ elems)
      by now rewrite <- app_assoc.
    destruct (fs0 !! _) as [[d|]|]; try discriminate;
      (eapply IH; [apply Forall_app; split; [assumption|now constructor]|];
       rewrite <- Join_rooted_plain by assumption; exact Hmk).
Qed.

Lemma MkdirAll_rooted fs0 comps fs1 :
  Forall plainElem comps ->
  OS.MkdirAll fs0 ("/" +:+ Strings.Join comps "/") = Ok fs1 ->
  fs1 !! ("/" +:+ Strings.Join comps "/") = Some Directory /\
  forall p n, fs0 !! p = Some n -> fs1 !! p = Some n.
Proof.
  intros Hall Hmk. unfold OS.MkdirAll in Hmk.
  rewrite Clean_rooted_id, Split_rooted in Hmk by exact Hall.
  split; [|now apply (mkdirs_preserves _ _ _ _ Hmk)].
  now apply (mkdirs_creates fs0 [] comps fs1).
Qed.

Lemma allDigits_noSep s : allDigits s = true -> noSep s.
Proof.
  induction s as [|c s IH]; intros Hd; [reflexivity|].
  simpl in Hd. apply andb_true_iff in Hd as [Hc Hs].
  unfold noSep in *. simpl. rewrite (IH Hs).
  destruct (Ascii.eqb_spec c "/") as [->|]; [discriminate Hc|reflexivity].
Qed.

(** The name the upload loop computes for a part whose client name has no
    separator is a plain path element. *)
Lemma uploadFilename_plain counter i name :
  0 <= i -> 0 <= counter -> noSep name -> plainElem (uploadFilename counter i name).
Proof.
  intros Hi Hc Hsep.
  destruct (is_err (Strconv.Atoi (leadingSegment name))) eqn:Herr.
  - assert (Hname : uploadFilename counter i name
                    = Strconv.Itoa (i + 1 + counter) +:+ "-" +:+ name).
    { unfold uploadFilename. rewrite Split_hd.
      now destruct (Strconv.Atoi (leadingSegment name)). }
    rewrite Hname.
    assert (Hd : allDigits (Strconv.Itoa (i + 1 + counter)) = true)
      by (apply Itoa_digits; lia).
    split.
    { apply noSep_app; [now apply allDigits_noSep|].
      now apply (noSep_app "-" name). }
    destruct (Strconv.Itoa (i + 1 + counter)) as [|c rest] eqn:Hs.
    { destruct (i + 1 + counter) as [|q|q] eqn:Hq; try lia.
      rewrite Itoa_pos in Hs.
      destruct (string_of_uint_nonempty (Pos.to_uint q)
                  (DecimalPos.Unsigned.to_uint_nonnil q)) as (c & rest & Hs').
      congruence. }
    simpl in Hd. apply andb_true_iff in Hd as [Hcd _].
    rewrite append_cons.
    repeat split; intros [= -> _]; discriminate Hcd.
  - rewrite uploadFilename_kept by exact Herr.
    split; [exact Hsep|].
    repeat split; intros ->; discriminate Herr.
Qed.


Lemma uploadFiles_sameKind folderPath counter i files fs0 res fs2 :
  uploadFiles folderPath counter i files fs0 = (res, fs2) -> sameKind fs0 fs2.
Proof.
  revert i fs0. induction files as [|fh files IH]; intros i fs0; cbn [uploadFiles].
  - intros [= _ <-]. apply sameKind_refl.
  - destruct (Open fh) as [data|e]; [|intros [= _ <-]; apply sameKind_refl].
    set (dst := Filepath.Join [folderPath; uploadFilename counter i (Filename fh)]).
    destruct (OS.Create fs0 dst) as [fs1|e] eqn:Hcr;
      [|intros [= _ <-]; apply sameKind_refl].
    assert (Hone : forall data', sameKind fs0 (<[dst := File data']> fs0)).
    { intros data' p n Hp. destruct (decide (dst = p)) as [<-|Hne].
      - exists (File data'). rewrite lookup_insert_eq. split; [reflexivity|].
        revert Hcr. unfold OS.Create. rewrite Hp. now destruct n.
      - exists n. now rewrite lookup_insert_ne. }
    assert (Hfs1 : fs1 = <[dst := File ""]> fs0).
    { revert Hcr. unfold OS.Create.
      destruct (fs0 !! dst) as [[d|]|]; try discriminate;
        destruct (fs0 !! Filepath.Dir dst) as [[d'|]|]; congruence. }
    destruct (OS.Copy fs1 dst data) as [fs1'|e] eqn:Hcp.
    + intros Hrest. eapply sameKind_trans; [|exact (IH _ _ Hrest)].
      rewrite (Create_Copy _ _ _ _ _ Hcr Hcp). apply Hone.
    + intros [= _ <-]. subst fs1. apply Hone.
Qed.

(** ** Folder listing: order *)

Lemma listing_In osReadDir dir ext files names :
  osReadDir dir = Ok files ->
  ListFilesWithExtension osReadDir dir ext = Ok names ->
  forall n, In n names <-> exists f, In f files /\ Name f = n /\ keeps ext f = true.
Proof.
  intros Hr Hl n. unfold ListFilesWithExtension in Hl. rewrite Hr in Hl.
  injection Hl as <-. rewrite matchFiles_filter.
  split.
  - intros Hin. apply (Permutation_in _ (Permutation_sym (Slice_perm less _))) in Hin.
    apply in_map_iff in Hin as (f & Hf & Hin). apply filter_In in Hin as [Hin Hk].
    now exists f.
  - intros (f & Hin & Hf & Hk). apply (Permutation_in _ (Slice_perm less _)).
    apply in_map_iff. exists f. split; [exact Hf|]. now apply filter_In.
Qed.

(** X3: the comparator that [ListFilesWithExtension] hands to [sort.Slice]
    is a strict total order on names: irreflexive, asymmetric, transitive,
    and deciding every pair of different names. *)
Theorem less_strict_total_order :
  (forall a, less a a = false) /\
  (forall a b, less a b = true -> less b a = false) /\
  (forall a b c, less a b = true -> less b c = true -> less a c = true) /\
  (forall a b, a <> b -> less a b = true \/ less b a = true).
Proof.
  split; [exact less_irrefl|]. split; [|split; [exact less_trans|]].
  - intros a b. rewrite !less_stringLess. apply stringLess_asym.
  - intros a b Hne.
    destruct (less a b) eqn:Hab; [now left|].
    destruct (less b a) eqn:Hba; [now right|].
    exfalso. apply Hne. now apply less_total.
Qed.

Lemma less_strict_total_order_witness :
  less "10-a.pdf" "9-a.pdf" = true /\ less "9-a.pdf" "10-a.pdf" = false.
Proof.
  destruct less_strict_total_order as (_ & Hasym & _ & Htot).
  destruct (Htot "10-a.pdf" "9-a.pdf" ltac:(discriminate)) as [H|H].
  - split; [exact H|]. now apply Hasym.
  - discriminate H.
Defined.

(** X4: a listing that succeeds is in ascending byte order: no name is
    below a name listed before it. *)
Theorem listing_sorted osReadDir dir ext names :
  ListFilesWithExtension osReadDir dir ext = Ok names ->
  StronglySorted (fun a b => stringLess b a = false) names /\
  forall i j a b, (i < j)%nat -> nth_error names i = Some a ->
                  nth_error names j = Some b -> stringLess b a = false.
Proof.
  intros Hl. unfold ListFilesWithExtension in Hl.
  destruct (osReadDir dir) as [files|e]; [|discriminate]. injection Hl as <-.
  assert (Hs : StronglySorted (fun a b => stringLess b a = false)
                 (Sort.Slice less (matchFiles files ext))).
  { rewrite Slice_less.
    apply (Slice_sorted stringLess stringLess_irrefl stringLess_trans stringLess_total). }
  split; [exact Hs|].
  generalize dependent (Sort.Slice less (matchFiles files ext)). intros l Hs.
  induction Hs as [|x l Hs IH Hx]; intros i j a b Hij Hi Hj.
  { destruct i; discriminate. }
  destruct j as [|j]; [lia|]. destruct i as [|i].
  - injection Hi as <-. simpl in Hj. apply nth_error_In in Hj.
    rewrite Forall_forall in Hx. apply Hx. now apply list_elem_of_In.
  - simpl in Hi, Hj. apply (IH i j); [lia|assumption..].
Qed.

Lemma listing_sorted_witness : stringLess "2-b.pdf" "10-a.pdf" = false.
Proof.
  apply (proj2 (listing_sorted (mockReadDir ["2-b.pdf"; "10-a.pdf"]) "/d" ".pdf"
                  ["10-a.pdf"; "2-b.pdf"] eq_refl) 0%nat 1%nat);
    [lia|reflexivity|reflexivity].
Defined.

Lemma filter_keeps_perm ext l1 l2 :
  Permutation l1 l2 ->
  Permutation (map Name (List.filter (keeps ext) l1))
              (map Name (List.filter (keeps ext) l2)).
Proof.
  intros Hp. apply Permutation_map.
  induction Hp as [|x l l' Hp IH|x y l|l l' l'' Hp1 IH1 Hp2 IH2]; simpl.
  - constructor.
  - destruct (keeps ext x); [now constructor|exact IH].
  - destruct (keeps ext x), (keeps ext y); try reflexivity. apply perm_swap.
  - now transitivity (List.filter (keeps ext) l').
Qed.

(** X5: the listing does not depend on the order in which the directory
    reader returns the entries: two readers that return the same entries
    in different orders give the same listing. *)
Theorem listing_order_independent
    (readDir1 readDir2 : string -> result (list DirEntry))
    (dir ext : string) (files1 files2 : list DirEntry) :
  readDir1 dir = Ok files1 -> readDir2 dir = Ok files2 ->
  Permutation files1 files2 ->
  ListFilesWithExtension readDir1 dir ext = ListFilesWithExtension readDir2 dir ext.
Proof.
  intros H1 H2 Hp.
  rewrite (listing_any_sort readDir2 dir ext files2
             (Sort.Slice less (matchFiles files1 ext)) H2).
  - unfold ListFilesWithExtension. now rewrite H1.
  - rewrite <- (Slice_perm less). rewrite !matchFiles_filter.
    apply filter_keeps_perm. now symmetry.
  - apply (Slice_sorted less less_irrefl less_trans less_total).
Qed.

Lemma listing_order_independent_witness :
  ListFilesWithExtension (mockReadDir ["2-b.pdf"; "10-a.pdf"; "c.txt"]) "/d" ".pdf"
  = ListFilesWithExtension (mockReadDir ["10-a.pdf"; "2-b.pdf"; "c.txt"]) "/d" ".pdf".
Proof.
  apply (listing_order_independent _ _ "/d" ".pdf"
           (map (fun n => {| Name := n; IsDir := false |}) ["2-b.pdf"; "10-a.pdf"; "c.txt"])
           (map (fun n => {| Name := n; IsDir := false |}) ["10-a.pdf"; "2-b.pdf"; "c.txt"]));
    [reflexivity|reflexivity|apply perm_swap].
Defined.

Lemma HasSuffix_empty s : Strings.HasSuffix s "" = true.
Proof.
  apply HasSuffix_spec. exists s.
  induction s as [|c s IH]; [reflexivity|]. rewrite append_cons. now f_equal.
Qed.

(** X6: with the empty extension every entry that is not a directory is
    listed, directories are still left out. *)
Theorem listing_empty_extension osReadDir dir files :
  osReadDir dir = Ok files ->
  exists names,
    ListFilesWithExtension osReadDir dir "" = Ok names /\
    Permutation names
      (map Name (List.filter (fun f => negb (IsDir f)) files)) /\
    length names = length (List.filter (fun f => negb (IsDir f)) files).
Proof.
  intros Hr. unfold ListFilesWithExtension. rewrite Hr.
  eexists. split; [reflexivity|].
  assert (Hf : List.filter (keeps "") files
               = List.filter (fun f => negb (IsDir f)) files).
  { apply filter_ext. intros f. unfold keeps.
    now rewrite HasSuffix_empty, andb_true_r. }
  assert (Hp : Permutation (Sort.Slice less (matchFiles files ""))
                 (map Name (List.filter (fun f => negb (IsDir f)) files))).
  { rewrite <- (Slice_perm less), matchFiles_filter, Hf. reflexivity. }
  split; [exact Hp|].
  rewrite (Permutation_length Hp). apply length_map.
Qed.

Lemma listing_empty_extension_witness :
  exists names,
    ListFilesWithExtension exampleReadDir "/test/dir" "" = Ok names /\
    Permutation names ["1-document.pdf"; "document.txt"] /\
    length names = 2%nat.
Proof.
  apply (listing_empty_extension exampleReadDir "/test/dir"
           [ {| Name := "1-document.pdf"; IsDir := false |};
             {| Name := "document.txt"; IsDir := false |};
             {| Name := "folder"; IsDir := true |} ]).
  reflexivity.
Defined.

(** ** The upload handler on the filesystem *)

(** The three ways [UploadHandler] ends: refused before the folder is
    made, stopped after [MkdirAll], or run through the loop. *)
Lemma UploadHandler_cases r w :
  (Code (UploadHandler r w).1 <> StatusOK /\ (UploadHandler r w).2 = w) \/
  exists usp fs1,
    getUserStoragePath r w = Ok usp /\
    OS.MkdirAll (fs w) (Filepath.Join [usp; FormValue r "folder"]) = Ok fs1 /\
    ((Code (UploadHandler r w).1 <> StatusOK /\ (UploadHandler r w).2 = setFs w fs1) \/
     exists destFiles files res fs2,
       ListFilesWithExtension (OS.ReadDir fs1)
         (Filepath.Join [usp; FormValue r "folder"]) ".pdf" = Ok destFiles /\
       MultipartFiles r = Ok files /\
       uploadFiles (Filepath.Join [usp; FormValue r "folder"])
         (Z.of_nat (length destFiles)) 0 files fs1 = (res, fs2) /\
       (UploadHandler r w).2 = setFs w fs2 /\
       (Code (UploadHandler r w).1 = StatusOK -> res = None)).
Proof.
  unfold UploadHandler.
  destruct (negb _); [left; split; [discriminate|reflexivity]|].
  destruct (getUserStoragePath r w) as [usp|e];
    [|left; split; [discriminate|reflexivity]].
  destruct (String.eqb _ _); [left; split; [discriminate|reflexivity]|].
  destruct (OS.MkdirAll _ _) as [fs1|e] eqn:Hmk;
    [|left; split; [discriminate|reflexivity]].
  right. exists usp, fs1. split; [reflexivity|]. split; [exact Hmk|].
  destruct (ListFilesWithExtension _ _ _) as [destFiles|e] eqn:Hls;
    [|left; split; [discriminate|reflexivity]].
  destruct (MultipartFiles r) as [files|e] eqn:Hmp;
    [|left; split; [discriminate|reflexivity]].
  right. exists destFiles, files.
  destruct (uploadFiles _ _ _ _ _) as [[resp|] fs2] eqn:Hup.
  - exists (Some resp), fs2. split; [reflexivity|]. split; [reflexivity|].
    split; [reflexivity|]. split; [reflexivity|].
    intros Hcode. apply uploadFiles_error in Hup. simpl in Hcode.
    rewrite Hup in Hcode. discriminate Hcode.
  - exists None, fs2. repeat split.
Qed.

Lemma MkdirAll_sameKind fs0 path fs1 :
  OS.MkdirAll fs0 path = Ok fs1 -> sameKind fs0 fs1.
Proof.
  unfold OS.MkdirAll. intros Hmk p n Hp. exists n. split; [|reflexivity].
  exact (mkdirs_preserves _ _ _ _ Hmk p n Hp).
Qed.

(** X7: [UploadHandler] changes neither the access codes, nor the record
    of merge calls, nor the working directory, and it removes nothing:
    every path of the filesystem is still there afterwards, a directory
    where it was a directory and a file where it was a file, whether the
    upload succeeds or fails on the way. *)
Theorem UploadHandler_never_removes (r : Request) (w : World) :
  validCodes (UploadHandler r w).2 = validCodes w /\
  mergeCalls (UploadHandler r w).2 = mergeCalls w /\
  cwd (UploadHandler r w).2 = cwd w /\
  forall p n,
    fs w !! p = Some n ->
    exists n', fs (UploadHandler r w).2 !! p = Some n' /\
               isDirectory n' = isDirectory n.
Proof.
  destruct (UploadHandler_cases r w)
    as [[_ ->]|(usp & fs1 & _ & Hmk &
                [[_ ->]|(destFiles & files & res & fs2 & _ & _ & Hup & -> & _)])].
  - repeat split. intros p n Hp. eauto.
  - repeat split. exact (MkdirAll_sameKind _ _ _ Hmk).
  - repeat split. simpl.
    exact (sameKind_trans _ _ _ (MkdirAll_sameKind _ _ _ Hmk)
             (uploadFiles_sameKind _ _ _ _ _ _ _ Hup)).
Qed.

Lemma UploadHandler_never_removes_witness :
  exists n', fs (UploadHandler uploadRequest uploadWorld).2 !! "/srv/archivos/alex/f/1-a.pdf"
             = Some n' /\ isDirectory n' = false.
Proof.
  destruct (UploadHandler_never_removes uploadRequest uploadWorld) as (_ & _ & _ & H).
  apply (H "/srv/archivos/alex/f/1-a.pdf" (File "A")). reflexivity.
Defined.

Lemma getUserStoragePath_rooted' r w s usp :
  cwd w = String "/" s -> getUserStoragePath r w = Ok usp ->
  exists comps, Forall plainElem comps /\ usp = "/" +:+ Strings.Join comps "/".
Proof.
  intros Hwd Hu. unfold getUserStoragePath in Hu.
  destruct (userCode r) as [code|] eqn:Hcode; [|discriminate].
  destruct (getUserStoragePath_rooted r w s code Hwd Hcode) as (comps & Hall & Heq).
  exists comps. split; [exact Hall|].
  unfold getUserStoragePath in Heq. rewrite Hcode in Heq. congruence.
Qed.



Lemma entriesOf_In fs0 dir e :
  In e (OS.entriesOf fs0 dir) <->
  exists p n, fs0 !! p = Some n /\ OS.isEntryOf dir p = true /\
              e = {| Name := Filepath.Base p; IsDir := isDirectory n |}.
Proof.
  unfold OS.entriesOf. rewrite <- list_elem_of_In, list_elem_of_omap. split.
  - intros ([p n] & Hin & Hf). apply elem_of_map_to_list in Hin. simpl in Hf.
    destruct (OS.isEntryOf dir p) eqn:Hent; [|discriminate].
    injection Hf as <-. now exists p, n.
  - intros (p & n & Hp & Hent & ->). exists (p, n).
    split; [now apply elem_of_map_to_list|]. simpl. now rewrite Hent.
Qed.

Lemma ReadDir_In fs0 dir entries e :
  OS.ReadDir fs0 dir = Ok entries ->
  In e entries <-> In e (OS.entriesOf fs0 dir).
Proof.
  unfold OS.ReadDir. destruct (fs0 !! dir) as [[d|]|]; try discriminate.
  intros [= <-]. split; intros H.
  - eapply Permutation_in; [symmetry; apply Slice_perm|exact H].
  - eapply Permutation_in; [apply Slice_perm|exact H].
Qed.

Lemma uploadFiles_written folderPath counter i files fs0 fs2 :
  uploadFiles folderPath counter i files fs0 = (None, fs2) ->
  forall k fh,
    nth_error files k = Some fh ->
    exists data,
      fs2 !! Filepath.Join
               [folderPath; uploadFilename counter (i + Z.of_nat k) (Filename fh)]
      = Some (File data).
Proof.
  revert i fs0. induction files as [|fh0 files IH]; intros i fs0 Hup k fh Hk.
  { destruct k; discriminate. }
  cbn [uploadFiles] in Hup.
  destruct (Open fh0) as [data|e]; [|discriminate].
  set (dst := Filepath.Join [folderPath; uploadFilename counter i (Filename fh0)]) in *.
  destruct (OS.Create fs0 dst) as [fs1|e] eqn:Hcr; [|discriminate].
  destruct (OS.Copy fs1 dst data) as [fs1'|e] eqn:Hcp; [|discriminate].
  destruct k as [|k].
  - injection Hk as <-. rewrite Z.add_0_r. fold dst.
    assert (Hnow : fs1' !! dst = Some (File data))
      by (rewrite (Create_Copy _ _ _ _ _ Hcr Hcp); apply lookup_insert_eq).
    destruct (uploadFiles_sameKind _ _ _ _ _ _ _ Hup dst _ Hnow) as (n' & Hn' & Hk').
    destruct n' as [d|]; [now exists d|discriminate].
  - simpl in Hk. destruct (IH (i + 1) fs1' Hup k fh Hk) as (d & Hd).
    exists d. now replace (i + Z.of_nat (S k)) with (i + 1 + Z.of_nat k) by lia.
Qed.

Lemma HasSuffix_app pre s ext :
  Strings.HasSuffix s ext = true -> Strings.HasSuffix (pre +:+ s) ext = true.
Proof.
  rewrite !HasSuffix_spec. intros [p ->]. exists (pre +:+ p).
  induction pre as [|c pre IH]; [reflexivity|]. rewrite !append_cons. now f_equal.
Qed.

Lemma uploadFilename_suffix counter i name ext :
  Strings.HasSuffix name ext = true ->
  Strings.HasSuffix (uploadFilename counter i name) ext = true.
Proof.
  intros Hs. unfold uploadFilename.
  destruct (Strconv.Atoi _); [exact Hs|].
  apply HasSuffix_app. now apply (HasSuffix_app "-").
Qed.

Lemma rooted_child_ne comps e :
  Forall plainElem comps -> plainElem e ->
  "/" +:+ Strings.Join (comps ++ [e]) "/" <> "/" +:+ Strings.Join comps "/".
Proof.
  intros Hall He Heq. apply rooted_inj in Heq; [|apply Forall_app; split; auto|auto].
  apply (f_equal (@length string)) in Heq. rewrite length_app in Heq. simpl in Heq. lia.
Qed.

(** An entry of a clean rooted folder that is a plain name is listed by
    [ListFilesWithExtension] when it is a file with the extension. *)
Lemma listed_file comps fs0 e data ext names :
  Forall plainElem comps -> plainElem e ->
  fs0 !! ("/" +:+ Strings.Join (comps ++ [e]) "/") = Some (File data) ->
  Strings.HasSuffix e ext = true ->
  ListFilesWithExtension (OS.ReadDir fs0) ("/" +:+ Strings.Join comps "/") ext
    = Ok names ->
  In e names.
Proof.
  intros Hall He Hfile Hsuf Hl.
  destruct (OS.ReadDir fs0 ("/" +:+ Strings.Join comps "/")) as [entries|err] eqn:Hrd.
  2:{ unfold ListFilesWithExtension in Hl. rewrite Hrd in Hl. discriminate. }
  apply (listing_In _ _ _ _ _ Hrd Hl).
  exists {| Name := e; IsDir := false |}. split; [|split; [reflexivity|]].
  - apply (ReadDir_In _ _ _ _ Hrd). apply entriesOf_In.
    exists ("/" +:+ Strings.Join (comps ++ [e]) "/"), (File data).
    split; [exact Hfile|]. split.
    + unfold OS.isEntryOf. rewrite Dir_rooted by assumption.
      rewrite String.eqb_refl. cbn [andb]. apply negb_true_iff, String.eqb_neq.
      apply rooted_child_ne; assumption.
    + now rewrite Base_rooted.
  - unfold keeps. simpl. exact Hsuf.
Qed.

(** X9: after an upload answered 200, the listing of the same folder
    succeeds, holds the stored name of every uploaded part whose name
    ends in .pdf, and still holds every name that was listed before. *)
Theorem upload_then_list (r : Request) (w : World) (s : string) :
  cwd w = String "/" s ->
  (forall files, MultipartFiles r = Ok files ->
                 Forall (fun fh => noSep (Filename fh)) files) ->
  Code (UploadHandler r w).1 = StatusOK ->
  exists usp files base names',
    getUserStoragePath r w = Ok usp /\
    MultipartFiles r = Ok files /\
    ListFilesWithExtension (OS.ReadDir (fs (UploadHandler r w).2))
      (Filepath.Join [usp; FormValue r "folder"]) ".pdf" = Ok names' /\
    (forall k fh,
       nth_error files k = Some fh ->
       Strings.HasSuffix (Filename fh) ".pdf" = true ->
       In (storedName base (Z.of_nat k + 1) (Filename fh)) names') /\
    (forall names n,
       ListFilesWithExtension (OS.ReadDir (fs w))
         (Filepath.Join [usp; FormValue r "folder"]) ".pdf" = Ok names ->
       In n names -> In n names').
Proof.
  intros Hwd Hnames Hcode.
  destruct (UploadHandler_cases r w)
    as [[Hno _]|(usp & fs1 & Husp & Hmk &
                 [[Hno _]|(destFiles & files & res & fs2 & Hls & Hmp & Hup & Hw' & Hres)])];
    try contradiction.
  specialize (Hres Hcode). subst res. rewrite Hw'. cbn [fs setFs].
  destruct (getUserStoragePath_rooted' r w s usp Hwd Husp) as (comps0 & Hall0 & ->).
  destruct (Join_rooted_form comps0 (FormValue r "folder") Hall0)
    as (comps & Hall & Hfp).
  rewrite Hfp in *.
  destruct (MkdirAll_rooted _ _ _ Hall Hmk) as [Hdir1 Hpres].
  pose proof (uploadFiles_sameKind _ _ _ _ _ _ _ Hup) as Hkind.
  assert (Hdir2 : fs2 !! ("/" +:+ Strings.Join comps "/") = Some Directory).
  { destruct (Hkind _ _ Hdir1) as ([d|] & Hn & Hk); [discriminate|exact Hn]. }
  destruct (OS.ReadDir fs2 ("/" +:+ Strings.Join comps "/")) as [entries2|err] eqn:Hrd2.
  2:{ unfold OS.ReadDir in Hrd2. rewrite Hdir2 in Hrd2. discriminate. }
  destruct (ListFilesWithExtension (OS.ReadDir fs2) ("/" +:+ Strings.Join comps "/") ".pdf")
    as [names'|err] eqn:Hl2.
  2:{ unfold ListFilesWithExtension in Hl2. rewrite Hrd2 in Hl2. discriminate. }
  exists ("/" +:+ Strings.Join comps0 "/"), files,
    (Z.of_nat (length destFiles)), names'.
  rewrite Hfp. split; [exact Husp|]. split; [exact Hmp|]. split; [exact Hl2|]. split.
  - intros k fh Hk Hsuf.
    destruct (uploadFiles_written _ _ _ _ _ _ Hup k fh Hk) as (data & Hdata).
    assert (Hplain : plainElem
                       (uploadFilename (Z.of_nat (length destFiles))
                          (0 + Z.of_nat k) (Filename fh))).
    { apply uploadFilename_plain; try lia.
      specialize (Hnames files Hmp). rewrite Forall_forall in Hnames.
      apply Hnames, list_elem_of_In. eapply nth_error_In; eauto. }
    rewrite Join_rooted_plain in Hdata by assumption.
    rewrite uploadFilename_storedName in Hdata, Hplain.
    replace (0 + Z.of_nat k + 1) with (Z.of_nat k + 1) in Hdata, Hplain by lia.
    eapply (listed_file comps fs2); eauto.
    rewrite <- (Z.add_0_l (Z.of_nat k)), <- uploadFilename_storedName.
    now apply uploadFilename_suffix.
  - intros names n Hl0 Hin.
    destruct (OS.ReadDir (fs w) ("/" +:+ Strings.Join comps "/")) as [entries0|err]
      eqn:Hrd0.
    2:{ unfold ListFilesWithExtension in Hl0. rewrite Hrd0 in Hl0. discriminate. }
    destruct (proj1 (listing_In _ _ _ _ _ Hrd0 Hl0 n) Hin) as (f & Hf & Hname & Hkeep).
    apply (ReadDir_In _ _ _ _ Hrd0) in Hf.
    apply entriesOf_In in Hf as (p & node & Hp & Hent & ->).
    apply (listing_In _ _ _ _ _ Hrd2 Hl2).
    apply Hpres in Hp. destruct (Hkind _ _ Hp) as (node' & Hp' & Hk').
    exists {| Name := Filepath.Base p; IsDir := isDirectory node' |}.
    split; [|split; [exact Hname|]].
    + apply (ReadDir_In _ _ _ _ Hrd2), entriesOf_In. now exists p, node'.
    + unfold keeps in *. simpl in *. now rewrite Hk'.
Qed.

Lemma upload_then_list_witness :
  exists usp files base names',
    getUserStoragePath uploadRequest uploadWorld = Ok usp /\
    MultipartFiles uploadRequest = Ok files /\
    ListFilesWithExtension (OS.ReadDir (fs (UploadHandler uploadRequest uploadWorld).2))
      (Filepath.Join [usp; FormValue uploadRequest "folder"]) ".pdf" = Ok names' /\
    (forall k fh,
       nth_error files k = Some fh ->
       Strings.HasSuffix (Filename fh) ".pdf" = true ->
       In (storedName base (Z.of_nat k + 1) (Filename fh)) names') /\
    (forall names n,
       ListFilesWithExtension (OS.ReadDir (fs uploadWorld))
         (Filepath.Join [usp; FormValue uploadRequest "folder"]) ".pdf" = Ok names ->
       In n names -> In n names').
Proof.
  apply (upload_then_list uploadRequest uploadWorld "srv").
  - reflexivity.
  - exact uploadRequest_names.
  - vm_compute. reflexivity.
Defined.

(** ** Generate, then download *)



(** ** /list and /generate *)

(** X11: what /list shows is what /generate merges: in a state where the
    folder lists a non-empty sequence of names, [ListHandler] answers 200
    with that sequence and leaves the state as it is, and [GenerateHandler]
    makes one merge call whose inputs are these names in this order, each
    joined to the folder path. *)
Theorem list_shows_merge_order
    (merge : filesystem -> list string -> string -> option error * filesystem)
    (json : list string -> string)
    (rl rg : Request) (w : World) (usp folder : string) (files : list string) :
  getUserStoragePath rl w = Ok usp -> getUserStoragePath rg w = Ok usp ->
  QueryGet rl "folder" = folder -> FormValue rg "folder" = folder ->
  Method rg = MethodPost -> folder <> "" ->
  ListFilesWithExtension (OS.ReadDir (fs w)) (Filepath.Join [usp; folder]) ".pdf"
    = Ok files ->
  files <> [] ->
  ListHandler json rl w = (Write StatusOK (json files), w) /\
  exists out,
    mergeCalls (GenerateHandler merge rg w).2
    = mergeCalls w ++
      [(map (fun f => Filepath.Join [Filepath.Join [usp; folder]; f]) files, out)].
Proof.
  intros Hl Hg Hql Hfg Hm Hne Hls Hnil.
  apply String.eqb_neq in Hne. split.
  - unfold ListHandler. now rewrite Hl, Hql, Hne, Hls.
  - eexists. unfold GenerateHandler. rewrite Hm, Hg, Hfg, Hne.
    change (negb (String.eqb MethodPost MethodPost)) with false. cbv iota.
    destruct files as [|f files]; [congruence|].
    pose proof (joinPDFs_call merge usp folder w f files Hls) as Hcall.
    destruct (joinPDFs merge usp folder w) as [[e|] w']; exact Hcall.
Qed.

Lemma list_shows_merge_order_witness :
  ListHandler (fun _ => "[]") (folderQuery "alex" "f") uploadWorld
  = (Write StatusOK "[]", uploadWorld) /\
  exists out,
    mergeCalls (GenerateHandler concatMerge uploadRequest uploadWorld).2
    = [(["/srv/archivos/alex/f/1-a.pdf"], out)].
Proof.
  apply (list_shows_merge_order concatMerge (fun _ => "[]") (folderQuery "alex" "f")
           uploadRequest uploadWorld "/srv/archivos/alex" "f" ["1-a.pdf"]).
  - reflexivity.
  - reflexivity.
  - reflexivity.
  - reflexivity.
  - reflexivity.
  - discriminate.
  - vm_compute. reflexivity.
  - discriminate.
Defined.

(** ** Login, middleware and routes *)

(** X12: a login answered with the redirect sets exactly one cookie,
    auth_code, with path /, HttpOnly and SameSite=Lax, redirects to
    /view/pdf and leaves the state as it is; a request that carries this
    cookie passes [AuthMiddleware] in every state the server reaches
    afterwards, and reaches the wrapped handler with the cookie's value as
    user code. *)
Theorem login_cookie_authenticates (r : Request) (w : World) :
  Code (LoginHandler r w).1 = StatusSeeOther ->
  exists c,
    SetCookies (LoginHandler r w).1
    = [ {| CookieName := "auth_code"; CookieValue := c; CookiePath := "/";
           HttpOnly := true; CookieSameSite := SameSiteLaxMode |} ] /\
    Location (LoginHandler r w).1 = "/view/pdf" /\
    (LoginHandler r w).2 = w /\
    forall merge json tr w' (next : HandlerFunc) r',
      reaches merge json w tr w' ->
      Cookies r' !! "auth_code" = Some c ->
      AuthMiddleware next r' w' = next (WithUserCode r' c) w'.
Proof.
  unfold LoginHandler.
  destruct (negb _); [discriminate|]. destruct (ParseForm r); [discriminate|].
  destruct (String.eqb _ _); [discriminate|].
  destruct (negb (isValid _ _)) eqn:Hv; [discriminate|]. intros _.
  apply negb_false_iff in Hv.
  exists (FormValue r "access_code"). repeat split.
  intros merge json tr w' next r' Hr Hc.
  apply AuthMiddleware_accepts; [exact Hc|].
  exact (reaches_keeps _ _ _ _ _ _ Hr Hv).
Qed.

Lemma login_cookie_authenticates_witness :
  exists c,
    SetCookies (LoginHandler loginRequest (initialWorld ∅ "/")).1
    = [ {| CookieName := "auth_code"; CookieValue := c; CookiePath := "/";
           HttpOnly := true; CookieSameSite := SameSiteLaxMode |} ] /\
    Location (LoginHandler loginRequest (initialWorld ∅ "/")).1 = "/view/pdf" /\
    (LoginHandler loginRequest (initialWorld ∅ "/")).2 = initialWorld ∅ "/" /\
    forall merge json tr w' (next : HandlerFunc) r',
      reaches merge json (initialWorld ∅ "/") tr w' ->
      Cookies r' !! "auth_code" = Some c ->
      AuthMiddleware next r' w' = next (WithUserCode r' c) w'.
Proof.
  apply (login_cookie_authenticates loginRequest (initialWorld ∅ "/")).
  vm_compute. reflexivity.
Defined.

(** X13: the routes /upload, /list, /generate and /download answer 401 and
    leave the state as it is for a request without the auth_code cookie
    and for one whose cookie is not a valid code. *)
Theorem guarded_routes_need_valid_cookie
    (merge : filesystem -> list string -> string -> option error * filesystem)
    (json : list string -> string) (rt : route) (r : Request) (w : World) :
  guarded rt = true ->
  match Cookies r !! "auth_code" with
  | Some c => isValid (validCodes w) c = false
  | None => True
  end ->
  Code (serve merge json rt r w).1 = StatusUnauthorized /\
  (serve merge json rt r w).2 = w.
Proof.
  intros Hg Hc.
  assert (H : forall next, Code (AuthMiddleware next r w).1 = StatusUnauthorized /\
                           (AuthMiddleware next r w).2 = w).
  { intros next. unfold AuthMiddleware.
    destruct (Cookies r !! "auth_code") as [c|]; [rewrite Hc|]; now split. }
  destruct rt; try discriminate Hg; apply H.
Qed.

Lemma guarded_routes_need_valid_cookie_witness :
  Code (serve concatMerge (fun _ => "[]") DownloadRoute
          (folderQueryIn "garbage" "f") uploadWorld).1 = StatusUnauthorized /\
  (serve concatMerge (fun _ => "[]") DownloadRoute
     (folderQueryIn "garbage" "f") uploadWorld).2 = uploadWorld.
Proof.
  apply (guarded_routes_need_valid_cookie concatMerge (fun _ => "[]") DownloadRoute
           (folderQueryIn "garbage" "f") uploadWorld).
  - reflexivity.
  - vm_compute. reflexivity.
Defined.

Lemma joinPDFs_cwd merge path folder w :
  cwd (joinPDFs merge path folder w).2 = cwd w.
Proof.
  unfold joinPDFs.
  destruct (ListFilesWithExtension _ _ _) as [files|]; [|reflexivity].
  destruct (length files =? 0)%nat; [reflexivity|].
  now destruct (merge _ _ _) as [[?|] ?].
Qed.

Lemma AuthMiddleware_frame {A} (proj : World -> A) next r w :
  (forall r' w', proj (next r' w').2 = proj w') ->
  proj (AuthMiddleware next r w).2 = proj w.
Proof.
  intros Hnext. unfold AuthMiddleware.
  destruct (Cookies r !! "auth_code"); [|reflexivity].
  destruct (negb _); [reflexivity|apply Hnext].
Qed.

Lemma UploadHandler_frame r w :
  cwd (UploadHandler r w).2 = cwd w /\ mergeCalls (UploadHandler r w).2 = mergeCalls w.
Proof.
  destruct (UploadHandler_cases r w)
    as [[_ ->]|(usp & fs1 & _ & _ &
                [[_ ->]|(destFiles & files & res & fs2 & _ & _ & _ & -> & _)])];
    now split.
Qed.

(** X14: what each route can change: no route changes the working
    directory; only /generate-code changes the access codes; only /upload
    and /generate change the filesystem; only /generate adds to the
    record of merge calls. *)
Theorem routes_frame
    (merge : filesystem -> list string -> string -> option error * filesystem)
    (json : list string -> string) (rt : route) (r : Request) (w : World) :
  cwd (serve merge json rt r w).2 = cwd w /\
  (rt <> GenerateCodeRoute -> validCodes (serve merge json rt r w).2 = validCodes w) /\
  (rt <> UploadRoute -> rt <> GenerateRoute ->
   fs (serve merge json rt r w).2 = fs w) /\
  (rt <> GenerateRoute -> mergeCalls (serve merge json rt r w).2 = mergeCalls w).
Proof.
  assert (Hgc : forall (A : Type) (proj : World -> A),
             (forall w0 codes, proj (setValidCodes w0 codes) = proj w0) ->
             proj (GenerateCodeHandler r w).2 = proj w).
  { intros A proj Hp.
    destruct (GenerateCodeHandler_cases r w) as [[_ ->] | ->]; [reflexivity|apply Hp]. }
  assert (Hgen : forall r0 w0,
             cwd (GenerateHandler merge r0 w0).2 = cwd w0 /\
             validCodes (GenerateHandler merge r0 w0).2 = validCodes w0).
  { intros r0 w0. split; [|apply GenerateHandler_codes].
    unfold GenerateHandler.
    destruct (negb _); [reflexivity|].
    destruct (getUserStoragePath r0 w0) as [usp|]; [|reflexivity].
    destruct (String.eqb _ _); [reflexivity|].
    pose proof (joinPDFs_cwd merge usp (FormValue r0 "folder") w0) as H.
    now destruct (joinPDFs _ _ _ _) as [[?|] ?]. }
  destruct rt; cbn [serve].
  - split; [now apply (Hgc _ cwd)|]. split; [congruence|].
    split; [intros _ _; now apply (Hgc _ fs)|intros _; now apply (Hgc _ mergeCalls)].
  - rewrite LoginHandler_codes. repeat split.
  - split; [apply (AuthMiddleware_frame cwd); intros; apply UploadHandler_frame|].
    split; [intros _; apply AuthMiddleware_codes, UploadHandler_codes|].
    split; [congruence|].
    intros _. apply (AuthMiddleware_frame mergeCalls).
    intros; apply UploadHandler_frame.
  - assert (H : (AuthMiddleware (ListHandler json) r w).2 = w).
    { apply (AuthMiddleware_frame (fun w => w)). intros. apply ListHandler_codes. }
    rewrite H. repeat split.
  - split; [apply (AuthMiddleware_frame cwd); intros; apply Hgen|].
    split; [intros _; apply AuthMiddleware_codes, GenerateHandler_codes|].
    split; congruence.
  - assert (H : (AuthMiddleware DownloadHandler r w).2 = w).
    { apply (AuthMiddleware_frame (fun w => w)). intros. apply DownloadHandler_codes. }
    rewrite H. repeat split.
Qed.

Lemma routes_frame_witness :
  fs (serve concatMerge (fun _ => "[]") GenerateCodeRoute generateCodeRequest uploadWorld).2
  = fs uploadWorld.
Proof.
  destruct (routes_frame concatMerge (fun _ => "[]") GenerateCodeRoute
              generateCodeRequest uploadWorld) as (_ & _ & H & _).
  apply H; discriminate.
Defined.

(** ** Storage roots of tenants *)

Lemma cleanElems_app rooted l1 l2 out :
  Filepath.cleanElems rooted (l1 ++ l2) out
  = Filepath.cleanElems rooted l2 (rev (Filepath.cleanElems rooted l1 out)).
Proof.
  revert out. induction l1 as [|e l1 IH]; intros out.
  - simpl. now rewrite rev_involutive.
  - cbn [app Filepath.cleanElems].
    destruct (_ || _); [apply IH|].
    destruct (String.eqb e "..").
    + destruct out as [|top out']; [destruct rooted; apply IH|].
      destruct (String.eqb top ".."); apply IH.
    + apply IH.
Qed.

(** The storage path of a user below an absolute working directory: the
    cleaned working directory, then "archivos", then the elements of the
    code, cleaned against what precedes them. *)
Lemma getUserStoragePath_elems r w s code :
  cwd w = String "/" s -> userCode r = Some code ->
  getUserStoragePath r w
  = Ok ("/" +:+ Strings.Join
          (Filepath.cleanElems true (Strings.Split code "/")
             ("archivos" :: rev (Filepath.cleanElems true (Strings.Split s "/") []))) "/").
Proof.
  intros Hwd Hu. unfold getUserStoragePath. rewrite Hu, Hwd. f_equal.
  unfold Filepath.Join. cbn [String.eqb].
  change (Strings.Join [String "/" s; "archivos"; code] "/")
    with (String "/" (s +:+ String "/" ("archivos" +:+ String "/" code))).
  rewrite Clean_rooted, !Split_app, cleanElems_app.
  change (Strings.Split "archivos" "/") with ["archivos"].
  cbn [app]. set (base := Filepath.cleanElems true (Strings.Split s "/") []).
  reflexivity.
Qed.


Lemma append_inv_tail (a b t : string) : a +:+ t = b +:+ t -> a = b.
Proof.
  revert b. induction a as [|x a IH]; intros [|y b] Heq.
  - reflexivity.
  - apply (f_equal String.length) in Heq. change ("" +:+ t) with t in Heq.
    rewrite length_append in Heq. simpl in Heq. lia.
  - apply (f_equal String.length) in Heq. change ("" +:+ t) with t in Heq.
    rewrite length_append in Heq. simpl in Heq. lia.
  - rewrite !append_cons in Heq. injection Heq as -> Heq. f_equal. now apply IH.
Qed.

Lemma getUserStoragePath_plain r w s code :
  cwd w = String "/" s -> userCode r = Some code -> plainElem code ->
  getUserStoragePath r w
  = Ok ("/" +:+ Strings.Join
          (Filepath.cleanElems true (Strings.Split s "/") [] ++ ["archivos"; code]) "/").
Proof.
  intros Hwd Hu Hc. rewrite (getUserStoragePath_elems r w s code Hwd Hu).
  rewrite (proj1 Hc).
  rewrite <- (app_nil_r [code]), cleanElems_plain by (constructor; [exact Hc|constructor]).
  cbn [rev app Filepath.cleanElems]. now rewrite rev_involutive, <- app_assoc.
Qed.

Lemma plainElem_archivos : plainElem "archivos".
Proof. repeat split; discriminate. Qed.

Lemma base_plain s :
  Forall plainElem (Filepath.cleanElems true (Strings.Split s "/") []).
Proof. apply cleanElems_keeps_plain; [apply Split_noSep|constructor]. Qed.

(** X15: with an absolute working directory, two different codes that are
    plain path elements have different storage roots, and for plain folder
    and file names their folder paths, their merged outputs and their
    stored files are pairwise different paths. *)
Theorem tenant_paths_disjoint (r1 r2 : Request) (w : World) (s c1 c2 u1 u2 : string) :
  cwd w = String "/" s ->
  userCode r1 = Some c1 -> userCode r2 = Some c2 ->
  plainElem c1 -> plainElem c2 -> c1 <> c2 ->
  getUserStoragePath r1 w = Ok u1 -> getUserStoragePath r2 w = Ok u2 ->
  u1 <> u2 /\
  forall f1 f2, plainElem f1 -> plainElem f2 ->
    Filepath.Join [u1; f1] <> Filepath.Join [u2; f2] /\
    Filepath.Join [u1; f1 +:+ ".pdf"] <> Filepath.Join [u2; f2 +:+ ".pdf"] /\
    Filepath.Join [Filepath.Join [u1; f1]; "../"; f1 +:+ ".pdf"]
    <> Filepath.Join [Filepath.Join [u2; f2]; "../"; f2 +:+ ".pdf"] /\
    forall n1 n2, plainElem n1 -> plainElem n2 ->
      Filepath.Join [Filepath.Join [u1; f1]; n1]
      <> Filepath.Join [Filepath.Join [u2; f2]; n2].
Proof.
  intros Hwd H1 H2 Hc1 Hc2 Hne Hu1 Hu2.
  rewrite (getUserStoragePath_plain r1 w s c1 Hwd H1 Hc1) in Hu1.
  rewrite (getUserStoragePath_plain r2 w s c2 Hwd H2 Hc2) in Hu2.
  injection Hu1 as <-. injection Hu2 as <-.
  set (base := Filepath.cleanElems true (Strings.Split s "/") []).
  pose proof (base_plain s) as Hbase. fold base in Hbase.
  assert (Hr : forall c, plainElem c -> Forall plainElem (base ++ ["archivos"; c])).
  { intros c Hc. apply Forall_app. split; [exact Hbase|].
    repeat constructor; try apply plainElem_archivos; apply Hc. }
  assert (Hdiff : forall l1 l2, Forall plainElem l1 -> Forall plainElem l2 ->
             "/" +:+ Strings.Join ((base ++ ["archivos"; c1]) ++ l1) "/"
             <> "/" +:+ Strings.Join ((base ++ ["archivos"; c2]) ++ l2) "/").
  { intros l1 l2 Hl1 Hl2 Heq. apply rooted_inj in Heq.
    - rewrite <- !app_assoc in Heq. apply app_inv_head in Heq.
      cbn [app] in Heq. injection Heq as Hc _. contradiction.
    - apply Forall_app. split; [now apply Hr|exact Hl1].
    - apply Forall_app. split; [now apply Hr|exact Hl2]. }
  split.
  { intros Heq. apply (Hdiff [] []); [constructor..|]. now rewrite !app_nil_r. }
  intros f1 f2 Hf1 Hf2.
  pose proof (plainElem_pdf f1 (proj1 Hf1)) as Hp1.
  pose proof (plainElem_pdf f2 (proj1 Hf2)) as Hp2.
  rewrite !output_path_single_element by auto.
  rewrite !Join_rooted_plain by auto.
  split; [apply Hdiff; (constructor; [assumption|constructor])|].
  split; [apply Hdiff; (constructor; [assumption|constructor])|].
  split; [apply Hdiff; (constructor; [assumption|constructor])|].
  intros n1 n2 Hn1 Hn2.
  assert (Hrf : forall c f, plainElem c -> plainElem f ->
                       Forall plainElem ((base ++ ["archivos"; c]) ++ [f])).
  { intros c f Hc Hf. apply Forall_app. split; [now apply Hr|].
    constructor; [exact Hf|constructor]. }
  rewrite !Join_rooted_plain by auto.
  rewrite <- !(app_assoc (base ++ _)).
  apply Hdiff; cbn [app]; repeat (constructor; [assumption|]); constructor.
Qed.

Lemma tenant_paths_disjoint_witness :
  "/srv/archivos/alex" <> "/srv/archivos/bob" /\
  Filepath.Join ["/srv/archivos/alex"; "f"] <> Filepath.Join ["/srv/archivos/bob"; "f"].
Proof.
  destruct (tenant_paths_disjoint (folderQuery "alex" "f") (folderQuery "bob" "f")
              tenantsWorld "srv" "alex" "bob" "/srv/archivos/alex" "/srv/archivos/bob")
    as (Hroot & Hrest).
  - reflexivity.
  - reflexivity.
  - reflexivity.
  - exact plain_alex.
  - exact plain_bob.
  - discriminate.
  - reflexivity.
  - reflexivity.
  - split; [exact Hroot|]. exact (proj1 (Hrest "f" "f" plain_f plain_f)).
Defined.




(** ** Codes and the concatenation they encode *)

Lemma EncodeToString_inj s1 s2 :
  Base64.EncodeToString s1 = Base64.EncodeToString s2 -> s1 = s2.
Proof.
  intros Heq. pose proof (DecodeString_Encode s1) as H1.
  rewrite Heq, DecodeString_Encode in H1. congruence.
Qed.

(** X17: two answered calls of /generate-code return the same code
    exactly when name followed by date is the same byte string in both:
    different splits of one string into name and date share a code. *)
Theorem code_identifies_concatenation (r1 r2 : Request) (w1 w2 : World) :
  Code (GenerateCodeHandler r1 w1).1 = StatusOK ->
  Code (GenerateCodeHandler r2 w2).1 = StatusOK ->
  (Body (GenerateCodeHandler r1 w1).1 = Body (GenerateCodeHandler r2 w2).1
   <-> FormValue r1 "name" +:+ FormValue r1 "date"
       = FormValue r2 "name" +:+ FormValue r2 "date").
Proof.
  intros H1 H2.
  destruct (GenerateCodeHandler_cases r1 w1) as [[Hno _]|E1]; [contradiction|].
  destruct (GenerateCodeHandler_cases r2 w2) as [[Hno _]|E2]; [contradiction|].
  rewrite E1, E2.
  cbn [fst Body Write]. split.
  - intros Heq. apply append_inv_tail in Heq. now apply EncodeToString_inj.
  - now intros ->.
Qed.

Lemma code_identifies_concatenation_witness :
  Body (GenerateCodeHandler (codeRequest "ab" "c") (initialWorld ∅ "/")).1
  = Body (GenerateCodeHandler (codeRequest "a" "bc") (initialWorld ∅ "/")).1.
Proof.
  apply (code_identifies_concatenation (codeRequest "ab" "c") (codeRequest "a" "bc")
           (initialWorld ∅ "/") (initialWorld ∅ "/")).
  - vm_compute. reflexivity.
  - vm_compute. reflexivity.
  - reflexivity.
Defined.

(** ** The page handler of cmd/main.go *)

(** X18: [viewHandler] decides on the presence of the auth_code cookie
    only: a request whose cookie is not a valid code, which every guarded
    route answers 401, is served pkg/pdf/view.html below the working
    directory, as is every request with that cookie in every state with
    the same filesystem and working directory. *)
Theorem view_page_ignores_validity
    (merge : filesystem -> list string -> string -> option error * filesystem)
    (json : list string -> string) (r : Request) (w : World) (c page : string) :
  Cookies r !! "auth_code" = Some c ->
  isValid (validCodes w) c = false ->
  fs w !! Filepath.Join [cwd w; "pkg"; "pdf"; "view.html"] = Some (File page) ->
  Main.viewHandler r w = Some (Write StatusOK page, w) /\
  (forall rt, guarded rt = true ->
     Code (serve merge json rt r w).1 = StatusUnauthorized) /\
  (forall r' w',
     fs w' = fs w -> cwd w' = cwd w -> Cookies r' !! "auth_code" <> None ->
     Main.viewHandler r' w' = Some (Write StatusOK page, w')).
Proof.
  intros Hc Hv Hpage.
  assert (Hview : forall r' w',
             fs w' = fs w -> cwd w' = cwd w -> Cookies r' !! "auth_code" <> None ->
             Main.viewHandler r' w' = Some (Write StatusOK page, w')).
  { intros r' w' Hfs Hwd Hk. unfold Main.viewHandler, Main.loadPage, OS.ReadFile.
    destruct (Cookies r' !! "auth_code"); [|contradiction].
    now rewrite Hfs, Hwd, Hpage. }
  split; [apply Hview; [reflexivity|reflexivity|now rewrite Hc]|].
  split; [|exact Hview].
  intros rt Hg.
  assert (H : forall next, Code (AuthMiddleware next r w).1 = StatusUnauthorized)
    by (intros next; apply (AuthMiddleware_rejects next r w c Hc Hv)).
  destruct rt; try discriminate Hg; apply H.
Qed.

Lemma view_page_ignores_validity_witness :
  Main.viewHandler (folderQueryIn "garbage" "f") viewWorld
  = Some (Write StatusOK "<html>pdf</html>", viewWorld) /\
  Code (serve concatMerge (fun _ => "[]") ListRoute
          (folderQueryIn "garbage" "f") viewWorld).1 = StatusUnauthorized.
Proof.
  destruct (view_page_ignores_validity concatMerge (fun _ => "[]")
              (folderQueryIn "garbage" "f") viewWorld "garbage" "<html>pdf</html>")
    as (Hview & Hguard & _).
  - reflexivity.
  - reflexivity.
  - reflexivity.
  - split; [exact Hview|]. apply Hguard. reflexivity.
Defined.
